(** * Chunked file transfer over a data channel (src/main.js)

    A shallow embedding of the transfer core of [main.js]: the chunking
    loop of [sendFile] with its backpressure check, the frame dispatcher
    [handleDataChannelMessage] and the three receiver handlers.

    What is modelled and how:
    - byte buffers are [list byte]; JavaScript numbers that hold sizes and
      indices are [Z] (they are exact integers far below 2^53), and the one
      place where the code can produce a non-number
      ([chunk.byteLength || chunk.length] on an empty [ArrayBuffer]) is
      modelled with [Number], which has a [NaN];
    - the module-level variables of the page ([dataChannel], [zstdCodec],
      [incomingFile], [receivedChunks], [receivedSize], [benchmark]) are the
      fields of one record [Peer], threaded through every function;
    - a text frame is modelled after [JSON.parse]: a [Message];
    - an exception aborts the handler that raised it and leaves the
      mutations made before it: every function returns a [Completion]
      together with the state at the point where it stopped;
    - [sendFile] is asynchronous: it is suspended while the file is read
      and while the channel drains, and the handlers of the frames that
      arrive meanwhile run on the same variables before it goes on;
    - the zstd codec, the size in bytes of a serialised control message,
      the draining of the channel and the frames that arrive while
      [sendFile] is suspended are parameters;
    - the codec reports a failed decompression by returning [null]:
      [handleChunkData] stores that [null] among the received chunks
      before it fails on it.

    Not modelled: the DOM (progress bar, statistics cards), the text of log
    lines of type info, success and highlight, the [performance.now()]
    readings kept in [benchmark], and a call of [sendFile] made while
    another one is suspended that later resumes (their frames would
    interleave on the channel). *)

From Stdlib Require Import String Strings.Byte.
From Stdlib Require Import ZArith QArith Qround Lia Bool List.
Import ListNotations.
Local Open Scope Z_scope.


(** ** JavaScript values and built-ins used by the transfer code *)

Module Js.

Definition bytes := list byte.

(** A number that is an integer, or [NaN]. *)
Inductive Number := Num (z : Z) | NaN.

(** The two kinds of binary objects the code handles: the [ArrayBuffer]s
    produced by [file.arrayBuffer()], [ArrayBuffer.slice] and the channel
    (its [binaryType] is ['arraybuffer']), and the [Uint8Array]s returned
    by the codec.  A [Uint8Array] of the codec spans its whole buffer, so
    [chunk.buffer] holds exactly its elements. *)
Inductive BufferSource := ArrayBuffer (b : bytes) | Uint8Array (b : bytes).

Definition contents (d : BufferSource) : bytes :=
  match d with ArrayBuffer b => b | Uint8Array b => b end.

Definition len (b : bytes) : Z := Z.of_nat (List.length b).

Definition byteLength (d : BufferSource) : Z := len (contents d).

(** [d.byteLength || d.length].  An [ArrayBuffer] has no [length]
    property: when its [byteLength] is 0 (falsy) the expression is
    [undefined], here [None].  A [Uint8Array] has both. *)
Definition byteLength_or_length (d : BufferSource) : option Z :=
  match d with
  | ArrayBuffer b => if len b =? 0 then None else Some (len b)
  | Uint8Array b => Some (len b)
  end.

(** [n + v] where [v] is a number or [undefined]. *)
Definition add (n : Number) (v : option Z) : Number :=
  match n, v with
  | Num a, Some b => Num (a + b)
  | _, _ => NaN
  end.

(** [ToIntegerOrInfinity]: [NaN] becomes 0. *)
Definition ToInteger (n : Number) : Z :=
  match n with Num z => z | NaN => 0 end.

(** [Math.ceil(a / b)] for integers [a] and [b]. *)
Definition Math_ceil_div (a b : Z) : Z := Qceiling (inject_Z a / inject_Z b).

(** [ArrayBuffer.prototype.slice(start, end)]: negative positions count
    from the end, both are clamped to the buffer. *)
Definition slice (buf : bytes) (start end_ : Z) : bytes :=
  let n := len buf in
  let first := if start <? 0 then Z.max (n + start) 0 else Z.min start n in
  let final := if end_ <? 0 then Z.max (n + end_) 0 else Z.min end_ n in
  firstn (Z.to_nat (Z.max (final - first) 0)) (skipn (Z.to_nat first) buf).

(** [new Uint8Array(n)]: [n] zero bytes; a negative length is a
    [RangeError] ([None]). *)
Definition new_Uint8Array (n : Number) : option bytes :=
  let k := ToInteger n in
  if k <? 0 then None else Some (repeat x00 (Z.to_nat k)).

(** [target.set(source, offset)]: overwrites [target] from [offset];
    a [RangeError] ([None]) when the source does not fit. *)
Definition set (target source : bytes) (offset : Number) : option bytes :=
  let off := ToInteger offset in
  if (off <? 0) || (len target <? len source + off) then None
  else Some (firstn (Z.to_nat off) target ++ source
             ++ skipn (Z.to_nat (off + len source)) target).

End Js.

Import Js.

(** ** Constants *)

Definition CHUNK_SIZE : Z := 64 * 1024.
Definition BUFFER_THRESHOLD : Z := 1024 * 1024.

(** ** Frames *)

(** The [metadata] object written by [sendFile]. *)
Record FileMetadata := {
  meta_name : string;
  meta_size : Z;
  meta_mimeType : string;
  meta_compressed : bool;
  meta_compressionLevel : Number;
  meta_totalChunks : Z
}.

(** The [chunkHeader] object. [compressedSize] is absent from the JSON text
    when the expression that computes it is [undefined]. *)
Record ChunkHeader := {
  index : Z;
  originalSize : Z;
  compressedSize : option Z
}.

(** A text frame after [JSON.parse], discriminated by its [type] field.
    [Other] is a value whose [type] is none of the three known tags (the
    [switch] has no case for it); [Malformed] is a text on which
    [JSON.parse] or the access to [.type] throws. *)
Inductive Message :=
| Metadata (m : FileMetadata)
| Chunk (h : ChunkHeader)
| Complete
| Other
| Malformed.

Inductive Frame :=
| Text (m : Message)
| Binary (b : bytes).

(** ** Global state of a page *)

Inductive Error := CodecNotInitialized | TypeError | RangeError | SyntaxError.

(** How a call ended: it returned, it threw, or (for the asynchronous
    [sendFile]) it is suspended on an event that never comes. *)
Inductive Completion := Returned | Threw (e : Error) | Pending.

(** [zstdCodec]: the streaming codec object of the zstd library.
    [decompress] returns [null] ([None]) on input that it cannot decode:
    the library reports the failure by its return value, it does not
    throw. *)
Record ZstdStreaming := {
  compress : bytes -> Number -> bytes;
  decompress : bytes -> option bytes
}.

Record IncomingFile := {
  name : string;
  size : Z;
  mimeType : string;
  compressed : bool;
  totalChunks : Z;
  currentChunk : option ChunkHeader
}.

(** The counters of [benchmark] (its timestamps are not modelled). *)
Record Benchmark := {
  bm_originalSize : Z;
  bm_compressedSize : Z;
  chunksSent : Z;
  chunksReceived : Z
}.

(** An entry appended to the list of received files: the declared name
    and size shown next to the link, and the [Blob] behind the link. *)
Record ReceivedFile := {
  file_name : string;
  file_size : Z;
  blob : bytes;
  blob_type : string
}.

(** The log lines written with type ['error'] or ['warning']. *)
Inductive Report :=
| NoFileSelected
| DataChannelNotReady
| BufferFull (buffered : Z).

Inductive ReadyState := connecting | open | closing | closed.

(** What the sender did on the channel, oldest first: [Sent f b] is a
    call [send(f)] after which [b] bytes are buffered; [Suspended b] is
    the sender starting to wait for ['bufferedamountlow'] with [b] bytes
    buffered, [Resumed b] the event arriving with [b] bytes left. *)
Inductive Event :=
| Sent (f : Frame) (buffered : Z)
| Suspended (buffered : Z)
| Resumed (buffered : Z).

Record RTCDataChannel := {
  readyState : ReadyState;
  bufferedAmount : Z;
  bufferedAmountLowThreshold : Z;
  history : list Event
}.

(** An element of [receivedChunks] is the [ArrayBuffer] of a binary
    frame, the [Uint8Array] that the codec made of it, or the [null]
    ([None]) that the codec returned for it. *)
Record Peer := {
  dataChannel : option RTCDataChannel;
  zstdCodec : option ZstdStreaming;
  incomingFile : option IncomingFile;
  receivedChunks : list (option BufferSource);
  receivedSize : Number;
  benchmark : Benchmark;
  fileList : list ReceivedFile;
  reports : list Report
}.

Definition set_dataChannel (c : option RTCDataChannel) (p : Peer) : Peer :=
  {| dataChannel := c; zstdCodec := zstdCodec p;
     incomingFile := incomingFile p; receivedChunks := receivedChunks p;
     receivedSize := receivedSize p; benchmark := benchmark p;
     fileList := fileList p; reports := reports p |}.

Definition set_benchmark (b : Benchmark) (p : Peer) : Peer :=
  {| dataChannel := dataChannel p; zstdCodec := zstdCodec p;
     incomingFile := incomingFile p; receivedChunks := receivedChunks p;
     receivedSize := receivedSize p; benchmark := b;
     fileList := fileList p; reports := reports p |}.

Definition set_incomingFile (f : option IncomingFile) (p : Peer) : Peer :=
  {| dataChannel := dataChannel p; zstdCodec := zstdCodec p;
     incomingFile := f; receivedChunks := receivedChunks p;
     receivedSize := receivedSize p; benchmark := benchmark p;
     fileList := fileList p; reports := reports p |}.

Definition add_report (r : Report) (p : Peer) : Peer :=
  {| dataChannel := dataChannel p; zstdCodec := zstdCodec p;
     incomingFile := incomingFile p; receivedChunks := receivedChunks p;
     receivedSize := receivedSize p; benchmark := benchmark p;
     fileList := fileList p; reports := reports p ++ [r] |}.

(** The module-level variables as the script initialises them. *)
Definition initial : Peer :=
  {| dataChannel := None;
     zstdCodec := None;
     incomingFile := None;
     receivedChunks := [];
     receivedSize := Num 0;
     benchmark := {| bm_originalSize := 0; bm_compressedSize := 0;
                     chunksSent := 0; chunksReceived := 0 |};
     fileList := [];
     reports := [] |}.

Definition set_zstdCodec (z : option ZstdStreaming) (p : Peer) : Peer :=
  {| dataChannel := dataChannel p; zstdCodec := z;
     incomingFile := incomingFile p; receivedChunks := receivedChunks p;
     receivedSize := receivedSize p; benchmark := benchmark p;
     fileList := fileList p; reports := reports p |}.

(** ** Compression functions *)

(** [compressData(data, level).data]; throws when the codec is not
    initialised. *)
Definition compressData (p : Peer) (data : bytes) (level : Number)
  : option BufferSource :=
  match zstdCodec p with
  | None => None
  | Some z => Some (Uint8Array (compress z data level))
  end.

(** [decompressData(data).data]: what the codec returned, be it [null];
    throws when the codec is not initialised. *)
Definition decompressData (p : Peer) (data : bytes)
  : Error + option BufferSource :=
  match zstdCodec p with
  | None => inl CodecNotInitialized
  | Some z => inr (option_map Uint8Array (decompress z data))
  end.

(** ** Receiver *)

Definition handleFileMetadata (metadata : FileMetadata) (p : Peer)
  : Completion * Peer :=
  (Returned,
   {| dataChannel := dataChannel p; zstdCodec := zstdCodec p;
      incomingFile := Some {| name := meta_name metadata;
                              size := meta_size metadata;
                              mimeType := meta_mimeType metadata;
                              compressed := meta_compressed metadata;
                              totalChunks := meta_totalChunks metadata;
                              currentChunk := None |};
      receivedChunks := [];
      receivedSize := Num 0;
      benchmark := {| bm_originalSize := meta_size metadata;
                      bm_compressedSize := 0;
                      chunksSent := 0;
                      chunksReceived := 0 |};
      fileList := fileList p; reports := reports p |}).

Definition clear_currentChunk (f : IncomingFile) : IncomingFile :=
  {| name := name f; size := size f; mimeType := mimeType f;
     compressed := compressed f; totalChunks := totalChunks f;
     currentChunk := None |}.

Definition set_currentChunk (h : ChunkHeader) (f : IncomingFile) : IncomingFile :=
  {| name := name f; size := size f; mimeType := mimeType f;
     compressed := compressed f; totalChunks := totalChunks f;
     currentChunk := Some h |}.

Definition add_compressedSize (n : Z) (b : Benchmark) : Benchmark :=
  {| bm_originalSize := bm_originalSize b;
     bm_compressedSize := bm_compressedSize b + n;
     chunksSent := chunksSent b; chunksReceived := chunksReceived b |}.

Definition incr_chunksReceived (b : Benchmark) : Benchmark :=
  {| bm_originalSize := bm_originalSize b;
     bm_compressedSize := bm_compressedSize b;
     chunksSent := chunksSent b; chunksReceived := chunksReceived b + 1 |}.

Definition incr_chunksSent (b : Benchmark) : Benchmark :=
  {| bm_originalSize := bm_originalSize b;
     bm_compressedSize := bm_compressedSize b;
     chunksSent := chunksSent b + 1; chunksReceived := chunksReceived b |}.

Definition push (chunkData : option BufferSource) (p : Peer) : Peer :=
  {| dataChannel := dataChannel p; zstdCodec := zstdCodec p;
     incomingFile := incomingFile p;
     receivedChunks := receivedChunks p ++ [chunkData];
     receivedSize := receivedSize p; benchmark := benchmark p;
     fileList := fileList p; reports := reports p |}.

(** [handleChunkData(data)]: [data] is the [ArrayBuffer] of a binary
    frame.  The chunk is pushed before its length is read: when it is
    [null] the read throws, with the [null] stored, the counts as they
    were and the header still pending. *)
Definition handleChunkData (data : bytes) (p : Peer) : Completion * Peer :=
  match incomingFile p with
  | None => (Returned, p)
  | Some f =>
      match currentChunk f with
      | None => (Returned, p)
      | Some chunkInfo =>
          let p1 := set_benchmark (add_compressedSize (len data) (benchmark p)) p in
          let decoded :=
            if compressed f then decompressData p1 data
            else inr (Some (ArrayBuffer data)) in
          match decoded with
          | inl e => (Threw e, p1)
          | inr chunkData =>
              let p2 := push chunkData p1 in
              match chunkData with
              | None => (Threw TypeError, p2)
              | Some chunk =>
                  (Returned,
                   {| dataChannel := dataChannel p2; zstdCodec := zstdCodec p2;
                      incomingFile := Some (clear_currentChunk f);
                      receivedChunks := receivedChunks p2;
                      receivedSize :=
                        add (receivedSize p2) (byteLength_or_length chunk);
                      benchmark := incr_chunksReceived (benchmark p2);
                      fileList := fileList p2; reports := reports p2 |})
              end
          end
      end
  end.

(** The [reduce] that computes [totalLength], from the accumulator
    [sum]; reading the length of a [null] throws ([None]). *)
Fixpoint reduce (chunks : list (option BufferSource)) (sum : Number)
  : option Number :=
  match chunks with
  | [] => Some sum
  | None :: _ => None
  | Some chunk :: rest => reduce rest (add sum (byteLength_or_length chunk))
  end.

Definition totalLength (chunks : list (option BufferSource)) : option Number :=
  reduce chunks (Num 0).

(** The [for ... of] loop that copies every chunk into [combinedData]. *)
Fixpoint copyChunks (chunks : list (option BufferSource)) (combinedData : bytes)
         (offset : Number) : Error + bytes :=
  match chunks with
  | [] => inr combinedData
  | None :: _ => inl TypeError
  | Some chunk :: rest =>
      match set combinedData (contents chunk) offset with
      | None => inl RangeError
      | Some combinedData' =>
          copyChunks rest combinedData' (add offset (byteLength_or_length chunk))
      end
  end.

Definition handleTransferComplete (p : Peer) : Completion * Peer :=
  match totalLength (receivedChunks p) with
  | None => (Threw TypeError, p)
  | Some total =>
  match new_Uint8Array total with
  | None => (Threw RangeError, p)
  | Some zeroes =>
      match copyChunks (receivedChunks p) zeroes (Num 0) with
      | inl e => (Threw e, p)
      | inr combinedData =>
          match incomingFile p with
          | None => (Threw TypeError, p)
          | Some f =>
              let entry :=
                {| file_name := name f; file_size := size f;
                   blob := combinedData;
                   blob_type := if String.eqb (mimeType f) ""
                                then "application/octet-stream"%string
                                else mimeType f |} in
              (Returned,
               {| dataChannel := dataChannel p; zstdCodec := zstdCodec p;
                  incomingFile := None;
                  receivedChunks := [];
                  receivedSize := Num 0;
                  benchmark := benchmark p;
                  fileList := fileList p ++ [entry];
                  reports := reports p |})
          end
      end
  end
  end.

(** [dataChannel.onmessage]. *)
Definition handleDataChannelMessage (event : Frame) (p : Peer)
  : Completion * Peer :=
  match event with
  | Text Malformed => (Threw SyntaxError, p)
  | Text (Metadata message) => handleFileMetadata message p
  | Text (Chunk message) =>
      match incomingFile p with
      | None => (Threw TypeError, p)
      | Some f => (Returned, set_incomingFile (Some (set_currentChunk message f)) p)
      end
  | Text Complete => handleTransferComplete p
  | Text Other => (Returned, p)
  | Binary data => handleChunkData data p
  end.

(** The frames of a channel are delivered one event at a time, in order;
    a handler that throws does not stop the following events. *)
Fixpoint receive (frames : list Frame) (p : Peer) : list Completion * Peer :=
  match frames with
  | [] => ([], p)
  | f :: rest =>
      let '(c, p1) := handleDataChannelMessage f p in
      let '(cs, p2) := receive rest p1 in
      (c :: cs, p2)
  end.

(** ** Sender *)

(** The selected [File]: [file.size] is the length of the buffer that
    [file.arrayBuffer()] resolves to. *)
Record File := {
  f_name : string;
  f_type : string;
  f_bytes : bytes
}.

Definition f_size (file : File) : Z := len (f_bytes file).

Definition is_open (s : ReadyState) : bool :=
  match s with open => true | _ => false end.

(** The frames passed to [send], in order. *)
Definition frames (h : list Event) : list Frame :=
  flat_map (fun e => match e with Sent f _ => [f] | _ => [] end) h.

Definition sentFrames (p : Peer) : list Frame :=
  match dataChannel p with
  | Some c => frames (history c)
  | None => []
  end.

Section Sender.

(** The browser side of the channel.  [jsonBytes m] is the number of
    bytes of [JSON.stringify(m)]; [fileRead c] is the amount still
    buffered when [file.arrayBuffer()] resolves; [bufferedamountlow c]
    is the amount buffered when the ['bufferedamountlow'] event reaches
    a sender suspended in state [c], or [None] when it never does;
    [arrivals c] are the frames delivered to [dataChannel.onmessage]
    while [sendFile] is suspended at an [await] that it reached with
    the channel in state [c]: their handlers run on the variables of
    the same page before [sendFile] goes on.  (The history of the
    channel is longer at every [await], so the frames may differ from
    one [await] to the next.) *)
Variable jsonBytes : Message -> Z.
Variable fileRead : RTCDataChannel -> Z.
Variable bufferedamountlow : RTCDataChannel -> option Z.
Variable arrivals : RTCDataChannel -> list Frame.

Definition frameBytes (f : Frame) : Z :=
  match f with
  | Text m => jsonBytes m
  | Binary b => len b
  end.

(** [channel.send(f)]: the frame is queued. *)
Definition send (f : Frame) (c : RTCDataChannel) : RTCDataChannel :=
  let b := bufferedAmount c + frameBytes f in
  {| readyState := readyState c;
     bufferedAmount := b;
     bufferedAmountLowThreshold := bufferedAmountLowThreshold c;
     history := history c ++ [Sent f b] |}.

(** [await waitForBufferDrain(channel, threshold)]. *)
Definition waitForBufferDrain (channel : RTCDataChannel) (threshold : Z)
  : Completion * RTCDataChannel :=
  if bufferedAmount channel <=? threshold then (Returned, channel)
  else
    let waiting :=
      {| readyState := readyState channel;
         bufferedAmount := bufferedAmount channel;
         bufferedAmountLowThreshold := threshold;
         history := history channel ++ [Suspended (bufferedAmount channel)] |} in
    match bufferedamountlow waiting with
    | None => (Pending, waiting)
    | Some b =>
        (Returned,
         {| readyState := readyState waiting;
            bufferedAmount := b;
            bufferedAmountLowThreshold := bufferedAmountLowThreshold waiting;
            history := history waiting ++ [Resumed b] |})
    end.

Section Loop.

Variable useCompression : bool.
Variable level : Number.
Variable arrayBuffer : bytes.

(** [arrayBuffer.slice(start, end)] of iteration [i]. *)
Definition chunkAt (i : Z) : bytes :=
  let start := i * CHUNK_SIZE in
  let end_ := Z.min (start + CHUNK_SIZE) (len arrayBuffer) in
  slice arrayBuffer start end_.

(** The body of the [for] loop, for [n] more iterations from index [i].
    While the loop waits for the channel to drain, the frames that
    arrive are handled. *)
Fixpoint sendChunks (n : nat) (i : Z) (c : RTCDataChannel) (p : Peer)
  : Completion * (RTCDataChannel * Peer) :=
  match n with
  | O => (Returned, (c, p))
  | S n' =>
      let chunk := chunkAt i in
      let prepared :=
        if useCompression then
          match compressData p chunk level with
          | None => None
          | Some data => Some (data, byteLength data)
          end
        else Some (ArrayBuffer chunk, len chunk) in
      match prepared with
      | None => (Threw CodecNotInitialized, (c, p))
      | Some (chunkToSend, wire) =>
          let p1 := set_benchmark (add_compressedSize wire (benchmark p)) p in
          let chunkHeader :=
            {| index := i;
               originalSize := len chunk;
               compressedSize := byteLength_or_length chunkToSend |} in
          let c1 := send (Text (Chunk chunkHeader)) c in
          let c2 := send (Binary (contents chunkToSend)) c1 in
          let p2 := set_benchmark (incr_chunksSent (benchmark p1)) p1 in
          if BUFFER_THRESHOLD <? bufferedAmount c2 then
            let p3 := add_report (BufferFull (bufferedAmount c2)) p2 in
            match waitForBufferDrain c2 BUFFER_THRESHOLD with
            | (Returned, c3) =>
                sendChunks n' (i + 1) c3 (snd (receive (arrivals c2) p3))
            | (stopped, c3) => (stopped, (c3, p3))
            end
          else sendChunks n' (i + 1) c2 p2
      end
  end.

End Loop.

(** [sendFile()], with the selected file, the state of the compression
    toggle and the selected level as arguments.  It is suspended while
    the file is read and while the channel drains. *)
Definition sendFile (file : option File) (useCompression : bool)
           (level : Number) (p : Peer) : Completion * Peer :=
  match file with
  | None => (Returned, add_report NoFileSelected p)
  | Some file =>
      match dataChannel p with
      | None => (Returned, add_report DataChannelNotReady p)
      | Some c =>
          if negb (is_open (readyState c)) then
            (Returned, add_report DataChannelNotReady p)
          else
            let p0 :=
              set_benchmark {| bm_originalSize := f_size file;
                               bm_compressedSize := 0;
                               chunksSent := 0;
                               chunksReceived := 0 |} p in
            let metadata :=
              {| meta_name := f_name file;
                 meta_size := f_size file;
                 meta_mimeType := f_type file;
                 meta_compressed := useCompression;
                 meta_compressionLevel := level;
                 meta_totalChunks := Math_ceil_div (f_size file) CHUNK_SIZE |} in
            let c1 := send (Text (Metadata metadata)) c in
            let arrayBuffer := f_bytes file in
            let c2 :=
              {| readyState := readyState c1;
                 bufferedAmount := fileRead c1;
                 bufferedAmountLowThreshold := bufferedAmountLowThreshold c1;
                 history := history c1 |} in
            let totalChunks := Math_ceil_div (len arrayBuffer) CHUNK_SIZE in
            let p' := snd (receive (arrivals c1) p0) in
            match sendChunks useCompression level arrayBuffer
                             (Z.to_nat totalChunks) 0 c2 p' with
            | (Returned, (c3, p1)) =>
                (Returned, set_dataChannel (Some (send (Text Complete) c3)) p1)
            | (stopped, (c3, p1)) => (stopped, set_dataChannel (Some c3) p1)
            end
      end
  end.

End Sender.

(** ** Vocabulary of the statements *)

(** The indices visited by [n] iterations that start at [i]. *)
Fixpoint indices (n : nat) (i : Z) : list Z :=
  match n with
  | O => []
  | S n' => i :: indices n' (i + 1)
  end.

(** What the loop sends for one slice: the object handed to [send],
    when the codec is there to produce it. *)
Definition encodeChunk (codec : option ZstdStreaming) (useCompression : bool)
           (level : Number) (chunk : bytes) : option BufferSource :=
  if useCompression then
    match codec with
    | None => None
    | Some z => Some (Uint8Array (compress z chunk level))
    end
  else Some (ArrayBuffer chunk).

(** The header frame and the binary frame of iteration [i]. *)
Definition chunkFrames (codec : option ZstdStreaming) (useCompression : bool)
           (level : Number) (buf : bytes) (i : Z) : list Frame :=
  match encodeChunk codec useCompression level (chunkAt buf i) with
  | None => []
  | Some data =>
      [Text (Chunk {| index := i;
                      originalSize := len (chunkAt buf i);
                      compressedSize := byteLength_or_length data |});
       Binary (contents data)]
  end.

(** The chunk headers and the binary payloads among some frames. *)
Definition headers (fs : list Frame) : list ChunkHeader :=
  flat_map (fun f => match f with Text (Chunk h) => [h] | _ => [] end) fs.

Definition binaries (fs : list Frame) : list bytes :=
  flat_map (fun f => match f with Binary b => [b] | _ => [] end) fs.

Definition metadatas (fs : list Frame) : list FileMetadata :=
  flat_map (fun f => match f with Text (Metadata m) => [m] | _ => [] end) fs.

(** The frames of a whole transfer of [file]: metadata, the two frames
    of every chunk, completion. *)
Definition transferFrames (codec : option ZstdStreaming) (file : File)
           (useCompression : bool) (level : Number) : list Frame :=
  Text (Metadata {| meta_name := f_name file;
                    meta_size := f_size file;
                    meta_mimeType := f_type file;
                    meta_compressed := useCompression;
                    meta_compressionLevel := level;
                    meta_totalChunks := Math_ceil_div (f_size file) CHUNK_SIZE |})
  :: flat_map (chunkFrames codec useCompression level (f_bytes file))
              (indices (Z.to_nat (Math_ceil_div (f_size file) CHUNK_SIZE)) 0)
  ++ [Text Complete].

(** A chunk on which [chunk.byteLength || chunk.length] is a number:
    anything but an [ArrayBuffer] of length 0. *)
Definition sized (chunk : BufferSource) : Prop :=
  byteLength_or_length chunk <> None.

(** The binary objects among the received chunks: all but the [null]s. *)
Definition held (chunks : list (option BufferSource)) : list BufferSource :=
  flat_map (fun chunk => match chunk with Some d => [d] | None => [] end) chunks.

(** A received chunk that the assembly can take: a binary object, not a
    [null], on which [chunk.byteLength || chunk.length] is a number. *)
Definition assemblable (chunk : option BufferSource) : Prop :=
  match chunk with
  | Some d => sized d
  | None => False
  end.

(** The entry that [handleTransferComplete] adds for the transfer [f]
    when the assembled bytes are [data]. *)
Definition receivedFile (f : IncomingFile) (data : bytes) : ReceivedFile :=
  {| file_name := name f;
     file_size := size f;
     blob := data;
     blob_type := if String.eqb (mimeType f) ""
                  then "application/octet-stream"%string
                  else mimeType f |}.

(** What the receiver stores for the slice [chunk] of a transfer. *)
Definition stored (useCompression : bool) (chunk : bytes) : BufferSource :=
  if useCompression then Uint8Array chunk else ArrayBuffer chunk.

(** The codecs of the two peers fit: what the sender's compresses at
    [level], the receiver's decompresses to the same bytes. *)
Definition codecs_fit (level : Number)
           (sender_codec receiver_codec : option ZstdStreaming) : Prop :=
  exists zs zr,
    sender_codec = Some zs /\ receiver_codec = Some zr
    /\ forall x, decompress zr (compress zs x level) = Some x.

(** The bytes of [buf] at positions [a <= pos < b]. *)
Definition segment (buf : bytes) (a b : Z) : bytes :=
  firstn (Z.to_nat (b - a)) (skipn (Z.to_nat a) buf).

(** The slices [0,C), [C,2C), ... of a payload, the last one cut at the
    end of the payload, for [n] chunks of size [C]. *)
Definition slices (buf : bytes) (C : Z) (n : Z) : list bytes :=
  map (fun k => segment buf (Z.of_nat k * C)
                        (Z.min (Z.of_nat k * C + C) (len buf)))
      (seq 0 (Z.to_nat n)).

(** The header that [handleChunkData] binds to [chunkInfo] when it
    handles the frame [f] in state [p] and gets past its guard. *)
Definition chunkInfo (f : Frame) (p : Peer) : option ChunkHeader :=
  match f with
  | Binary _ =>
      match incomingFile p with
      | Some g => currentChunk g
      | None => None
      end
  | Text _ => None
  end.

(** The headers a receiver pairs with the binary frames it consumes, in
    the order in which it consumes them. *)
Fixpoint observedHeaders (fs : list Frame) (p : Peer) : list ChunkHeader :=
  match fs with
  | [] => []
  | f :: rest =>
      let later := observedHeaders rest (snd (handleDataChannelMessage f p)) in
      match chunkInfo f p with
      | Some h => h :: later
      | None => later
      end
  end.

(** ** The backpressure discipline *)

(** [paced jsonBytes a tr]: starting with [a] bytes buffered, the trace
    [tr] of the send loop keeps to the discipline.  It is a run of
    chunks, each begun with at most [BUFFER_THRESHOLD] bytes buffered and
    made of the header frame and the binary frame; a chunk after which
    more than the threshold is buffered is followed at once by a
    suspension, which ends, if it ends, with at most the threshold
    buffered. *)
Inductive paced (jsonBytes : Message -> Z) : Z -> list Event -> Prop :=
| paced_end (a : Z) :
    paced jsonBytes a []
| paced_chunk (a : Z) (h : ChunkHeader) (d : bytes) (rest : list Event) :
    a <= BUFFER_THRESHOLD ->
    a + jsonBytes (Chunk h) + len d <= BUFFER_THRESHOLD ->
    paced jsonBytes (a + jsonBytes (Chunk h) + len d) rest ->
    paced jsonBytes a
          (Sent (Text (Chunk h)) (a + jsonBytes (Chunk h))
           :: Sent (Binary d) (a + jsonBytes (Chunk h) + len d)
           :: rest)
| paced_wait (a : Z) (h : ChunkHeader) (d : bytes) (b : Z) (rest : list Event) :
    a <= BUFFER_THRESHOLD ->
    BUFFER_THRESHOLD < a + jsonBytes (Chunk h) + len d ->
    b <= BUFFER_THRESHOLD ->
    paced jsonBytes b rest ->
    paced jsonBytes a
          (Sent (Text (Chunk h)) (a + jsonBytes (Chunk h))
           :: Sent (Binary d) (a + jsonBytes (Chunk h) + len d)
           :: Suspended (a + jsonBytes (Chunk h) + len d)
           :: Resumed b
           :: rest)
| paced_stuck (a : Z) (h : ChunkHeader) (d : bytes) :
    a <= BUFFER_THRESHOLD ->
    BUFFER_THRESHOLD < a + jsonBytes (Chunk h) + len d ->
    paced jsonBytes a
          [Sent (Text (Chunk h)) (a + jsonBytes (Chunk h));
           Sent (Binary d) (a + jsonBytes (Chunk h) + len d);
           Suspended (a + jsonBytes (Chunk h) + len d)].

(** [governed jsonBytes a tr]: the trace [tr] of the send loop, started
    with [a] bytes buffered, whatever [a] is.  The first chunk is sent on
    top of what is buffered; the amount is looked at after it as after
    every chunk, and what follows keeps to [paced]. *)
Inductive governed (jsonBytes : Message -> Z) : Z -> list Event -> Prop :=
| governed_end (a : Z) :
    governed jsonBytes a []
| governed_chunk (a : Z) (h : ChunkHeader) (d : bytes) (rest : list Event) :
    a + jsonBytes (Chunk h) + len d <= BUFFER_THRESHOLD ->
    paced jsonBytes (a + jsonBytes (Chunk h) + len d) rest ->
    governed jsonBytes a
             (Sent (Text (Chunk h)) (a + jsonBytes (Chunk h))
              :: Sent (Binary d) (a + jsonBytes (Chunk h) + len d)
              :: rest)
| governed_wait (a : Z) (h : ChunkHeader) (d : bytes) (b : Z) (rest : list Event) :
    BUFFER_THRESHOLD < a + jsonBytes (Chunk h) + len d ->
    b <= BUFFER_THRESHOLD ->
    paced jsonBytes b rest ->
    governed jsonBytes a
             (Sent (Text (Chunk h)) (a + jsonBytes (Chunk h))
              :: Sent (Binary d) (a + jsonBytes (Chunk h) + len d)
              :: Suspended (a + jsonBytes (Chunk h) + len d)
              :: Resumed b
              :: rest)
| governed_stuck (a : Z) (h : ChunkHeader) (d : bytes) :
    BUFFER_THRESHOLD < a + jsonBytes (Chunk h) + len d ->
    governed jsonBytes a
             [Sent (Text (Chunk h)) (a + jsonBytes (Chunk h));
              Sent (Binary d) (a + jsonBytes (Chunk h) + len d);
              Suspended (a + jsonBytes (Chunk h) + len d)].

(** ** The receiver as a state machine *)

Inductive ReceiverState := Idle | AwaitingChunk | HaveHeader.

Definition receiverState (p : Peer) : ReceiverState :=
  match incomingFile p with
  | None => Idle
  | Some f =>
      match currentChunk f with
      | None => AwaitingChunk
      | Some _ => HaveHeader
      end
  end.

(** A frame that arrives out of state: a binary frame with no header
    pending, or a chunk header with no transfer active. *)
Definition out_of_state (f : Frame) (p : Peer) : Prop :=
  match f with
  | Binary _ => receiverState p <> HaveHeader
  | Text (Chunk _) => receiverState p = Idle
  | _ => False
  end.

(** The state of the incoming transfer: its metadata and pending header,
    the accumulated chunks, the received byte and chunk counts. *)
Definition transferState (p : Peer)
  : option IncomingFile * list (option BufferSource) * Number * Z * Z :=
  (incomingFile p, receivedChunks p, receivedSize p,
   bm_compressedSize (benchmark p), chunksReceived (benchmark p)).

(** A handler signalled a problem: it threw, or it wrote a log line of
    type error or warning. *)
Definition signalled (before : Peer) (result : Completion * Peer) : Prop :=
  fst result <> Returned \/ reports (snd result) <> reports before.

(** Two frames that may differ in everything the reassembly does not
    read: the numeric fields of a chunk header, and the fields of a
    Metadata frame other than [compressed]. *)
Definition same_payload_frames (f g : Frame) : Prop :=
  match f, g with
  | Text (Metadata m), Text (Metadata m') => meta_compressed m = meta_compressed m'
  | Text (Chunk _), Text (Chunk _) => True
  | Text Complete, Text Complete => True
  | Text Other, Text Other => True
  | Text Malformed, Text Malformed => True
  | Binary b, Binary b' => b = b'
  | _, _ => False
  end.

(** Two frames that differ at most in the numeric fields of a chunk
    header. *)
Definition same_up_to_header_fields (f g : Frame) : Prop :=
  match f, g with
  | Text (Chunk _), Text (Chunk _) => True
  | _, _ => f = g
  end.

(** What two receivers must have in common for the bytes they deliver
    to agree from then on: the codec, the accumulated chunks, the bytes
    delivered so far, whether a transfer is active and, if so, its
    [compressed] flag and whether a header is pending. *)
Definition same_transfer (f g : option IncomingFile) : Prop :=
  match f, g with
  | None, None => True
  | Some f, Some g =>
      compressed f = compressed g
      /\ (currentChunk f = None <-> currentChunk g = None)
  | _, _ => False
  end.

Definition same_payload_state (p q : Peer) : Prop :=
  zstdCodec p = zstdCodec q
  /\ receivedChunks p = receivedChunks q
  /\ map blob (fileList p) = map blob (fileList q)
  /\ same_transfer (incomingFile p) (incomingFile q).

(** ** Concrete peers on which the statements are exercised *)

Module Demo.

(** A stand-in for the zstd codec, which stores: a frame is one marker
    byte, then the input; it returns [null] for anything else. *)
Definition store : ZstdStreaming :=
  {| compress := fun data _ => x28 :: data;
     decompress := fun data =>
                     match data with
                     | x28 :: rest => Some rest
                     | _ => None
                     end |}.

(** Five bytes that are no frame of this codec, nor of zstd (a zstd
    frame starts with the bytes 28 B5 2F FD). *)
Definition garbage : bytes := [x00; x01; x02; x03; x04].

(** A freshly opened channel. *)
Definition channel : RTCDataChannel :=
  {| readyState := open;
     bufferedAmount := 0;
     bufferedAmountLowThreshold := 0;
     history := [] |}.

(** An open channel with 6 bytes to go before the threshold. *)
Definition busy : RTCDataChannel :=
  {| readyState := open;
     bufferedAmount := 1048570;
     bufferedAmountLowThreshold := 0;
     history := [] |}.

(** A page after [initZstd] and after the channel opened. *)
Definition page : Peer :=
  set_dataChannel (Some channel) (set_zstdCodec (Some store) initial).

(** Every control message takes 64 bytes; nothing drains while the file
    is read; the low-water event comes when the amount has fallen to the
    threshold the sender asked for. *)
Definition jsonBytes (m : Message) : Z := 64.
Definition fileRead (c : RTCDataChannel) : Z := bufferedAmount c.
Definition bufferedamountlow (c : RTCDataChannel) : option Z :=
  Some (bufferedAmountLowThreshold c).

(** A send during which no frame arrives. *)
Definition quiet (c : RTCDataChannel) : list Frame := [].

Definition hello : File :=
  {| f_name := "hello.txt"; f_type := "text/plain";
     f_bytes := [x68; x65; x6c; x6c; x6f] |}.

Definition empty : File :=
  {| f_name := "empty.bin"; f_type := ""; f_bytes := [] |}.

(** A receiver in the middle of a transfer announced as 10 bytes in 2
    chunks, with one chunk of 3 bytes received and no header pending. *)
Definition receiving : Peer :=
  snd (receive [Text (Metadata {| meta_name := "a.bin"; meta_size := 10;
                                  meta_mimeType := ""; meta_compressed := false;
                                  meta_compressionLevel := Num 3;
                                  meta_totalChunks := 2 |});
                Text (Chunk {| index := 0; originalSize := 3;
                               compressedSize := Some 3 |});
                Binary [x01; x02; x03]]
               page).

(** Two runs of frames for a receiver: the same binary frames and the
    same [compressed] flag, other fields different. *)
Definition run1 : list Frame :=
  [Text (Metadata {| meta_name := "a.bin"; meta_size := 3; meta_mimeType := "";
                     meta_compressed := true; meta_compressionLevel := Num 3;
                     meta_totalChunks := 2 |});
   Text (Chunk {| index := 0; originalSize := 2; compressedSize := Some 3 |});
   Binary [x28; x01; x02];
   Binary [x28; x09];
   Text (Chunk {| index := 1; originalSize := 1; compressedSize := Some 2 |});
   Binary [x28; x03];
   Text Complete].

Definition run2 : list Frame :=
  [Text (Metadata {| meta_name := "z.bin"; meta_size := 99;
                     meta_mimeType := "text/plain";
                     meta_compressed := true; meta_compressionLevel := NaN;
                     meta_totalChunks := 7 |});
   Text (Chunk {| index := 5; originalSize := 0; compressedSize := None |});
   Binary [x28; x01; x02];
   Binary [x28; x09];
   Text (Chunk {| index := 5; originalSize := 1000; compressedSize := Some (-1) |});
   Binary [x28; x03];
   Text Complete].

(** The Metadata frame of another transfer. *)
Definition other : FileMetadata :=
  {| meta_name := "b.bin"; meta_size := 7; meta_mimeType := "text/plain";
     meta_compressed := true; meta_compressionLevel := Num 5;
     meta_totalChunks := 1 |}.

(** 200000 zero bytes. *)
Definition zeroes : File :=
  {| f_name := "zeroes.bin"; f_type := "";
     f_bytes := repeat x00 (Z.to_nat 200000) |}.

End Demo.

(** ** Further vocabulary: counters, pairs of frames, decoding *)

Definition sumZ (l : list Z) : Z := fold_right Z.add 0 l.

(** The bytes of all the binary frames among some frames. *)
Definition wireBytes (fs : list Frame) : Z := sumZ (map len (binaries fs)).

(** The number of Completion frames among some frames. *)
Definition completes (fs : list Frame) : nat :=
  length (filter (fun f => match f with Text Complete => true | _ => false end) fs).

(** A chunk header followed by its binary frame. *)
Definition pairFrames (pair : ChunkHeader * bytes) : list Frame :=
  [Text (Chunk (fst pair)); Binary (snd pair)].

(** The header and payload the loop writes for each of some indices. *)
Definition chunkPairs (codec : option ZstdStreaming) (useCompression : bool)
           (level : Number) (buf : bytes) (ixs : list Z)
  : list (ChunkHeader * bytes) :=
  flat_map (fun i =>
              match encodeChunk codec useCompression level (chunkAt buf i) with
              | None => []
              | Some data =>
                  [({| index := i;
                       originalSize := len (chunkAt buf i);
                       compressedSize := byteLength_or_length data |},
                    contents data)]
              end) ixs.

(** What [handleChunkData] pushes for the payload [data] of the
    transfer [f] on the page [p]: nothing when the codec is missing,
    else one element, a [null] when the codec could not decode. *)
Definition decodeChunk (p : Peer) (f : IncomingFile) (data : bytes)
  : list (option BufferSource) :=
  match (if compressed f then decompressData p data
         else inr (Some (ArrayBuffer data))) with
  | inl _ => []
  | inr chunkData => [chunkData]
  end.

(** The sum of [chunk.byteLength || chunk.length] over the binary
    objects among the received chunks. *)
Definition heldLength (chunks : list (option BufferSource)) : Number :=
  fold_left (fun sum chunk => add sum (byteLength_or_length chunk))
            (held chunks) (Num 0).

(** The bookkeeping of the receiver is in step with what it holds:
    [receivedSize] is the sum over the binary objects held, no chunk is
    held without a transfer, and during a transfer
    [benchmark.chunksReceived] counts the binary objects held. *)
Definition tracked (p : Peer) : Prop :=
  receivedSize p = heldLength (receivedChunks p)
  /\ (incomingFile p = None -> receivedChunks p = [])
  /\ (incomingFile p <> None ->
      chunksReceived (benchmark p)
      = Z.of_nat (length (held (receivedChunks p)))).

(** The amounts at which a trace shows the sender suspended. *)
Definition suspensions (tr : list Event) : list Z :=
  flat_map (fun e => match e with Suspended b => [b] | _ => [] end) tr.

(** The guard of [sendFile]: a file is selected and the channel exists
    and is open. *)
Definition ready_to_send (file : option File) (p : Peer) : Prop :=
  file <> None
  /\ exists c, dataChannel p = Some c /\ readyState c = open.

(** What a send leaves alone on its page: the codec and everything
    that belongs to the incoming transfer and the received files. *)
Definition untouched_by_send (p p' : Peer) : Prop :=
  zstdCodec p' = zstdCodec p
  /\ incomingFile p' = incomingFile p
  /\ receivedChunks p' = receivedChunks p
  /\ receivedSize p' = receivedSize p
  /\ fileList p' = fileList p.

(** The [metadata] object that [sendFile] builds for [file]. *)
Definition fileMetadata (file : File) (useCompression : bool) (level : Number)
  : FileMetadata :=
  {| meta_name := f_name file;
     meta_size := f_size file;
     meta_mimeType := f_type file;
     meta_compressed := useCompression;
     meta_compressionLevel := level;
     meta_totalChunks := Math_ceil_div (f_size file) CHUNK_SIZE |}.

(** The frame that ends a send that returned. *)
Definition closing_frames (r : Completion) : list Frame :=
  match r with
  | Returned => [Text Complete]
  | _ => []
  end.

(** Further concrete cases. *)
Module Cases.

(** A page with an open channel whose codec never got initialised. *)
Definition no_codec : Peer := set_dataChannel (Some Demo.channel) initial.

(** A receiver of a compressed transfer with a header pending. *)
Definition have_header : Peer :=
  snd (receive [Text (Metadata Demo.other);
                Text (Chunk {| index := 0; originalSize := 2;
                               compressedSize := Some 3 |})]
               Demo.page).

Definition world : File :=
  {| f_name := "world.txt"; f_type := "";
     f_bytes := [x77; x6f; x72; x6c; x64] |}.

(** A channel whose low-water event never comes. *)
Definition never (c : RTCDataChannel) : option Z := None.

(** The other peer announces a transfer while [sendFile] reads the file:
    a Metadata frame arrives at the first [await], when nothing but the
    Metadata frame of the send has been written. *)
Definition announcing (c : RTCDataChannel) : list Frame :=
  match frames (history c) with
  | [Text (Metadata _)] => [Text (Metadata Demo.other)]
  | _ => []
  end.

End Cases.
(** ** What the receiver never touches *)

Lemma handleTransferComplete_effect (p : Peer) :
  let p' := snd (handleTransferComplete p) in
  dataChannel p' = dataChannel p
  /\ zstdCodec p' = zstdCodec p
  /\ reports p' = reports p
  /\ benchmark p' = benchmark p
  /\ ((fst (handleTransferComplete p) = Returned
       /\ (exists entry, fileList p' = fileList p ++ [entry])
       /\ incomingFile p <> None /\ incomingFile p' = None
       /\ receivedChunks p' = [] /\ receivedSize p' = Num 0)
      \/ (fst (handleTransferComplete p) <> Returned /\ p' = p)).
Proof.
  cbv zeta. unfold handleTransferComplete.
  destruct (totalLength _) as [total|];
    [|cbn; repeat split; right; split; [discriminate | reflexivity]].
  destruct (new_Uint8Array _) as [zeroes|];
    [|cbn; repeat split; right; split; [discriminate | reflexivity]].
  destruct (copyChunks _ _ _) as [e|combined];
    [cbn; repeat split; right; split; [discriminate | reflexivity]|].
  destruct (incomingFile p) as [f|] eqn:Hf;
    [|cbn; repeat split; right; split; [discriminate | reflexivity]].
  cbn. repeat split. left. repeat split; eauto. discriminate.
Qed.

Lemma handleChunkData_effect (data : bytes) (p : Peer) :
  let p' := snd (handleChunkData data p) in
  dataChannel p' = dataChannel p
  /\ zstdCodec p' = zstdCodec p
  /\ reports p' = reports p
  /\ fileList p' = fileList p.
Proof.
  cbv zeta. unfold handleChunkData.
  destruct (incomingFile p) as [f|]; [|repeat split].
  destruct (currentChunk f); [|repeat split].
  destruct (if compressed f then _ else _) as [e|[chunk|]]; repeat split.
Qed.

(** One frame: the channel, the codec and the log are left alone and
    the received files grow by at most one entry, only on Completion. *)
Lemma handleDataChannelMessage_effect (f : Frame) (p : Peer) :
  let p' := snd (handleDataChannelMessage f p) in
  dataChannel p' = dataChannel p
  /\ zstdCodec p' = zstdCodec p
  /\ reports p' = reports p
  /\ exists new, fileList p' = fileList p ++ new
                 /\ (length new <= completes [f])%nat.
Proof.
  cbv zeta. destruct f as [[m|h| | |]|data]; cbn [handleDataChannelMessage].
  - cbn. repeat split. exists []. rewrite app_nil_r. split; [reflexivity | cbn; lia].
  - destruct (incomingFile p); cbn; repeat split; exists [];
      rewrite app_nil_r; (split; [reflexivity | cbn; lia]).
  - destruct (handleTransferComplete_effect p) as (H1 & H2 & H3 & _ & H).
    repeat split; try assumption.
    destruct H as [(_ & (entry & He) & _)|(_ & ->)].
    + exists [entry]. split; [exact He | cbn; lia].
    + exists []. rewrite app_nil_r. split; [reflexivity | cbn; lia].
  - cbn. repeat split. exists []. rewrite app_nil_r. split; [reflexivity | cbn; lia].
  - cbn. repeat split. exists []. rewrite app_nil_r. split; [reflexivity | cbn; lia].
  - destruct (handleChunkData_effect data p) as (H1 & H2 & H3 & H4).
    repeat split; try assumption.
    exists []. rewrite app_nil_r. split; [exact H4 | cbn; lia].
Qed.

Lemma completes_cons (f : Frame) (fs : list Frame) :
  completes (f :: fs) = (completes [f] + completes fs)%nat.
Proof.
  unfold completes. cbn [filter].
  destruct (match f with Text Complete => true | _ => false end); reflexivity.
Qed.

Lemma receive_cons (f : Frame) (fs : list Frame) (p : Peer) :
  snd (receive (f :: fs) p) = snd (receive fs (snd (handleDataChannelMessage f p)))
  /\ fst (receive (f :: fs) p)
     = fst (handleDataChannelMessage f p)
       :: fst (receive fs (snd (handleDataChannelMessage f p))).
Proof.
  cbn [receive]. destruct (handleDataChannelMessage f p) as [c p1]. cbn [fst snd].
  destruct (receive fs p1). split; reflexivity.
Qed.

Lemma receive_effect (fs : list Frame) :
  forall p,
    let p' := snd (receive fs p) in
    dataChannel p' = dataChannel p
    /\ zstdCodec p' = zstdCodec p
    /\ reports p' = reports p
    /\ (exists new, fileList p' = fileList p ++ new
                    /\ (length new <= completes fs)%nat)
    /\ length (fst (receive fs p)) = length fs.
Proof.
  induction fs as [|f fs IH]; intros p; cbv zeta.
  - cbn. repeat split. exists []. rewrite app_nil_r. split; [reflexivity | cbn; lia].
  - destruct (receive_cons f fs p) as [-> ->].
    destruct (handleDataChannelMessage_effect f p) as (H1 & H2 & H3 & new1 & H4 & H5).
    destruct (IH (snd (handleDataChannelMessage f p)))
      as (I1 & I2 & I3 & (new2 & I4 & I5) & I6).
    cbv zeta in *. rewrite I1, I2, I3, I4, H1, H2, H3, H4.
    repeat split.
    + exists (new1 ++ new2). rewrite <- app_assoc. split; [reflexivity|].
      rewrite length_app, completes_cons. lia.
    + cbn [length]. now rewrite I6.
Qed.


Lemma receive_zstdCodec (fs : list Frame) (p : Peer) :
  zstdCodec (snd (receive fs p)) = zstdCodec p.
Proof. apply (receive_effect fs p). Qed.

Lemma receive_dataChannel (fs : list Frame) (p : Peer) :
  dataChannel (snd (receive fs p)) = dataChannel p.
Proof. apply (receive_effect fs p). Qed.

Lemma receive_reports (fs : list Frame) (p : Peer) :
  reports (snd (receive fs p)) = reports p.
Proof. apply (receive_effect fs p). Qed.

(** * Properties *)

(** ** Arithmetic of the chunk count *)

Lemma CHUNK_SIZE_val : CHUNK_SIZE = 65536.
Proof. reflexivity. Qed.

Lemma BUFFER_THRESHOLD_val : BUFFER_THRESHOLD = 1048576.
Proof. reflexivity. Qed.

(** [Math.ceil(a / b)] as integer division. *)
Lemma Math_ceil_div_Z (a b : Z) :
  0 < b -> Math_ceil_div a b = - ((- a) / b).
Proof.
  intros Hb. destruct b as [|q|q]; try lia.
  unfold Math_ceil_div, Qceiling, Qfloor, Qdiv, Qmult, Qinv, Qopp, inject_Z.
  cbn [Qnum Qden].
  rewrite Z.mul_1_r, Pos.mul_1_l. reflexivity.
Qed.

(** The count is the least [n] with [n * b >= a]. *)
Lemma Math_ceil_div_bounds (a b : Z) :
  0 < b -> (Math_ceil_div a b - 1) * b < a <= Math_ceil_div a b * b.
Proof.
  intros Hb. rewrite (Math_ceil_div_Z a b Hb).
  pose proof (Z.div_mod (- a) b ltac:(lia)) as E.
  pose proof (Z.mod_pos_bound (- a) b Hb) as R.
  nia.
Qed.

Lemma Math_ceil_div_unique (a b n : Z) :
  0 < b -> (n - 1) * b < a <= n * b -> Math_ceil_div a b = n.
Proof.
  intros Hb Hn. pose proof (Math_ceil_div_bounds a b Hb). nia.
Qed.

Lemma Math_ceil_div_nonneg (a b : Z) :
  0 < b -> 0 <= a -> 0 <= Math_ceil_div a b.
Proof.
  intros Hb Ha. pose proof (Math_ceil_div_bounds a b Hb). nia.
Qed.

(** ** The chunker: slices of the payload *)

Lemma CHUNK_SIZE_pos : 0 < CHUNK_SIZE.
Proof. rewrite CHUNK_SIZE_val. lia. Qed.

Lemma len_nonneg (b : bytes) : 0 <= len b.
Proof. unfold len. lia. Qed.

Lemma len_app (a b : bytes) : len (a ++ b) = len a + len b.
Proof. unfold len. rewrite length_app. lia. Qed.

Lemma len_nil_inv (b : bytes) : len b = 0 -> b = [].
Proof. destruct b; [reflexivity | unfold len; cbn [List.length]; lia]. Qed.

Lemma firstn_add {A} (a b : nat) (l : list A) :
  firstn (a + b) l = firstn a l ++ firstn b (skipn a l).
Proof.
  revert l. induction a as [|a IH]; intros l; [reflexivity|].
  destruct l as [|x l]; cbn [Nat.add firstn skipn app].
  - now rewrite firstn_nil.
  - now rewrite IH.
Qed.

(** Iteration [i] takes [CHUNK_SIZE] bytes, or what is left, from
    position [i * CHUNK_SIZE]. *)
Lemma chunkAt_firstn (buf : bytes) (i : Z) :
  0 <= i ->
  chunkAt buf i
  = firstn (Z.to_nat CHUNK_SIZE) (skipn (Z.to_nat (i * CHUNK_SIZE)) buf).
Proof.
  intros Hi. pose proof CHUNK_SIZE_pos as HC. pose proof (len_nonneg buf) as HL.
  unfold chunkAt, slice.
  assert (Hs : 0 <= i * CHUNK_SIZE) by nia.
  destruct (Z.ltb_spec (i * CHUNK_SIZE) 0) as [?|_]; [lia|].
  destruct (Z.ltb_spec (Z.min (i * CHUNK_SIZE + CHUNK_SIZE) (len buf)) 0) as [?|_]; [lia|].
  destruct (Z.le_gt_cases (i * CHUNK_SIZE) (len buf)) as [Hin|Hout].
  - rewrite (Z.min_l (i * CHUNK_SIZE)) by lia.
    set (l := skipn (Z.to_nat (i * CHUNK_SIZE)) buf).
    assert (Hl : Z.of_nat (List.length l) = len buf - i * CHUNK_SIZE).
    { unfold l, len in *. rewrite length_skipn. lia. }
    destruct (Z.le_gt_cases (i * CHUNK_SIZE + CHUNK_SIZE) (len buf)).
    + f_equal. lia.
    + rewrite !firstn_all2; [reflexivity | lia | lia].
  - rewrite (Z.min_r (i * CHUNK_SIZE)) by lia.
    replace (Z.to_nat _) with 0%nat at 1 by lia.
    rewrite !skipn_all2 by (unfold len in *; lia).
    now rewrite firstn_nil.
Qed.

Lemma len_chunkAt (buf : bytes) (i : Z) :
  0 <= i ->
  len (chunkAt buf i) = Z.max 0 (Z.min CHUNK_SIZE (len buf - i * CHUNK_SIZE)).
Proof.
  intros Hi. pose proof CHUNK_SIZE_pos as HC.
  rewrite chunkAt_firstn by assumption.
  unfold len. rewrite length_firstn, length_skipn. nia.
Qed.

Lemma indices_length (n : nat) (i : Z) : List.length (indices n i) = n.
Proof. revert i. induction n; intros; cbn; auto. Qed.

Lemma indices_bounds (n : nat) (i j : Z) :
  In j (indices n i) -> i <= j < i + Z.of_nat n.
Proof.
  revert i. induction n as [|n IH]; intros i; cbn [indices In]; [tauto|].
  intros [<-|H]; [lia|]. apply IH in H. lia.
Qed.

Lemma indices_seq (n : nat) (k : nat) :
  indices n (Z.of_nat k) = map Z.of_nat (seq k n).
Proof.
  revert k. induction n as [|n IH]; intros k; [reflexivity|].
  cbn [indices seq map]. f_equal.
  replace (Z.of_nat k + 1) with (Z.of_nat (S k)) by lia. apply IH.
Qed.

Lemma indices_snoc (n : nat) (i : Z) :
  indices (S n) i = indices n i ++ [i + Z.of_nat n].
Proof.
  revert i. induction n as [|n IH]; intros i.
  - cbn. now rewrite Z.add_0_r.
  - change (indices (S (S n)) i) with (i :: indices (S n) (i + 1)).
    rewrite IH. cbn [indices app]. do 2 f_equal. f_equal. lia.
Qed.

(** The slices taken from index [i] on, laid end to end. *)
Lemma concat_chunks (buf : bytes) (n : nat) (i : Z) :
  0 <= i ->
  concat (map (chunkAt buf) (indices n i))
  = firstn (n * Z.to_nat CHUNK_SIZE) (skipn (Z.to_nat (i * CHUNK_SIZE)) buf).
Proof.
  revert i. induction n as [|n IH]; intros i Hi; [reflexivity|].
  pose proof CHUNK_SIZE_pos as HC.
  cbn [indices map concat]. rewrite IH by lia.
  rewrite chunkAt_firstn by assumption.
  change (S n * Z.to_nat CHUNK_SIZE)%nat
    with (Z.to_nat CHUNK_SIZE + n * Z.to_nat CHUNK_SIZE)%nat.
  rewrite firstn_add, skipn_skipn. do 3 f_equal. nia.
Qed.

(** All the slices of a payload, in order, make up the payload. *)
Lemma concat_all_chunks (buf : bytes) :
  concat (map (chunkAt buf)
              (indices (Z.to_nat (Math_ceil_div (len buf) CHUNK_SIZE)) 0))
  = buf.
Proof.
  pose proof CHUNK_SIZE_pos as HC.
  pose proof (Math_ceil_div_bounds (len buf) _ HC) as B.
  pose proof (Math_ceil_div_nonneg _ _ HC (len_nonneg buf)) as N.
  rewrite concat_chunks by lia. cbn [Z.mul Z.to_nat skipn].
  apply firstn_all2. unfold len in *. nia.
Qed.

(** Every slice the loop takes is non-empty. *)
Lemma chunkAt_nonempty (buf : bytes) (i : Z) :
  0 <= i < Math_ceil_div (len buf) CHUNK_SIZE ->
  0 < len (chunkAt buf i).
Proof.
  intros Hi. pose proof CHUNK_SIZE_pos as HC.
  pose proof (Math_ceil_div_bounds (len buf) _ HC) as B.
  rewrite len_chunkAt by lia. nia.
Qed.

Lemma chunkAt_segment (buf : bytes) (i : Z) :
  0 <= i ->
  chunkAt buf i
  = segment buf (i * CHUNK_SIZE) (Z.min (i * CHUNK_SIZE + CHUNK_SIZE) (len buf)).
Proof.
  intros Hi. pose proof CHUNK_SIZE_pos as HC. rewrite chunkAt_firstn by assumption.
  unfold segment. set (l := skipn (Z.to_nat (i * CHUNK_SIZE)) buf).
  assert (Hl : Z.of_nat (length l) = Z.max 0 (len buf - i * CHUNK_SIZE)).
  { unfold l, len. rewrite length_skipn. nia. }
  destruct (Z.le_gt_cases (i * CHUNK_SIZE + CHUNK_SIZE) (len buf)).
  - f_equal. lia.
  - rewrite !firstn_all2; [reflexivity | lia | lia].
Qed.

Lemma chunks_slices (buf : bytes) (n : Z) :
  map (chunkAt buf) (indices (Z.to_nat n) 0) = slices buf CHUNK_SIZE n.
Proof.
  unfold slices. rewrite (indices_seq _ 0), map_map. apply map_ext.
  intros k. apply chunkAt_segment. lia.
Qed.

(** The last slice holds what is left over after the full chunks, or a
    full chunk when nothing is left over. *)
Lemma last_chunk_length (buf : bytes) :
  0 < len buf ->
  last (map (fun i => len (chunkAt buf i))
            (indices (Z.to_nat (Math_ceil_div (len buf) CHUNK_SIZE)) 0)) 0
  = if len buf mod CHUNK_SIZE =? 0 then CHUNK_SIZE else len buf mod CHUNK_SIZE.
Proof.
  intros HL. pose proof CHUNK_SIZE_pos as HC.
  pose proof (Math_ceil_div_bounds (len buf) _ HC) as B.
  set (n := Math_ceil_div (len buf) CHUNK_SIZE) in *.
  assert (Hn : 0 < n) by nia.
  replace (Z.to_nat n) with (S (Z.to_nat (n - 1))) by lia.
  rewrite indices_snoc, map_app. cbn [map]. rewrite last_last, len_chunkAt by lia.
  pose proof (Z.div_mod (len buf) CHUNK_SIZE ltac:(lia)) as D.
  pose proof (Z.mod_pos_bound (len buf) CHUNK_SIZE HC) as R.
  rewrite Z2Nat.id by lia.
  destruct (Z.eqb_spec (len buf mod CHUNK_SIZE) 0) as [E|E].
  - assert (n = len buf / CHUNK_SIZE) by nia. nia.
  - assert (n - 1 = len buf / CHUNK_SIZE) by nia. nia.
Qed.

(** ** Headers and payloads among the frames of a transfer *)

Lemma headers_app (fs gs : list Frame) : headers (fs ++ gs) = headers fs ++ headers gs.
Proof. unfold headers. apply flat_map_app. Qed.

Lemma binaries_app (fs gs : list Frame) : binaries (fs ++ gs) = binaries fs ++ binaries gs.
Proof. unfold binaries. apply flat_map_app. Qed.

Section ChunkFrames.

Variable codec : option ZstdStreaming.
Variable useCompression : bool.
Variable level : Number.
Variable buf : bytes.

Hypothesis codec_ready : useCompression = true -> codec <> None.

Lemma encodeChunk_ready (chunk : bytes) :
  exists data,
    encodeChunk codec useCompression level chunk = Some data
    /\ (useCompression = false -> data = ArrayBuffer chunk).
Proof.
  unfold encodeChunk. destruct useCompression.
  - destruct codec; [eexists; split; [reflexivity | discriminate]
                    | now specialize (codec_ready eq_refl)].
  - eauto.
Qed.

Lemma headers_chunkFrames (ixs : list Z) :
  map index (headers (flat_map (chunkFrames codec useCompression level buf) ixs)) = ixs
  /\ map originalSize (headers (flat_map (chunkFrames codec useCompression level buf) ixs))
     = map (fun i => len (chunkAt buf i)) ixs.
Proof.
  induction ixs as [|i ixs [IH1 IH2]]; [split; reflexivity|].
  cbn [flat_map map]. rewrite headers_app, !map_app, IH1, IH2.
  unfold chunkFrames.
  destruct (encodeChunk_ready (chunkAt buf i)) as (data & -> & _).
  split; reflexivity.
Qed.

Lemma binaries_length_chunkFrames (ixs : list Z) :
  length (binaries (flat_map (chunkFrames codec useCompression level buf) ixs))
  = length ixs.
Proof.
  induction ixs as [|i ixs IH]; [reflexivity|].
  cbn [flat_map]. rewrite binaries_app, length_app, IH.
  unfold chunkFrames.
  destruct (encodeChunk_ready (chunkAt buf i)) as (data & -> & _).
  reflexivity.
Qed.

Lemma metadatas_chunkFrames (ixs : list Z) (rest : list Frame) :
  metadatas (flat_map (chunkFrames codec useCompression level buf) ixs ++ rest)
  = metadatas rest.
Proof.
  induction ixs as [|i ixs IH]; [reflexivity|].
  cbn [flat_map]. rewrite <- app_assoc. unfold chunkFrames at 1.
  destruct (encodeChunk codec useCompression level (chunkAt buf i)); exact IH.
Qed.

End ChunkFrames.

(** Without compression the payloads are the slices themselves and every
    header announces the slice length twice. *)
Lemma binaries_chunkFrames_raw (codec : option ZstdStreaming) (level : Number)
      (buf : bytes) (ixs : list Z) :
  binaries (flat_map (chunkFrames codec false level buf) ixs)
  = map (chunkAt buf) ixs.
Proof.
  induction ixs as [|i ixs IH]; [reflexivity|].
  cbn [flat_map map]. rewrite binaries_app, IH. reflexivity.
Qed.

Lemma headers_chunkFrames_raw (codec : option ZstdStreaming) (level : Number)
      (buf : bytes) (ixs : list Z) :
  Forall (fun i => 0 < len (chunkAt buf i)) ixs ->
  Forall (fun h => compressedSize h = Some (originalSize h))
         (headers (flat_map (chunkFrames codec false level buf) ixs)).
Proof.
  induction 1 as [|i ixs Hi _ IH]; [constructor|].
  cbn [flat_map]. rewrite headers_app. apply Forall_app. split; [|exact IH].
  cbn. constructor; [|constructor]. cbn.
  destruct (Z.eqb_spec (len (chunkAt buf i)) 0); [lia | reflexivity].
Qed.

Lemma binaries_chunkFrames_zstd (z : ZstdStreaming) (level : Number)
      (buf : bytes) (ixs : list Z) :
  binaries (flat_map (chunkFrames (Some z) true level buf) ixs)
  = map (fun i => compress z (chunkAt buf i) level) ixs.
Proof.
  induction ixs as [|i ixs IH]; [reflexivity|].
  cbn [flat_map map]. rewrite binaries_app, IH. reflexivity.
Qed.

Lemma indices_in_range (buf : bytes) :
  Forall (fun i => 0 <= i < Math_ceil_div (len buf) CHUNK_SIZE)
         (indices (Z.to_nat (Math_ceil_div (len buf) CHUNK_SIZE)) 0).
Proof.
  apply Forall_forall. intros i Hi. apply indices_bounds in Hi.
  pose proof (Math_ceil_div_nonneg _ _ CHUNK_SIZE_pos (len_nonneg buf)). lia.
Qed.

(** ** The frames written by the sender *)

Lemma frames_app (h1 h2 : list Event) : frames (h1 ++ h2) = frames h1 ++ frames h2.
Proof. unfold frames. apply flat_map_app. Qed.

Section SenderFacts.

Variable jsonBytes : Message -> Z.
Variable fileRead : RTCDataChannel -> Z.
Variable bufferedamountlow : RTCDataChannel -> option Z.
Variable arrivals : RTCDataChannel -> list Frame.

Lemma frames_send (f : Frame) (c : RTCDataChannel) :
  frames (history (send jsonBytes f c)) = frames (history c) ++ [f].
Proof. unfold send. cbn [history]. now rewrite frames_app. Qed.

Lemma readyState_send (f : Frame) (c : RTCDataChannel) :
  readyState (send jsonBytes f c) = readyState c.
Proof. reflexivity. Qed.

(** A drain wait sends nothing. *)
Lemma frames_waitForBufferDrain (c c' : RTCDataChannel) (t : Z) (r : Completion) :
  waitForBufferDrain bufferedamountlow c t = (r, c') ->
  frames (history c') = frames (history c).
Proof.
  unfold waitForBufferDrain.
  destruct (bufferedAmount c <=? t); [now intros [= _ <-]|].
  destruct (bufferedamountlow _) as [b|]; intros [= _ <-]; cbn [history];
    rewrite ?frames_app; cbn; now rewrite ?app_nil_r.
Qed.

(** A drain wait ends when the event comes. *)
Lemma waitForBufferDrain_returns (c : RTCDataChannel) (t : Z) :
  (forall w, bufferedamountlow w <> None) ->
  exists c', waitForBufferDrain bufferedamountlow c t = (Returned, c').
Proof.
  intros Hev. unfold waitForBufferDrain.
  destruct (bufferedAmount c <=? t); [eauto|].
  match goal with |- context [bufferedamountlow ?w] =>
    specialize (Hev w); destruct (bufferedamountlow w) end;
    [eauto | congruence].
Qed.

Section LoopFacts.

Variable useCompression : bool.
Variable level : Number.
Variable buf : bytes.

Let loop := sendChunks jsonBytes bufferedamountlow arrivals useCompression level buf.

(** When every drain wait ends and the codec is there if it is needed,
    the loop runs to its end and has sent the two frames of every index
    it visited, in order. *)
Lemma sendChunks_frames (n : nat) :
  forall (i : Z) (c : RTCDataChannel) (p : Peer),
    (forall w, bufferedamountlow w <> None) ->
    (useCompression = true -> zstdCodec p <> None) ->
    exists c' p',
      loop n i c p = (Returned, (c', p'))
      /\ frames (history c')
         = frames (history c)
           ++ flat_map (chunkFrames (zstdCodec p) useCompression level buf)
                       (indices n i)
      /\ zstdCodec p' = zstdCodec p.
Proof.
  induction n as [|n IH]; intros i c p Hev Hz.
  - exists c, p. cbn. rewrite app_nil_r. repeat split.
  - subst loop. cbn [sendChunks indices flat_map].
    unfold chunkFrames at 1, encodeChunk, compressData.
    destruct useCompression eqn:Huc.
    + destruct (zstdCodec p) as [z|] eqn:Hcodec; [|now specialize (Hz eq_refl)].
      cbn [contents byteLength_or_length byteLength].
      match goal with |- context [BUFFER_THRESHOLD <? bufferedAmount ?c2] =>
        remember c2 as channel eqn:Hch; destruct (BUFFER_THRESHOLD <? bufferedAmount channel) end.
      * destruct (waitForBufferDrain_returns channel BUFFER_THRESHOLD Hev) as [c3 Hw].
        rewrite Hw. pose proof (frames_waitForBufferDrain _ _ _ _ Hw) as Hf.
        match goal with |- context [sendChunks _ _ _ _ _ _ n (i + 1) c3 ?q] =>
          destruct (IH (i + 1) c3 q Hev) as (c' & p' & E & F & Z1) end.
        { rewrite receive_zstdCodec. cbn. rewrite Hcodec. congruence. }
        exists c', p'. split; [exact E|]. rewrite receive_zstdCodec in F, Z1.
        cbn in F, Z1.
        rewrite F, Hf. subst channel. rewrite !frames_send, Hcodec.
        rewrite <- !app_assoc. cbn [app]. rewrite Z1, Hcodec. repeat split; auto.
      * match goal with |- context [sendChunks _ _ _ _ _ _ n (i + 1) channel ?q] =>
          destruct (IH (i + 1) channel q Hev) as (c' & p' & E & F & Z1) end.
        { cbn. rewrite Hcodec. congruence. }
        exists c', p'. split; [exact E|]. cbn in F, Z1.
        rewrite F. subst channel. rewrite !frames_send, Hcodec.
        rewrite <- !app_assoc. cbn [app]. rewrite Z1, Hcodec. repeat split; auto.
    + cbn [contents byteLength_or_length byteLength].
      match goal with |- context [BUFFER_THRESHOLD <? bufferedAmount ?c2] =>
        remember c2 as channel eqn:Hch; destruct (BUFFER_THRESHOLD <? bufferedAmount channel) end.
      * destruct (waitForBufferDrain_returns channel BUFFER_THRESHOLD Hev) as [c3 Hw].
        rewrite Hw. pose proof (frames_waitForBufferDrain _ _ _ _ Hw) as Hf.
        match goal with |- context [sendChunks _ _ _ _ _ _ n (i + 1) c3 ?q] =>
          destruct (IH (i + 1) c3 q Hev) as (c' & p' & E & F & Z1) end.
        { discriminate. }
        exists c', p'. split; [exact E|]. rewrite receive_zstdCodec in F, Z1.
        cbn in F, Z1.
        rewrite F, Hf. subst channel. rewrite !frames_send.
        rewrite <- !app_assoc. cbn [app]. repeat split; auto.
      * match goal with |- context [sendChunks _ _ _ _ _ _ n (i + 1) channel ?q] =>
          destruct (IH (i + 1) channel q Hev) as (c' & p' & E & F & Z1) end.
        { discriminate. }
        exists c', p'. split; [exact E|]. cbn in F, Z1.
        rewrite F. subst channel. rewrite !frames_send.
        rewrite <- !app_assoc. cbn [app]. repeat split; auto.
Qed.

(** However the loop ends (it returned, the codec was missing, a drain
    wait never ended), what it has sent are the two frames of the first
    [k] indices, for some [k] up to the number of iterations asked for. *)
Lemma sendChunks_prefix (n : nat) :
  forall (i : Z) (c : RTCDataChannel) (p : Peer) (r : Completion)
         (c' : RTCDataChannel) (p' : Peer),
    loop n i c p = (r, (c', p')) ->
    exists k,
      (k <= n)%nat
      /\ frames (history c')
         = frames (history c)
           ++ flat_map (chunkFrames (zstdCodec p) useCompression level buf)
                       (indices k i).
Proof.
  induction n as [|n IH]; intros i c p r c' p' E.
  - exists 0%nat. cbn in E. injection E as _ <- _. cbn. rewrite app_nil_r. auto.
  - subst loop. cbn [sendChunks] in E. unfold compressData in E.
    assert (Hstep :
      forall data c3 q k,
        encodeChunk (zstdCodec p) useCompression level (chunkAt buf i) = Some data ->
        zstdCodec q = zstdCodec p ->
        frames (history c3)
        = frames (history c)
          ++ chunkFrames (zstdCodec p) useCompression level buf i ->
        (k <= n)%nat ->
        frames (history c')
        = frames (history c3)
          ++ flat_map (chunkFrames (zstdCodec q) useCompression level buf)
                      (indices k (i + 1)) ->
        exists k',
          (k' <= S n)%nat
          /\ frames (history c')
             = frames (history c)
               ++ flat_map (chunkFrames (zstdCodec p) useCompression level buf)
                           (indices k' i)).
    { intros data c3 q k _ Hq H3 Hk Hc'. exists (S k). split; [lia|].
      rewrite Hc', H3, Hq. cbn [indices flat_map]. now rewrite app_assoc. }
    assert (Hsent :
      forall data,
        encodeChunk (zstdCodec p) useCompression level (chunkAt buf i) = Some data ->
        frames (history
                  (send jsonBytes (Binary (contents data))
                     (send jsonBytes
                        (Text (Chunk {| index := i;
                                        originalSize := len (chunkAt buf i);
                                        compressedSize := byteLength_or_length data |}))
                        c)))
        = frames (history c)
          ++ chunkFrames (zstdCodec p) useCompression level buf i).
    { intros data Hd. rewrite !frames_send. unfold chunkFrames. rewrite Hd.
      now rewrite <- app_assoc. }
    destruct (encodeChunk (zstdCodec p) useCompression level (chunkAt buf i))
      as [data|] eqn:Hd.
    + specialize (Hsent data eq_refl).
      assert (Hprep :
        (if useCompression
         then match zstdCodec p with
              | Some z => Some (Uint8Array (compress z (chunkAt buf i) level),
                                byteLength (Uint8Array (compress z (chunkAt buf i) level)))
              | None => None
              end
         else Some (ArrayBuffer (chunkAt buf i), len (chunkAt buf i)))
        = Some (data, byteLength data)).
      { unfold encodeChunk in Hd. destruct useCompression.
        - destruct (zstdCodec p); [now injection Hd as <- | discriminate].
        - now injection Hd as <-. }
      match type of E with context [match ?x with Some _ => _ | None => _ end] =>
        replace x with (Some (data, byteLength data)) in E
          by (symmetry; destruct useCompression; [destruct (zstdCodec p)|]; exact Hprep)
      end.
      cbn iota beta in E.
      match type of E with context [BUFFER_THRESHOLD <? bufferedAmount ?c2] =>
        remember c2 as c2' eqn:Hc2; destruct (BUFFER_THRESHOLD <? bufferedAmount c2') end.
      * destruct (waitForBufferDrain bufferedamountlow c2' BUFFER_THRESHOLD)
          as [w c3] eqn:Hw.
        pose proof (frames_waitForBufferDrain _ _ _ _ Hw) as Hf.
        rewrite Hsent in Hf.
        destruct w.
        -- apply IH in E. destruct E as (k & Hk & Hc').
           refine (Hstep data c3 _ k eq_refl _ Hf Hk Hc').
           now rewrite receive_zstdCodec.
        -- injection E as _ <- _. exists 1%nat. split; [lia|].
           rewrite Hf. cbn [indices flat_map]. now rewrite app_nil_r.
        -- injection E as _ <- _. exists 1%nat. split; [lia|].
           rewrite Hf. cbn [indices flat_map]. now rewrite app_nil_r.
      * apply IH in E. destruct E as (k & Hk & Hc').
        eapply (Hstep data _ _ k eq_refl); [reflexivity | exact Hsent | exact Hk | exact Hc'].
    + exists 0%nat. split; [lia|].
      assert (Hnone : useCompression = true /\ zstdCodec p = None).
      { unfold encodeChunk in Hd. destruct useCompression; [|discriminate].
        destruct (zstdCodec p); [discriminate | auto]. }
      destruct Hnone as [Huc Hz]. rewrite Huc, Hz in E.
      injection E as _ <- _. cbn. now rewrite app_nil_r.
Qed.

End LoopFacts.

(** A send on an open channel with every drain wait ending, and with the
    codec there if compression is on, returns after writing exactly the
    frames of the transfer. *)
Lemma sendFile_frames (file : File) (useCompression : bool) (level : Number)
      (p : Peer) (c : RTCDataChannel) :
  dataChannel p = Some c ->
  readyState c = open ->
  (forall w, bufferedamountlow w <> None) ->
  (useCompression = true -> zstdCodec p <> None) ->
  exists p',
    sendFile jsonBytes fileRead bufferedamountlow arrivals (Some file)
             useCompression level p
    = (Returned, p')
    /\ sentFrames p'
       = sentFrames p ++ transferFrames (zstdCodec p) file useCompression level
    /\ zstdCodec p' = zstdCodec p.
Proof.
  intros Hc Hopen Hev Hz. unfold sendFile. rewrite Hc, Hopen. cbn [is_open negb].
  match goal with |- context [sendChunks _ _ _ _ _ _ ?n 0 ?c2 ?p0] =>
    destruct (sendChunks_frames useCompression level (f_bytes file) n 0 c2 p0 Hev)
      as (c3 & p1 & E & F & Z1) end.
  { now rewrite receive_zstdCodec. }
  rewrite E. eexists. split; [reflexivity|].
  rewrite receive_zstdCodec in F, Z1.
  unfold sentFrames. rewrite Hc. cbn in F, Z1 |- *.
  rewrite frames_app, F, frames_app. cbn [frames flat_map app].
  unfold transferFrames, f_size. rewrite <- !app_assoc. cbn [app].
  repeat split; auto.
Qed.

(** Whatever the state of the page and however the send ends, the chunk
    frames it has written are those of the first [k] chunks, for some [k]
    up to the chunk count. *)
Lemma sendFile_prefix (file : File) (useCompression : bool) (level : Number)
      (p : Peer) :
  exists fs k,
    sentFrames (snd (sendFile jsonBytes fileRead bufferedamountlow arrivals
                              (Some file) useCompression level p))
    = sentFrames p ++ fs
    /\ (k <= Z.to_nat (Math_ceil_div (len (f_bytes file)) CHUNK_SIZE))%nat
    /\ headers fs
       = headers (flat_map (chunkFrames (zstdCodec p) useCompression level
                                        (f_bytes file))
                           (indices k 0))
    /\ binaries fs
       = binaries (flat_map (chunkFrames (zstdCodec p) useCompression level
                                         (f_bytes file))
                            (indices k 0))
    /\ Forall (fun m => meta_compressed m = useCompression) (metadatas fs).
Proof.
  assert (Hnothing : forall q, sentFrames q = sentFrames p ->
            exists fs k,
              sentFrames q = sentFrames p ++ fs
              /\ (k <= Z.to_nat (Math_ceil_div (len (f_bytes file)) CHUNK_SIZE))%nat
              /\ headers fs
                 = headers (flat_map (chunkFrames (zstdCodec p) useCompression level
                                                  (f_bytes file)) (indices k 0))
              /\ binaries fs
                 = binaries (flat_map (chunkFrames (zstdCodec p) useCompression level
                                                   (f_bytes file)) (indices k 0))
              /\ Forall (fun m => meta_compressed m = useCompression) (metadatas fs)).
  { intros q Hq. exists [], 0%nat. rewrite app_nil_r.
    repeat split; [exact Hq | lia | constructor]. }
  unfold sendFile.
  destruct (dataChannel p) as [c|] eqn:Hc; [|now apply Hnothing].
  destruct (is_open (readyState c)); cbn [negb]; [|now apply Hnothing].
  match goal with |- context [sendChunks _ _ _ _ _ ?b ?n 0 ?c2 ?p0] =>
    destruct (sendChunks jsonBytes bufferedamountlow arrivals useCompression level
                         b n 0 c2 p0)
      as [r [c3 p1]] eqn:E end.
  apply sendChunks_prefix in E. destruct E as (k & Hk & F).
  rewrite receive_zstdCodec in F.
  cbn [zstdCodec set_benchmark history send] in F. rewrite frames_app in F.
  cbn [frames flat_map app] in F.
  set (m := {| meta_name := f_name file; meta_size := f_size file;
               meta_mimeType := f_type file; meta_compressed := useCompression;
               meta_compressionLevel := level;
               meta_totalChunks := Math_ceil_div (f_size file) CHUNK_SIZE |}) in *.
  set (body := flat_map (chunkFrames (zstdCodec p) useCompression level (f_bytes file))
                        (indices k 0)) in *.
  assert (Hm : metadatas body = []).
  { pose proof (metadatas_chunkFrames (zstdCodec p) useCompression level
                  (f_bytes file) (indices k 0) []) as H.
    now rewrite app_nil_r in H. }
  assert (Hdone :
    forall tail, headers tail = [] -> binaries tail = [] -> metadatas tail = [] ->
      forall q, sentFrames q = (sentFrames p ++ [Text (Metadata m)] ++ body) ++ tail ->
      exists fs k,
        sentFrames q = sentFrames p ++ fs
        /\ (k <= Z.to_nat (Math_ceil_div (len (f_bytes file)) CHUNK_SIZE))%nat
        /\ headers fs
           = headers (flat_map (chunkFrames (zstdCodec p) useCompression level
                                            (f_bytes file)) (indices k 0))
        /\ binaries fs
           = binaries (flat_map (chunkFrames (zstdCodec p) useCompression level
                                             (f_bytes file)) (indices k 0))
        /\ Forall (fun m => meta_compressed m = useCompression) (metadatas fs)).
  { intros tail H1 H2 H3 q Hq. exists (Text (Metadata m) :: body ++ tail), k.
    split; [rewrite Hq; now rewrite <- !app_assoc|].
    split; [exact Hk|].
    change (headers (Text (Metadata m) :: ?l)) with (headers l).
    change (binaries (Text (Metadata m) :: ?l)) with (binaries l).
    change (metadatas (Text (Metadata m) :: ?l)) with (m :: metadatas l).
    rewrite headers_app, binaries_app, H1, H2, !app_nil_r.
    unfold metadatas at 1. rewrite flat_map_app. fold (metadatas body) (metadatas tail).
    rewrite Hm, H3. repeat split. constructor; [reflexivity | constructor]. }
  assert (Hsent : sentFrames p = frames (history c)).
  { unfold sentFrames. now rewrite Hc. }
  destruct r; cbn [snd].
  - apply (Hdone [Text Complete]); try reflexivity.
    unfold sentFrames at 1. cbn [dataChannel set_dataChannel].
    rewrite frames_send, F, Hsent. now rewrite <- !app_assoc.
  - apply (Hdone []); try reflexivity.
    unfold sentFrames at 1. cbn [dataChannel set_dataChannel].
    rewrite F, Hsent, app_nil_r. now rewrite <- !app_assoc.
  - apply (Hdone []); try reflexivity.
    unfold sentFrames at 1. cbn [dataChannel set_dataChannel].
    rewrite F, Hsent, app_nil_r. now rewrite <- !app_assoc.
Qed.

End SenderFacts.

(** ** Reassembly *)

Lemma sized_byteLength (chunk : BufferSource) :
  sized chunk -> byteLength_or_length chunk = Some (len (contents chunk)).
Proof.
  unfold sized. destruct chunk as [b|b]; cbn; [|reflexivity].
  destruct (len b =? 0); congruence.
Qed.

Lemma sized_Uint8Array (b : bytes) : sized (Uint8Array b).
Proof. unfold sized. cbn. discriminate. Qed.

Lemma sized_ArrayBuffer (b : bytes) : 0 < len b -> sized (ArrayBuffer b).
Proof.
  intros H. unfold sized. cbn. destruct (Z.eqb_spec (len b) 0); [lia | discriminate].
Qed.

Lemma held_app (l1 l2 : list (option BufferSource)) :
  held (l1 ++ l2) = held l1 ++ held l2.
Proof. unfold held. apply flat_map_app. Qed.

Lemma held_map_Some (l : list BufferSource) : held (map Some l) = l.
Proof. induction l as [|d l IH]; cbn; [reflexivity | now f_equal]. Qed.

Lemma reduce_assemblable (chunks : list (option BufferSource)) (a : Z) :
  Forall assemblable chunks ->
  reduce chunks (Num a) = Some (Num (a + len (concat (map contents (held chunks))))).
Proof.
  intros H. revert a. induction H as [|[chunk|] rest Hs _ IH]; intros a;
    cbn [reduce held flat_map app map concat].
  - do 2 f_equal. unfold len. cbn. lia.
  - cbn in Hs. rewrite (sized_byteLength _ Hs). cbn [add].
    fold (held rest). rewrite IH, len_app. do 2 f_equal. lia.
  - destruct Hs.
Qed.

Lemma totalLength_sized (chunks : list (option BufferSource)) :
  Forall assemblable chunks ->
  totalLength chunks = Some (Num (len (concat (map contents (held chunks))))).
Proof. intros H. unfold totalLength. now rewrite reduce_assemblable. Qed.

(** Writing [source] right after the part [done] already written. *)
Lemma set_after (done source rest : bytes) :
  set (done ++ repeat x00 (length source) ++ rest) source (Num (len done))
  = Some (done ++ source ++ rest).
Proof.
  unfold set. cbn [ToInteger].
  pose proof (len_nonneg done). pose proof (len_nonneg source).
  destruct (Z.ltb_spec (len done) 0); [lia|].
  rewrite !len_app.
  destruct (Z.ltb_spec (len done + (len (repeat x00 (length source)) + len rest))
                       (len source + len done)) as [Hlt|_].
  { unfold len in Hlt. rewrite repeat_length in Hlt. lia. }
  cbn [orb]. f_equal.
  replace (Z.to_nat (len done)) with (length done) by (unfold len; lia).
  replace (Z.to_nat (len done + len source)) with (length done + length source)%nat
    by (unfold len; lia).
  rewrite firstn_app, firstn_all, Nat.sub_diag, firstn_O, app_nil_r.
  rewrite skipn_app, skipn_all2 by lia.
  replace (length done + length source - length done)%nat
    with (length (repeat x00 (length source))) by (rewrite repeat_length; lia).
  rewrite skipn_app, skipn_all, Nat.sub_diag. reflexivity.
Qed.

(** The copy loop fills the zeroed buffer with the chunks, in order. *)
Lemma copyChunks_from (chunks : list (option BufferSource)) :
  Forall assemblable chunks ->
  forall done : bytes,
    copyChunks chunks
               (done ++ repeat x00 (length (concat (map contents (held chunks)))))
               (Num (len done))
    = inr (done ++ concat (map contents (held chunks))).
Proof.
  induction 1 as [|[chunk|] rest Hs _ IH]; intros done;
    cbn [copyChunks held flat_map app map concat].
  - cbn. reflexivity.
  - fold (held rest). cbn in Hs.
    rewrite length_app, repeat_app, set_after.
    rewrite (sized_byteLength _ Hs). cbn [add].
    rewrite <- len_app, app_assoc, IH. now rewrite <- app_assoc.
  - destruct Hs.
Qed.

Lemma copyChunks_concat (chunks : list (option BufferSource)) :
  Forall assemblable chunks ->
  copyChunks chunks (repeat x00 (length (concat (map contents (held chunks)))))
             (Num 0)
  = inr (concat (map contents (held chunks))).
Proof. intros H. apply (copyChunks_from _ H []). Qed.

(** Completion of an active transfer whose chunks can all be assembled. *)
Lemma handleTransferComplete_sized (p : Peer) (f : IncomingFile) :
  incomingFile p = Some f ->
  Forall assemblable (receivedChunks p) ->
  handleTransferComplete p
  = (Returned,
     {| dataChannel := dataChannel p; zstdCodec := zstdCodec p;
        incomingFile := None; receivedChunks := []; receivedSize := Num 0;
        benchmark := benchmark p;
        fileList := fileList p
                    ++ [receivedFile f
                          (concat (map contents (held (receivedChunks p))))];
        reports := reports p |}).
Proof.
  intros Hf Hs. unfold handleTransferComplete, new_Uint8Array.
  rewrite (totalLength_sized _ Hs). cbn [ToInteger].
  destruct (Z.ltb_spec (len (concat (map contents (held (receivedChunks p))))) 0)
    as [H|_].
  { pose proof (len_nonneg (concat (map contents (held (receivedChunks p))))). lia. }
  replace (Z.to_nat (len _))
    with (length (concat (map contents (held (receivedChunks p)))))
    by (unfold len; lia).
  rewrite (copyChunks_concat _ Hs), Hf. reflexivity.
Qed.

(** A null among the received chunks: Completion throws where it reads
    the length of the null, and changes nothing. *)
Lemma reduce_null (chunks : list (option BufferSource)) :
  In None chunks -> forall sum, reduce chunks sum = None.
Proof.
  induction chunks as [|[d|] rest IH]; intros Hin sum; cbn [reduce].
  - destruct Hin.
  - apply IH. destruct Hin as [H|H]; [discriminate | exact H].
  - reflexivity.
Qed.

Lemma reduce_no_null (chunks : list (option BufferSource)) :
  ~ In None chunks ->
  forall sum,
    reduce chunks sum
    = Some (fold_left (fun s chunk => add s (byteLength_or_length chunk))
                      (held chunks) sum).
Proof.
  induction chunks as [|[d|] rest IH]; intros Hin sum; cbn [reduce held flat_map app].
  - reflexivity.
  - fold (held rest). cbn [fold_left]. apply IH. intros H. apply Hin. now right.
  - exfalso. apply Hin. now left.
Qed.

Lemma handleTransferComplete_null (p : Peer) :
  In None (receivedChunks p) ->
  handleTransferComplete p = (Threw TypeError, p).
Proof.
  intros H. unfold handleTransferComplete, totalLength.
  now rewrite (reduce_null _ H).
Qed.

(** ** The receiver on the frames of a transfer *)

Lemma receive_app (fs gs : list Frame) (p : Peer) :
  receive (fs ++ gs) p
  = let '(cs, p1) := receive fs p in
    let '(ds, p2) := receive gs p1 in
    (cs ++ ds, p2).
Proof.
  revert p. induction fs as [|f fs IH]; intros p; cbn [receive app].
  - now destruct (receive gs p).
  - destruct (handleDataChannelMessage f p) as [c p1]. rewrite IH.
    destruct (receive fs p1) as [cs p2]. now destruct (receive gs p2).
Qed.

Lemma clear_set_currentChunk (h : ChunkHeader) (f : IncomingFile) :
  currentChunk f = None -> clear_currentChunk (set_currentChunk h f) = f.
Proof. destruct f. cbn. now intros ->. Qed.

Lemma contents_stored (useCompression : bool) (chunk : bytes) :
  contents (stored useCompression chunk) = chunk.
Proof. now destruct useCompression. Qed.

Section ReceiveChunks.

Variable useCompression : bool.
Variable level : Number.
Variable buf : bytes.
Variable sender_codec : option ZstdStreaming.

Lemma receive_chunkFrames (ixs : list Z) :
  forall (p : Peer) (f : IncomingFile),
    incomingFile p = Some f ->
    currentChunk f = None ->
    compressed f = useCompression ->
    (useCompression = true -> codecs_fit level sender_codec (zstdCodec p)) ->
    exists cs p',
      receive (flat_map (chunkFrames sender_codec useCompression level buf) ixs) p
      = (cs, p')
      /\ Forall (eq Returned) cs
      /\ incomingFile p' = Some f
      /\ receivedChunks p'
         = receivedChunks p
           ++ map (fun i => Some (stored useCompression (chunkAt buf i))) ixs
      /\ zstdCodec p' = zstdCodec p
      /\ fileList p' = fileList p
      /\ reports p' = reports p
      /\ dataChannel p' = dataChannel p.
Proof.
  induction ixs as [|i ixs IH]; intros p f Hf Hcur Hcomp Hfit.
  - exists [], p. cbn. rewrite app_nil_r. repeat split; auto.
  - cbn [flat_map map]. rewrite receive_app.
    unfold chunkFrames at 1, encodeChunk.
    destruct useCompression eqn:Huc.
    + destruct (Hfit eq_refl) as (zs & zr & Es & Er & Hinv). rewrite Es.
      cbn [receive handleDataChannelMessage]. rewrite Hf.
      unfold handleChunkData. cbn [incomingFile set_incomingFile currentChunk set_currentChunk compressed].
      rewrite Hcomp. unfold decompressData. cbn -[chunkAt].
      rewrite Er, Hinv. cbn -[chunkAt].
      match goal with |- context [receive _ ?q] =>
        destruct (IH q f) as (cs & p' & E & F1 & F2 & F3 & F4 & F5 & F6 & F7) end.
      { cbn. now rewrite clear_set_currentChunk. }
      { assumption. } { assumption. }
      { intros _. cbn. exists zs, zr. auto. }
      rewrite Es in E. rewrite E. exists (Returned :: Returned :: cs), p'.
      cbn in F3, F4, F5, F6, F7 |- *.
      rewrite F3, <- app_assoc. repeat split; auto.
    + cbn [receive handleDataChannelMessage contents]. rewrite Hf.
      unfold handleChunkData. cbn [incomingFile set_incomingFile currentChunk set_currentChunk compressed].
      rewrite Hcomp. cbn -[chunkAt].
      match goal with |- context [receive _ ?q] =>
        destruct (IH q f) as (cs & p' & E & F1 & F2 & F3 & F4 & F5 & F6 & F7) end.
      { cbn. now rewrite clear_set_currentChunk. }
      { assumption. } { assumption. }
      { discriminate. }
      rewrite E. exists (Returned :: Returned :: cs), p'.
      cbn in F3, F4, F5, F6, F7 |- *.
      rewrite F3, <- app_assoc. repeat split; auto.
Qed.

End ReceiveChunks.

Lemma stored_sized (useCompression : bool) (buf : bytes) (i : Z) :
  0 <= i < Math_ceil_div (len buf) CHUNK_SIZE ->
  sized (stored useCompression (chunkAt buf i)).
Proof.
  intros Hi. destruct useCompression; cbn [stored].
  - apply sized_Uint8Array.
  - apply sized_ArrayBuffer. now apply chunkAt_nonempty.
Qed.

Lemma map_contents_stored (useCompression : bool) (buf : bytes) (ixs : list Z) :
  map contents
      (held (map (fun i => Some (stored useCompression (chunkAt buf i))) ixs))
  = map (chunkAt buf) ixs.
Proof.
  rewrite <- (map_map (fun i => stored useCompression (chunkAt buf i)) Some).
  rewrite held_map_Some, map_map. apply map_ext. intros i. apply contents_stored.
Qed.

(** A receiver, in whatever state, that is handed the frames of a
    transfer returns from every handler and adds one entry to its list
    of received files: the payload under the announced name. *)
Lemma receive_transferFrames (file : File) (useCompression : bool)
      (level : Number) (sender_codec : option ZstdStreaming) (p : Peer) :
  (useCompression = true -> codecs_fit level sender_codec (zstdCodec p)) ->
  exists cs p',
    receive (transferFrames sender_codec file useCompression level) p = (cs, p')
    /\ Forall (eq Returned) cs
    /\ fileList p'
       = fileList p
         ++ [{| file_name := f_name file;
                file_size := f_size file;
                blob := f_bytes file;
                blob_type := if String.eqb (f_type file) ""
                             then "application/octet-stream"%string
                             else f_type file |}]
    /\ incomingFile p' = None
    /\ receivedChunks p' = []
    /\ reports p' = reports p.
Proof.
  intros Hfit. unfold transferFrames.
  set (n := Math_ceil_div (f_size file) CHUNK_SIZE).
  cbn [receive handleDataChannelMessage handleFileMetadata].
  rewrite receive_app.
  match goal with |- context [receive (flat_map _ _) ?q] => set (p0 := q) end.
  destruct (receive_chunkFrames useCompression level (f_bytes file) sender_codec
              (indices (Z.to_nat n) 0) p0
              {| name := f_name file; size := f_size file;
                 mimeType := f_type file; compressed := useCompression;
                 totalChunks := n; currentChunk := None |}
              eq_refl eq_refl eq_refl Hfit)
    as (cs & p1 & E & F1 & F2 & F3 & F4 & F5 & F6 & F7).
  rewrite E. cbn [receive handleDataChannelMessage].
  assert (Hs : Forall assemblable (receivedChunks p1)).
  { rewrite F3. cbn [p0 receivedChunks app]. apply Forall_forall.
    intros chunk Hin. apply in_map_iff in Hin. destruct Hin as (i & <- & Hi).
    apply indices_bounds in Hi. cbn [assemblable]. apply stored_sized.
    pose proof (Math_ceil_div_nonneg _ _ CHUNK_SIZE_pos (len_nonneg (f_bytes file))).
    unfold n, f_size in *. lia. }
  rewrite (handleTransferComplete_sized _ _ F2 Hs).
  exists (Returned :: cs ++ [Returned]). eexists. split; [reflexivity|].
  split.
  { constructor; [reflexivity|]. apply Forall_app. split; [assumption|].
    constructor; [reflexivity | constructor]. }
  cbn [fileList incomingFile receivedChunks reports].
  rewrite F3, F5, F6. cbn [p0 receivedChunks fileList reports app].
  rewrite map_contents_stored. unfold n, f_size. rewrite concat_all_chunks.
  repeat split.
Qed.

(** * The claims *)

(** ** C1: round trip *)

(** C1.  Round trip.  For every payload (of any length, zero and less
    than one chunk included), with or without compression: a [sendFile]
    on an open channel whose drain waits all end returns, and a receiver,
    in whatever state, that handles the frames it wrote returns from every
    handler and adds one received file whose bytes are the payload.  With
    compression the codecs of the two peers are assumed to fit
    ([decompress] inverts [compress]). *)
Theorem roundtrip
        (jsonBytes : Message -> Z) (fileRead : RTCDataChannel -> Z)
        (bufferedamountlow : RTCDataChannel -> option Z)
        (arrivals : RTCDataChannel -> list Frame)
        (file : File) (useCompression : bool) (level : Number)
        (sender receiver : Peer) (channel : RTCDataChannel) :
  dataChannel sender = Some channel ->
  readyState channel = open ->
  (forall w, bufferedamountlow w <> None) ->
  (useCompression = true ->
   codecs_fit level (zstdCodec sender) (zstdCodec receiver)) ->
  exists sender' fs cs receiver',
    sendFile jsonBytes fileRead bufferedamountlow arrivals (Some file) useCompression
             level sender
    = (Returned, sender')
    /\ sentFrames sender' = sentFrames sender ++ fs
    /\ receive fs receiver = (cs, receiver')
    /\ Forall (eq Returned) cs
    /\ fileList receiver'
       = fileList receiver
         ++ [{| file_name := f_name file;
                file_size := len (f_bytes file);
                blob := f_bytes file;
                blob_type := if String.eqb (f_type file) ""
                             then "application/octet-stream"%string
                             else f_type file |}].
Proof.
  intros Hc Hopen Hev Hfit.
  assert (Hz : useCompression = true -> zstdCodec sender <> None).
  { intros Huc. destruct (Hfit Huc) as (zs & _ & -> & _). discriminate. }
  destruct (sendFile_frames jsonBytes fileRead bufferedamountlow arrivals file useCompression level sender channel Hc Hopen Hev Hz)
    as (sender' & E & F & _).
  destruct (receive_transferFrames file useCompression level (zstdCodec sender) receiver Hfit)
    as (cs & receiver' & R & Hcs & Hlist & _).
  exists sender', (transferFrames (zstdCodec sender) file useCompression level),
    cs, receiver'.
  repeat split; assumption.
Qed.

Lemma roundtrip_witness :
  exists sender' fs cs receiver',
    sendFile Demo.jsonBytes Demo.fileRead Demo.bufferedamountlow Demo.quiet
             (Some Demo.hello) true (Num 3) Demo.page
    = (Returned, sender')
    /\ sentFrames sender' = sentFrames Demo.page ++ fs
    /\ receive fs Demo.page = (cs, receiver')
    /\ Forall (eq Returned) cs
    /\ fileList receiver'
       = fileList Demo.page
         ++ [{| file_name := "hello.txt";
                file_size := 5;
                blob := [x68; x65; x6c; x6c; x6f];
                blob_type := "text/plain" |}].
Proof.
  apply (roundtrip Demo.jsonBytes Demo.fileRead Demo.bufferedamountlow Demo.quiet
                    Demo.hello true (Num 3) Demo.page Demo.page Demo.channel).
  - reflexivity.
  - reflexivity.
  - intros w. discriminate.
  - intros _. exists Demo.store, Demo.store. repeat split; reflexivity.
Defined.

(** ** C7: zero-length payload *)

Lemma Math_ceil_div_0 : Math_ceil_div 0 CHUNK_SIZE = 0.
Proof. apply Math_ceil_div_unique; rewrite CHUNK_SIZE_val; lia. Qed.

(** C7.  Zero-length payload.  For a file of 0 bytes, whatever the
    compression setting, [sendFile] on an open channel writes exactly two
    frames: a Metadata frame with [totalChunks = 0] and the Completion
    frame, with no chunk header and no binary frame between them; a
    receiver that handles these two frames returns from both handlers and
    adds a received file of length 0. *)
Theorem zero_length_transfer
        (jsonBytes : Message -> Z) (fileRead : RTCDataChannel -> Z)
        (bufferedamountlow : RTCDataChannel -> option Z)
        (arrivals : RTCDataChannel -> list Frame)
        (fname ftype : string) (useCompression : bool) (level : Number)
        (sender receiver : Peer) (channel : RTCDataChannel) :
  dataChannel sender = Some channel ->
  readyState channel = open ->
  exists sender' m receiver' entry,
    sendFile jsonBytes fileRead bufferedamountlow arrivals
             (Some {| f_name := fname; f_type := ftype; f_bytes := [] |})
             useCompression level sender
    = (Returned, sender')
    /\ sentFrames sender' = sentFrames sender ++ [Text (Metadata m); Text Complete]
    /\ meta_totalChunks m = 0
    /\ meta_size m = 0
    /\ receive [Text (Metadata m); Text Complete] receiver
       = ([Returned; Returned], receiver')
    /\ fileList receiver' = fileList receiver ++ [entry]
    /\ blob entry = []
    /\ len (blob entry) = 0.
Proof.
  intros Hc Hopen. unfold sendFile. rewrite Hc, Hopen.
  unfold f_size. cbn [is_open negb f_bytes f_name f_type len length Z.of_nat].
  rewrite Math_ceil_div_0. cbn [Z.to_nat sendChunks].
  do 4 eexists. split; [reflexivity|].
  unfold sentFrames. rewrite Hc. cbn [dataChannel set_dataChannel history send].
  rewrite !frames_app. cbn [frames flat_map app].
  rewrite <- app_assoc. cbn [app].
  split; [reflexivity|]. split; [reflexivity|]. split; [reflexivity|].
  cbn. repeat split; reflexivity.
Qed.

Lemma zero_length_transfer_witness :
  exists sender' m receiver' entry,
    sendFile Demo.jsonBytes Demo.fileRead Demo.bufferedamountlow Demo.quiet
             (Some {| f_name := "empty.bin"; f_type := ""; f_bytes := [] |})
             true NaN Demo.page
    = (Returned, sender')
    /\ sentFrames sender' = sentFrames Demo.page ++ [Text (Metadata m); Text Complete]
    /\ meta_totalChunks m = 0
    /\ meta_size m = 0
    /\ receive [Text (Metadata m); Text Complete] initial
       = ([Returned; Returned], receiver')
    /\ fileList receiver' = fileList initial ++ [entry]
    /\ blob entry = []
    /\ len (blob entry) = 0.
Proof.
  apply (zero_length_transfer Demo.jsonBytes Demo.fileRead Demo.bufferedamountlow Demo.quiet
           "empty.bin" "" true NaN Demo.page initial Demo.channel).
  - reflexivity.
  - reflexivity.
Defined.

(** ** C3: ordering of the chunk indices *)

Lemma headers_transferFrames (codec : option ZstdStreaming) (file : File)
      (useCompression : bool) (level : Number) :
  headers (transferFrames codec file useCompression level)
  = headers (flat_map (chunkFrames codec useCompression level (f_bytes file))
                      (indices (Z.to_nat (Math_ceil_div (f_size file) CHUNK_SIZE)) 0)).
Proof.
  unfold transferFrames.
  change (headers (Text (Metadata ?m) :: ?l)) with (headers l).
  rewrite headers_app. cbn. apply app_nil_r.
Qed.

Lemma binaries_transferFrames (codec : option ZstdStreaming) (file : File)
      (useCompression : bool) (level : Number) :
  binaries (transferFrames codec file useCompression level)
  = binaries (flat_map (chunkFrames codec useCompression level (f_bytes file))
                       (indices (Z.to_nat (Math_ceil_div (f_size file) CHUNK_SIZE)) 0)).
Proof.
  unfold transferFrames.
  change (binaries (Text (Metadata ?m) :: ?l)) with (binaries l).
  rewrite binaries_app. cbn. apply app_nil_r.
Qed.

Lemma metadatas_transferFrames (codec : option ZstdStreaming) (file : File)
      (useCompression : bool) (level : Number) :
  metadatas (transferFrames codec file useCompression level)
  = [{| meta_name := f_name file;
        meta_size := f_size file;
        meta_mimeType := f_type file;
        meta_compressed := useCompression;
        meta_compressionLevel := level;
        meta_totalChunks := Math_ceil_div (f_size file) CHUNK_SIZE |}].
Proof.
  unfold transferFrames.
  change (metadatas (Text (Metadata ?m) :: ?l)) with (m :: metadatas l).
  f_equal. now rewrite metadatas_chunkFrames.
Qed.

Lemma observedHeaders_app (fs gs : list Frame) (p : Peer) :
  observedHeaders (fs ++ gs) p
  = observedHeaders fs p ++ observedHeaders gs (snd (receive fs p)).
Proof.
  revert p. induction fs as [|f fs IH]; intros p; [reflexivity|].
  cbn [app observedHeaders receive]. rewrite IH.
  destruct (handleDataChannelMessage f p) as [c p1]. cbn [snd].
  destruct (receive fs p1) as [cs p2]. cbn [snd].
  now destruct (chunkInfo f p).
Qed.

(** During a transfer the receiver pairs every binary frame with the
    header sent just before it, whether or not the payload decodes. *)
Lemma observedHeaders_chunkFrames (codec : option ZstdStreaming)
      (useCompression : bool) (level : Number) (buf : bytes) (ixs : list Z) :
  forall p,
    incomingFile p <> None ->
    observedHeaders (flat_map (chunkFrames codec useCompression level buf) ixs) p
    = headers (flat_map (chunkFrames codec useCompression level buf) ixs)
    /\ incomingFile
         (snd (receive (flat_map (chunkFrames codec useCompression level buf) ixs) p))
       <> None.
Proof.
  induction ixs as [|i ixs IH]; intros p Hp; [split; [reflexivity | exact Hp]|].
  cbn [flat_map]. rewrite observedHeaders_app, headers_app, receive_app.
  unfold chunkFrames at 1 3 4 6.
  destruct (encodeChunk codec useCompression level (chunkAt buf i)) as [data|].
  2:{ cbn [observedHeaders headers flat_map receive snd app].
      destruct (IH p Hp) as [E N].
      destruct (receive (flat_map _ ixs) p) as [cs p1] eqn:R.
      cbn [snd] in *. auto. }
  destruct (incomingFile p) as [g|] eqn:Hg; [|congruence].
  set (h := {| index := i; originalSize := len (chunkAt buf i);
               compressedSize := byteLength_or_length data |}).
  cbn [receive handleDataChannelMessage observedHeaders chunkInfo]. rewrite Hg.
  cbn [snd incomingFile set_incomingFile currentChunk set_currentChunk].
  assert (Hnext : incomingFile
                    (snd (handleChunkData (contents data)
                            (set_incomingFile (Some (set_currentChunk h g)) p)))
                  <> None).
  { unfold handleChunkData.
    cbn [incomingFile set_incomingFile currentChunk set_currentChunk compressed].
    destruct (if compressed g then _ else _) as [e|[chunk|]]; cbn; discriminate. }
  destruct (handleChunkData (contents data)
              (set_incomingFile (Some (set_currentChunk h g)) p)) as [c p1].
  cbn [snd] in *. destruct (IH p1 Hnext) as [E N]. rewrite E.
  destruct (receive (flat_map _ ixs) p1) as [cs p2]. cbn [snd] in *.
  split; [reflexivity | exact N].
Qed.

Lemma observedHeaders_transferFrames (codec : option ZstdStreaming) (file : File)
      (useCompression : bool) (level : Number) (p : Peer) :
  observedHeaders (transferFrames codec file useCompression level) p
  = headers (transferFrames codec file useCompression level).
Proof.
  rewrite headers_transferFrames. unfold transferFrames.
  cbn [observedHeaders chunkInfo handleDataChannelMessage handleFileMetadata snd].
  rewrite observedHeaders_app.
  match goal with |- context [observedHeaders (flat_map ?f ?l) ?q] =>
    destruct (observedHeaders_chunkFrames codec useCompression level
                (f_bytes file) l q ltac:(cbn; discriminate)) as [-> _] end.
  cbn. apply app_nil_r.
Qed.

(** C3.  Ordering.  For every payload, a [sendFile] that runs to its end
    (open channel, every drain wait ends, codec initialised if
    compression is on) writes chunk headers whose [index] fields, in the
    order of sending, are exactly 0, 1, ..., totalChunks - 1, where
    totalChunks is the count announced in the Metadata frame; and a
    receiver, in whatever state, that is handed these frames in this
    order pairs the binary frames it consumes with headers whose indices
    are exactly that sequence. *)
Theorem chunk_indices_in_order
        (jsonBytes : Message -> Z) (fileRead : RTCDataChannel -> Z)
        (bufferedamountlow : RTCDataChannel -> option Z)
        (arrivals : RTCDataChannel -> list Frame)
        (file : File) (useCompression : bool) (level : Number)
        (sender : Peer) (channel : RTCDataChannel) :
  dataChannel sender = Some channel ->
  readyState channel = open ->
  (forall w, bufferedamountlow w <> None) ->
  (useCompression = true -> zstdCodec sender <> None) ->
  exists sender' fs m,
    sendFile jsonBytes fileRead bufferedamountlow arrivals (Some file) useCompression
             level sender
    = (Returned, sender')
    /\ sentFrames sender' = sentFrames sender ++ fs
    /\ metadatas fs = [m]
    /\ map index (headers fs)
       = map Z.of_nat (seq 0 (Z.to_nat (meta_totalChunks m)))
    /\ forall receiver,
         map index (observedHeaders fs receiver)
         = map Z.of_nat (seq 0 (Z.to_nat (meta_totalChunks m))).
Proof.
  intros Hc Hopen Hev Hz.
  destruct (sendFile_frames jsonBytes fileRead bufferedamountlow arrivals file
              useCompression level sender channel Hc Hopen Hev Hz)
    as (sender' & E & F & _).
  exists sender', (transferFrames (zstdCodec sender) file useCompression level).
  eexists. split; [exact E|]. split; [exact F|].
  split; [apply metadatas_transferFrames|].
  cbn [meta_totalChunks].
  assert (H : map index (headers (transferFrames (zstdCodec sender) file
                                                 useCompression level))
              = map Z.of_nat
                    (seq 0 (Z.to_nat (Math_ceil_div (f_size file) CHUNK_SIZE)))).
  { rewrite headers_transferFrames.
    destruct (headers_chunkFrames (zstdCodec sender) useCompression level
                (f_bytes file) Hz
                (indices (Z.to_nat (Math_ceil_div (f_size file) CHUNK_SIZE)) 0))
      as [-> _].
    apply (indices_seq _ 0). }
  split; [exact H|].
  intros receiver. now rewrite observedHeaders_transferFrames.
Qed.

Lemma chunk_indices_in_order_witness :
  exists sender' fs m,
    sendFile Demo.jsonBytes Demo.fileRead Demo.bufferedamountlow Demo.quiet
             (Some Demo.hello) false (Num 3) Demo.page
    = (Returned, sender')
    /\ sentFrames sender' = sentFrames Demo.page ++ fs
    /\ metadatas fs = [m]
    /\ map index (headers fs)
       = map Z.of_nat (seq 0 (Z.to_nat (meta_totalChunks m)))
    /\ forall receiver,
         map index (observedHeaders fs receiver)
         = map Z.of_nat (seq 0 (Z.to_nat (meta_totalChunks m))).
Proof.
  apply (chunk_indices_in_order Demo.jsonBytes Demo.fileRead
           Demo.bufferedamountlow Demo.quiet Demo.hello false (Num 3) Demo.page
           Demo.channel).
  - reflexivity.
  - reflexivity.
  - intros w. discriminate.
  - discriminate.
Defined.

(** ** C8: no compression, wire size equals original size *)

Example sendFile_hello_raw :
  sentFrames (snd (sendFile Demo.jsonBytes Demo.fileRead Demo.bufferedamountlow Demo.quiet
                            (Some Demo.hello) false (Num 3) Demo.page))
  = [Text (Metadata {| meta_name := "hello.txt"; meta_size := 5;
                       meta_mimeType := "text/plain"; meta_compressed := false;
                       meta_compressionLevel := Num 3; meta_totalChunks := 1 |});
     Text (Chunk {| index := 0; originalSize := 5; compressedSize := Some 5 |});
     Binary [x68; x65; x6c; x6c; x6f];
     Text Complete].
Proof. vm_compute. reflexivity. Qed.

Example sendFile_hello_compressed :
  sentFrames (snd (sendFile Demo.jsonBytes Demo.fileRead Demo.bufferedamountlow Demo.quiet
                            (Some Demo.hello) true (Num 3) Demo.page))
  = [Text (Metadata {| meta_name := "hello.txt"; meta_size := 5;
                       meta_mimeType := "text/plain"; meta_compressed := true;
                       meta_compressionLevel := Num 3; meta_totalChunks := 1 |});
     Text (Chunk {| index := 0; originalSize := 5; compressedSize := Some 6 |});
     Binary [x28; x68; x65; x6c; x6c; x6f];
     Text Complete].
Proof. vm_compute. reflexivity. Qed.

(** C8.  For every [sendFile] with compression off, in whatever state
    the page is and however the send ends: the Metadata frame it wrote
    says [compressed = false], every chunk header it wrote carries a
    [compressedSize] equal to its [originalSize], the binary frames are
    the unmodified slices of the payload, and each header's
    [originalSize] is the length of the binary frame that follows it. *)
Theorem uncompressed_wire_size_is_original_size
        (jsonBytes : Message -> Z) (fileRead : RTCDataChannel -> Z)
        (bufferedamountlow : RTCDataChannel -> option Z)
        (arrivals : RTCDataChannel -> list Frame)
        (file : File) (level : Number) (sender : Peer) :
  exists fs k,
    sentFrames (snd (sendFile jsonBytes fileRead bufferedamountlow arrivals (Some file)
                              false level sender))
    = sentFrames sender ++ fs
    /\ Forall (fun m => meta_compressed m = false) (metadatas fs)
    /\ Forall (fun h => compressedSize h = Some (originalSize h)) (headers fs)
    /\ binaries fs = map (chunkAt (f_bytes file)) (indices k 0)
    /\ map originalSize (headers fs) = map len (binaries fs).
Proof.
  destruct (sendFile_prefix jsonBytes fileRead bufferedamountlow arrivals file false
                            level sender)
    as (fs & k & Hfs & Hk & Hh & Hb & Hm).
  exists fs, k. split; [exact Hfs|]. split; [exact Hm|].
  rewrite Hh, Hb, binaries_chunkFrames_raw.
  split.
  - apply headers_chunkFrames_raw. apply Forall_forall. intros i Hi.
    apply indices_bounds in Hi. apply chunkAt_nonempty. lia.
  - split; [reflexivity|].
    destruct (headers_chunkFrames (zstdCodec sender) false level (f_bytes file)
                ltac:(discriminate) (indices k 0)) as [_ ->].
    now rewrite map_map.
Qed.

(** ** C2: chunk count *)

Example scenario_A :
  let fs := sentFrames (snd (sendFile Demo.jsonBytes Demo.fileRead
                                      Demo.bufferedamountlow Demo.quiet (Some Demo.zeroes)
                                      false (Num 3) Demo.page)) in
  map meta_totalChunks (metadatas fs) = [4]
  /\ map len (binaries fs) = [65536; 65536; 65536; 3392]
  /\ map (fun e => len (blob e)) (fileList (snd (receive fs initial))) = [200000].
Proof. vm_compute. repeat split. Qed.

(** C2.  Chunk count.  With the chunk size C = 65536 and a payload of
    length L, a [sendFile] that runs to its end announces in its Metadata
    frame the count n = ceil(L / C) (the least n with n * C >= L), writes
    exactly n chunk headers and n binary frames, the chunks being the
    slices [0,C), [C,2C), ... of the payload with the last one cut at L
    (sent as they are without compression, each compressed on its own
    with compression); the last chunk has L mod C bytes, or C bytes when
    L mod C = 0 and L > 0.  For L = 200000 without compression: n = 4,
    the binary frames have 65536, 65536, 65536 and 3392 bytes, and a
    receiver that handles the frames assembles 200000 bytes. *)
Theorem chunk_count
        (jsonBytes : Message -> Z) (fileRead : RTCDataChannel -> Z)
        (bufferedamountlow : RTCDataChannel -> option Z)
        (arrivals : RTCDataChannel -> list Frame)
        (file : File) (useCompression : bool) (level : Number)
        (sender : Peer) (channel : RTCDataChannel) :
  dataChannel sender = Some channel ->
  readyState channel = open ->
  (forall w, bufferedamountlow w <> None) ->
  (useCompression = true -> zstdCodec sender <> None) ->
  exists sender' fs m,
    sendFile jsonBytes fileRead bufferedamountlow arrivals (Some file) useCompression
             level sender
    = (Returned, sender')
    /\ sentFrames sender' = sentFrames sender ++ fs
    /\ metadatas fs = [m]
    /\ CHUNK_SIZE = 65536
    /\ (meta_totalChunks m - 1) * CHUNK_SIZE < len (f_bytes file)
       <= meta_totalChunks m * CHUNK_SIZE
    /\ length (headers fs) = Z.to_nat (meta_totalChunks m)
    /\ length (binaries fs) = Z.to_nat (meta_totalChunks m)
    /\ map originalSize (headers fs)
       = map len (slices (f_bytes file) CHUNK_SIZE (meta_totalChunks m))
    /\ (useCompression = false ->
        binaries fs = slices (f_bytes file) CHUNK_SIZE (meta_totalChunks m))
    /\ (forall z, useCompression = true -> zstdCodec sender = Some z ->
        binaries fs
        = map (fun chunk => compress z chunk level)
              (slices (f_bytes file) CHUNK_SIZE (meta_totalChunks m)))
    /\ (0 < len (f_bytes file) ->
        last (map originalSize (headers fs)) 0
        = if len (f_bytes file) mod CHUNK_SIZE =? 0 then CHUNK_SIZE
          else len (f_bytes file) mod CHUNK_SIZE)
    /\ (len (f_bytes file) = 200000 -> useCompression = false ->
        meta_totalChunks m = 4
        /\ map len (binaries fs) = [65536; 65536; 65536; 3392]
        /\ forall receiver, exists cs receiver' entry,
             receive fs receiver = (cs, receiver')
             /\ fileList receiver' = fileList receiver ++ [entry]
             /\ len (blob entry) = 200000).
Proof.
  intros Hc Hopen Hev Hz.
  destruct (sendFile_frames jsonBytes fileRead bufferedamountlow arrivals file
              useCompression level sender channel Hc Hopen Hev Hz)
    as (sender' & E & F & _).
  exists sender', (transferFrames (zstdCodec sender) file useCompression level).
  eexists. split; [exact E|]. split; [exact F|].
  split; [apply metadatas_transferFrames|].
  cbn [meta_totalChunks]. unfold f_size.
  set (buf := f_bytes file). set (n := Math_ceil_div (len buf) CHUNK_SIZE).
  rewrite headers_transferFrames, binaries_transferFrames. unfold f_size.
  fold buf. fold n.
  destruct (headers_chunkFrames (zstdCodec sender) useCompression level buf Hz
              (indices (Z.to_nat n) 0)) as [Hidx Hsz].
  split; [exact CHUNK_SIZE_val|].
  split; [apply Math_ceil_div_bounds, CHUNK_SIZE_pos|].
  split.
  { rewrite <- (length_map index), Hidx. apply indices_length. }
  split.
  { rewrite binaries_length_chunkFrames by exact Hz. apply indices_length. }
  split.
  { rewrite Hsz, <- chunks_slices. now rewrite map_map. }
  split.
  { intros ->. rewrite binaries_chunkFrames_raw. apply chunks_slices. }
  split.
  { intros z -> ->. rewrite binaries_chunkFrames_zstd, <- chunks_slices.
    now rewrite map_map. }
  split.
  { intros HL. rewrite Hsz. now apply last_chunk_length. }
  intros HL ->.
  assert (Hn : n = 4).
  { apply Math_ceil_div_unique; rewrite ?HL, CHUNK_SIZE_val; lia. }
  split; [exact Hn|]. split.
  - rewrite binaries_chunkFrames_raw, Hn, map_map.
    change (Z.to_nat 4) with 4%nat. cbn [indices map].
    rewrite !len_chunkAt by lia. rewrite HL, CHUNK_SIZE_val. reflexivity.
  - intros receiver.
    destruct (receive_transferFrames file false level (zstdCodec sender) receiver
                ltac:(discriminate))
      as (cs & receiver' & R & _ & Hlist & _).
    exists cs, receiver'. eexists. split; [exact R|]. split; [exact Hlist|].
    exact HL.
Qed.

Lemma chunk_count_witness :
  exists sender' fs m,
    sendFile Demo.jsonBytes Demo.fileRead Demo.bufferedamountlow Demo.quiet
             (Some Demo.zeroes) false (Num 3) Demo.page
    = (Returned, sender')
    /\ sentFrames sender' = sentFrames Demo.page ++ fs
    /\ metadatas fs = [m]
    /\ CHUNK_SIZE = 65536
    /\ (meta_totalChunks m - 1) * CHUNK_SIZE < len (f_bytes Demo.zeroes)
       <= meta_totalChunks m * CHUNK_SIZE
    /\ length (headers fs) = Z.to_nat (meta_totalChunks m)
    /\ length (binaries fs) = Z.to_nat (meta_totalChunks m)
    /\ map originalSize (headers fs)
       = map len (slices (f_bytes Demo.zeroes) CHUNK_SIZE (meta_totalChunks m))
    /\ (false = false ->
        binaries fs = slices (f_bytes Demo.zeroes) CHUNK_SIZE (meta_totalChunks m))
    /\ (forall z, false = true -> zstdCodec Demo.page = Some z ->
        binaries fs
        = map (fun chunk => compress z chunk (Num 3))
              (slices (f_bytes Demo.zeroes) CHUNK_SIZE (meta_totalChunks m)))
    /\ (0 < len (f_bytes Demo.zeroes) ->
        last (map originalSize (headers fs)) 0
        = if len (f_bytes Demo.zeroes) mod CHUNK_SIZE =? 0 then CHUNK_SIZE
          else len (f_bytes Demo.zeroes) mod CHUNK_SIZE)
    /\ (len (f_bytes Demo.zeroes) = 200000 -> false = false ->
        meta_totalChunks m = 4
        /\ map len (binaries fs) = [65536; 65536; 65536; 3392]
        /\ forall receiver, exists cs receiver' entry,
             receive fs receiver = (cs, receiver')
             /\ fileList receiver' = fileList receiver ++ [entry]
             /\ len (blob entry) = 200000).
Proof.
  apply (chunk_count Demo.jsonBytes Demo.fileRead Demo.bufferedamountlow Demo.quiet
           Demo.zeroes false (Num 3) Demo.page Demo.channel).
  - reflexivity.
  - reflexivity.
  - intros w. discriminate.
  - discriminate.
Defined.

(** ** C6: frames that arrive out of state *)

(** C6.  A binary frame that arrives while no chunk header is pending,
    and a chunk header that arrives while no transfer is active, leave
    the whole state of the page as it was (the handler of the binary
    frame returns at once, the handler of the chunk header throws before
    it has changed anything): the frame is merged into no transfer, the
    receiver stays in the state it was in, and whatever frames follow are
    handled as if the frame had never arrived. *)
Theorem out_of_state_frame_ignored (f : Frame) (p : Peer) :
  out_of_state f p ->
  snd (handleDataChannelMessage f p) = p
  /\ receiverState (snd (handleDataChannelMessage f p)) = receiverState p
  /\ transferState (snd (handleDataChannelMessage f p)) = transferState p
  /\ forall rest, snd (receive (f :: rest) p) = snd (receive rest p).
Proof.
  intros H.
  assert (E : snd (handleDataChannelMessage f p) = p).
  { destruct f as [[m|h| | |]|data]; cbn in H; try contradiction.
    - unfold receiverState in H. cbn [handleDataChannelMessage].
      destruct (incomingFile p) as [g|]; [|reflexivity].
      destruct (currentChunk g); discriminate.
    - unfold receiverState in H. cbn [handleDataChannelMessage].
      unfold handleChunkData.
      destruct (incomingFile p) as [g|]; [|reflexivity].
      destruct (currentChunk g); [congruence | reflexivity]. }
  rewrite E. repeat split.
  intros rest. cbn [receive].
  destruct (handleDataChannelMessage f p) as [c p1]. cbn [snd] in E. subst p1.
  now destruct (receive rest p).
Qed.

Lemma out_of_state_frame_ignored_witness :
  snd (handleDataChannelMessage (Binary [x2a]) Demo.receiving) = Demo.receiving
  /\ receiverState (snd (handleDataChannelMessage (Binary [x2a]) Demo.receiving))
     = receiverState Demo.receiving
  /\ transferState (snd (handleDataChannelMessage (Binary [x2a]) Demo.receiving))
     = transferState Demo.receiving
  /\ forall rest,
       snd (receive (Binary [x2a] :: rest) Demo.receiving)
       = snd (receive rest Demo.receiving).
Proof.
  apply (out_of_state_frame_ignored (Binary [x2a]) Demo.receiving).
  vm_compute. discriminate.
Defined.

Example header_while_idle :
  handleDataChannelMessage
    (Text (Chunk {| index := 0; originalSize := 1; compressedSize := Some 1 |}))
    Demo.page
  = (Threw TypeError, Demo.page).
Proof. reflexivity. Qed.

Example binary_without_header :
  handleDataChannelMessage (Binary [x2a]) Demo.receiving = (Returned, Demo.receiving).
Proof. reflexivity. Qed.

(** ** C4: a second Metadata frame during a transfer *)

Example second_metadata_replaces :
  handleDataChannelMessage (Text (Metadata Demo.other)) Demo.receiving
  = (Returned,
     {| dataChannel := Some Demo.channel;
        zstdCodec := Some Demo.store;
        incomingFile := Some {| name := "b.bin"; size := 7;
                                mimeType := "text/plain"; compressed := true;
                                totalChunks := 1; currentChunk := None |};
        receivedChunks := [];
        receivedSize := Num 0;
        benchmark := {| bm_originalSize := 7; bm_compressedSize := 0;
                        chunksSent := 0; chunksReceived := 0 |};
        fileList := [];
        reports := [] |}).
Proof. reflexivity. Qed.

(** C4 as stated fails.  The receiver [Demo.receiving] is awaiting a
    chunk of a transfer of which it holds one chunk of 3 bytes; on a
    second Metadata frame the handler returns without signalling
    anything, and the state of the first transfer is not left as it was. *)
Lemma second_metadata_counterexample :
  ~ (receiverState Demo.receiving = AwaitingChunk ->
     signalled Demo.receiving
       (handleDataChannelMessage (Text (Metadata Demo.other)) Demo.receiving)
     /\ transferState
          (snd (handleDataChannelMessage (Text (Metadata Demo.other))
                                         Demo.receiving))
        = transferState Demo.receiving).
Proof.
  intros H. destruct (H eq_refl) as [_ E]. vm_compute in E. discriminate E.
Qed.

(** C4, amended.  A Metadata frame is handled the same way in every
    state of the receiver: the handler returns and signals nothing, the
    received files are untouched, and the incoming transfer state becomes
    the fresh state built from this frame alone (no pending header, no
    accumulated chunk, zero received bytes and chunks).  Nothing of a
    transfer that was active survives: the resulting transfer state is
    the same from every prior state, so two transfers are never merged. *)
Theorem metadata_starts_afresh (m : FileMetadata) (p : Peer) :
  let result := handleDataChannelMessage (Text (Metadata m)) p in
  fst result = Returned
  /\ ~ signalled p result
  /\ fileList (snd result) = fileList p
  /\ transferState (snd result)
     = (Some {| name := meta_name m; size := meta_size m;
                mimeType := meta_mimeType m; compressed := meta_compressed m;
                totalChunks := meta_totalChunks m; currentChunk := None |},
        [], Num 0, 0, 0)
  /\ receiverState (snd result) = AwaitingChunk
  /\ forall q,
       transferState (snd (handleDataChannelMessage (Text (Metadata m)) q))
       = transferState (snd result).
Proof.
  cbn. repeat split. unfold signalled. cbn. intros [H|H]; now apply H.
Qed.

(** ** C5: completion and the declared size *)

Example completion_with_short_payload :
  handleDataChannelMessage (Text Complete) Demo.receiving
  = (Returned,
     {| dataChannel := Some Demo.channel;
        zstdCodec := Some Demo.store;
        incomingFile := None;
        receivedChunks := [];
        receivedSize := Num 0;
        benchmark := {| bm_originalSize := 10; bm_compressedSize := 3;
                        chunksSent := 0; chunksReceived := 1 |};
        fileList := [{| file_name := "a.bin"; file_size := 10;
                        blob := [x01; x02; x03];
                        blob_type := "application/octet-stream" |}];
        reports := [] |}).
Proof. vm_compute. reflexivity. Qed.

(** C5 as stated fails.  [Demo.receiving] holds 3 bytes of a transfer
    declared as 10 bytes; on the Completion frame the transfer is
    finalised and the 3 bytes are delivered, but nothing is signalled. *)
Lemma size_mismatch_counterexample :
  ~ (forall f, incomingFile Demo.receiving = Some f ->
       len (concat (map contents (held (receivedChunks Demo.receiving)))) <> size f ->
       signalled Demo.receiving
         (handleDataChannelMessage (Text Complete) Demo.receiving)).
Proof.
  intros H.
  destruct (H {| name := "a.bin"; size := 10; mimeType := ""; compressed := false;
                 totalChunks := 2; currentChunk := None |}) as [E|E].
  - reflexivity.
  - vm_compute. discriminate.
  - vm_compute in E. now apply E.
  - vm_compute in E. now apply E.
Qed.

(** C5, amended.  On a Completion frame for an active transfer whose
    accumulated chunks can all be assembled (none of them is an
    [ArrayBuffer] of length 0, and none is the [null] that a failed
    decompression leaves among them), the receiver concatenates the
    accumulated chunks in arrival order into one buffer, delivers it
    under the declared name and declared size, and returns to Idle with
    nothing accumulated, whatever the relation between the assembled
    length and the declared size: the two are not compared and nothing
    is signalled. *)
Theorem completion_delivers_what_was_assembled (p : Peer) (f : IncomingFile) :
  incomingFile p = Some f ->
  Forall assemblable (receivedChunks p) ->
  let result := handleDataChannelMessage (Text Complete) p in
  fst result = Returned
  /\ ~ signalled p result
  /\ receivedChunks p = map Some (held (receivedChunks p))
  /\ fileList (snd result)
     = fileList p
       ++ [{| file_name := name f;
              file_size := size f;
              blob := concat (map contents (held (receivedChunks p)));
              blob_type := if String.eqb (mimeType f) ""
                           then "application/octet-stream"%string
                           else mimeType f |}]
  /\ receiverState (snd result) = Idle
  /\ receivedChunks (snd result) = []
  /\ receivedSize (snd result) = Num 0.
Proof.
  intros Hf Hs. cbn [handleDataChannelMessage].
  rewrite (handleTransferComplete_sized p f Hf Hs). cbn.
  repeat split.
  - unfold signalled. cbn. intros [H|H]; now apply H.
  - clear Hf. induction Hs as [|[d|] rest Hd _ IH]; cbn.
    + reflexivity.
    + f_equal. exact IH.
    + destruct Hd.
Qed.

Lemma completion_delivers_what_was_assembled_witness :
  let result := handleDataChannelMessage (Text Complete) Demo.receiving in
  fst result = Returned
  /\ ~ signalled Demo.receiving result
  /\ receivedChunks Demo.receiving
     = map Some (held (receivedChunks Demo.receiving))
  /\ fileList (snd result)
     = fileList Demo.receiving
       ++ [{| file_name := "a.bin";
              file_size := 10;
              blob := concat (map contents (held (receivedChunks Demo.receiving)));
              blob_type := "application/octet-stream" |}]
  /\ receiverState (snd result) = Idle
  /\ receivedChunks (snd result) = []
  /\ receivedSize (snd result) = Num 0.
Proof.
  apply (completion_delivers_what_was_assembled Demo.receiving
           {| name := "a.bin"; size := 10; mimeType := ""; compressed := false;
              totalChunks := 2; currentChunk := None |}).
  - reflexivity.
  - vm_compute. repeat constructor; discriminate.
Defined.

(** The first case left out of the amended C5: an [ArrayBuffer] of
    length 0 among the accumulated chunks makes [totalLength] NaN, the
    buffer is created with length 0, and copying the first non-empty
    chunk throws. *)
Example completion_after_empty_chunk :
  let p := snd (receive [Text (Chunk {| index := 1; originalSize := 0;
                                        compressedSize := None |});
                         Binary []]
                        Demo.receiving) in
  totalLength (receivedChunks p) = Some NaN
  /\ handleDataChannelMessage (Text Complete) p = (Threw RangeError, p).
Proof. vm_compute. split; reflexivity. Qed.

(** The second case left out: a payload that the codec cannot decode.
    Its handler stores the [null] the codec returned and throws where
    it reads the length of that [null]; on the Completion frame the
    computation of the total length throws on it, nothing is delivered
    and the transfer stays as it is. *)
Example completion_after_failed_decode :
  let p0 := snd (receive [Text (Metadata Demo.other);
                          Text (Chunk {| index := 0; originalSize := 2;
                                         compressedSize := Some 3 |})]
                         Demo.page) in
  let '(r1, p1) := handleDataChannelMessage (Binary Demo.garbage) p0 in
  r1 = Threw TypeError
  /\ receivedChunks p1 = [None]
  /\ receivedSize p1 = Num 0
  /\ chunksReceived (benchmark p1) = 0
  /\ receiverState p1 = HaveHeader
  /\ handleDataChannelMessage (Text Complete) p1 = (Threw TypeError, p1)
  /\ fileList p1 = [].
Proof. vm_compute. repeat split; reflexivity. Qed.

(** ** C10: what the delivered bytes depend on *)

Lemma same_payload_state_refl (p : Peer) : same_payload_state p p.
Proof.
  unfold same_payload_state, same_transfer. repeat split.
  destruct (incomingFile p); tauto.
Qed.

(** Closes a goal of agreement between two states after one handler. *)
Ltac same_tac :=
  unfold same_payload_state, same_transfer; cbn;
  repeat match goal with
         | H : incomingFile _ = _ |- _ => rewrite H
         | H : currentChunk _ = _ |- _ => rewrite H
         end;
  repeat split; try congruence; try tauto; try (intros; discriminate).

Lemma handleTransferComplete_same (p q : Peer) :
  same_payload_state p q ->
  fst (handleTransferComplete p) = fst (handleTransferComplete q)
  /\ same_payload_state (snd (handleTransferComplete p))
                        (snd (handleTransferComplete q)).
Proof.
  intros (Hz & Hc & Hl & Ht). unfold handleTransferComplete. rewrite <- Hc.
  unfold same_transfer in Ht.
  destruct (incomingFile p) as [f|] eqn:Hp, (incomingFile q) as [g|] eqn:Hq;
    try contradiction;
    (destruct (totalLength (receivedChunks p)) as [total|]; [|same_tac]);
    (destruct (new_Uint8Array total) as [zeroes|]; [|same_tac]);
    (destruct (copyChunks (receivedChunks p) zeroes (Num 0)) as [e|combined];
     [same_tac|]);
    same_tac.
  rewrite !map_app, Hl. reflexivity.
Qed.

Lemma handleChunkData_same (data : bytes) (p q : Peer) :
  same_payload_state p q ->
  fst (handleChunkData data p) = fst (handleChunkData data q)
  /\ same_payload_state (snd (handleChunkData data p))
                        (snd (handleChunkData data q)).
Proof.
  intros (Hz & Hc & Hl & Ht). unfold handleChunkData, same_transfer in *.
  destruct (incomingFile p) as [f|] eqn:Hp, (incomingFile q) as [g|] eqn:Hq;
    try contradiction; [|same_tac].
  destruct Ht as [Hflag Hpend].
  destruct (currentChunk f) as [h|] eqn:Hf, (currentChunk g) as [h'|] eqn:Hg;
    [| exfalso; destruct Hpend as [_ Hpend]; now specialize (Hpend eq_refl)
     | exfalso; destruct Hpend as [Hpend _]; now specialize (Hpend eq_refl)
     | same_tac].
  rewrite <- Hflag. unfold decompressData. cbn [zstdCodec set_benchmark].
  rewrite <- Hz.
  destruct (compressed f) eqn:Hcf.
  - destruct (zstdCodec p) as [z|] eqn:Hcodec.
    + destruct (decompress z data) as [d|]; same_tac.
    + same_tac.
  - same_tac.
Qed.

(** One frame: the handlers end the same way and the states stay in
    agreement. *)
Lemma handleDataChannelMessage_same (f g : Frame) (p q : Peer) :
  same_payload_frames f g ->
  same_payload_state p q ->
  fst (handleDataChannelMessage f p) = fst (handleDataChannelMessage g q)
  /\ same_payload_state (snd (handleDataChannelMessage f p))
                        (snd (handleDataChannelMessage g q)).
Proof.
  intros Hfg Hpq.
  destruct f as [[m|h| | |]|b], g as [[m'|h'| | |]|b']; cbn in Hfg;
    try contradiction.
  - destruct Hpq as (Hz & Hc & Hl & Ht). same_tac.
  - destruct Hpq as (Hz & Hc & Hl & Ht). cbn [handleDataChannelMessage].
    unfold same_transfer in Ht.
    destruct (incomingFile p) as [f|] eqn:Hp, (incomingFile q) as [g|] eqn:Hq;
      try contradiction; same_tac.
  - now apply handleTransferComplete_same.
  - cbn. auto.
  - cbn. auto.
  - subst b'. now apply handleChunkData_same.
Qed.

Lemma receive_same (fs gs : list Frame) :
  Forall2 same_payload_frames fs gs ->
  forall p q,
    same_payload_state p q ->
    fst (receive fs p) = fst (receive gs q)
    /\ same_payload_state (snd (receive fs p)) (snd (receive gs q)).
Proof.
  induction 1 as [|f g fs gs Hfg _ IH]; intros p q Hpq; [cbn; auto|].
  cbn [receive].
  destruct (handleDataChannelMessage_same f g p q Hfg Hpq) as [Hc Hs].
  destruct (handleDataChannelMessage f p) as [c p1],
           (handleDataChannelMessage g q) as [d q1].
  cbn [fst snd] in Hc, Hs. subst d.
  destruct (IH p1 q1 Hs) as [Hcs Hss].
  destruct (receive fs p1) as [cs p2], (receive gs q1) as [ds q2].
  cbn [fst snd] in *. subst ds. auto.
Qed.

Lemma same_up_to_header_fields_payload (f g : Frame) :
  same_up_to_header_fields f g -> same_payload_frames f g.
Proof.
  destruct f as [[m|h| | |]|b], g as [[m'|h'| | |]|b']; cbn;
    try discriminate; try tauto; intros [= <-]; reflexivity.
Qed.

Example run1_delivers :
  map blob (fileList (snd (receive Demo.run1 Demo.page))) = [[x01; x02; x03]]
  /\ map blob (fileList (snd (receive Demo.run2 Demo.page))) = [[x01; x02; x03]].
Proof. vm_compute. split; reflexivity. Qed.

(** C10.  The bytes a receiver delivers depend only on the [compressed]
    flag of the Metadata frames and on the binary frames, taken in order
    and in their positions among the control frames (which decide what
    is consumed while a header is pending).  Two runs of frames that
    differ only in the numeric fields of their chunk headers ([index],
    [originalSize], [compressedSize]) are a case of two runs that agree
    on these; and whenever a receiver is handed two runs that agree on
    these, from the same state, every handler ends the same way in both
    and the delivered byte buffers are identical. *)
Theorem delivered_bytes_ignore_header_fields :
  (forall f g, same_up_to_header_fields f g -> same_payload_frames f g)
  /\ forall (p : Peer) (fs gs : list Frame),
       Forall2 same_payload_frames fs gs ->
       fst (receive fs p) = fst (receive gs p)
       /\ map blob (fileList (snd (receive fs p)))
          = map blob (fileList (snd (receive gs p)))
       /\ receivedChunks (snd (receive fs p)) = receivedChunks (snd (receive gs p)).
Proof.
  split; [exact same_up_to_header_fields_payload|].
  intros p fs gs H.
  destruct (receive_same fs gs H p p (same_payload_state_refl p))
    as [Hc (_ & Hr & Hl & _)].
  auto.
Qed.

Lemma delivered_bytes_ignore_header_fields_witness :
  fst (receive Demo.run1 Demo.page) = fst (receive Demo.run2 Demo.page)
  /\ map blob (fileList (snd (receive Demo.run1 Demo.page)))
     = map blob (fileList (snd (receive Demo.run2 Demo.page)))
  /\ receivedChunks (snd (receive Demo.run1 Demo.page))
     = receivedChunks (snd (receive Demo.run2 Demo.page)).
Proof.
  apply (proj2 delivered_bytes_ignore_header_fields Demo.page Demo.run1 Demo.run2).
  unfold Demo.run1, Demo.run2.
  repeat constructor.
Defined.

(** ** The send loop under backpressure *)

Section Backpressure.

Variable jsonBytes : Message -> Z.
Variable bufferedamountlow : RTCDataChannel -> option Z.
Variable arrivals : RTCDataChannel -> list Frame.

(** The browser fires ['bufferedamountlow'] when the buffered amount has
    fallen to the channel's [bufferedAmountLowThreshold] or below. *)
Hypothesis low_event :
  forall w b, bufferedamountlow w = Some b -> b <= bufferedAmountLowThreshold w.

Variable useCompression : bool.
Variable level : Number.
Variable buf : bytes.

Let loop := sendChunks jsonBytes bufferedamountlow arrivals useCompression level buf.

(** One iteration of the loop, with the codec call resolved. *)
Lemma sendChunks_step (n : nat) (i : Z) (c : RTCDataChannel) (p : Peer) :
  loop (S n) i c p
  = match encodeChunk (zstdCodec p) useCompression level (chunkAt buf i) with
    | None => (Threw CodecNotInitialized, (c, p))
    | Some data =>
        let h := {| index := i; originalSize := len (chunkAt buf i);
                    compressedSize := byteLength_or_length data |} in
        let c2 := send jsonBytes (Binary (contents data))
                       (send jsonBytes (Text (Chunk h)) c) in
        let p2 := set_benchmark
                    (incr_chunksSent
                       (add_compressedSize (byteLength data) (benchmark p))) p in
        if BUFFER_THRESHOLD <? bufferedAmount c2 then
          match waitForBufferDrain bufferedamountlow c2 BUFFER_THRESHOLD with
          | (Returned, c3) =>
              loop n (i + 1) c3
                   (snd (receive (arrivals c2)
                                 (add_report (BufferFull (bufferedAmount c2)) p2)))
          | (stopped, c3) =>
              (stopped, (c3, add_report (BufferFull (bufferedAmount c2)) p2))
          end
        else loop n (i + 1) c2 p2
    end.
Proof.
  subst loop. cbn [sendChunks]. unfold encodeChunk, compressData.
  destruct useCompression; [destruct (zstdCodec p)|]; reflexivity.
Qed.

(** A run of the loop that starts with at most the threshold buffered
    keeps to the discipline; when it is left pending, its trace ends
    with the suspension. *)
Lemma sendChunks_paced (n : nat) :
  forall (i : Z) (c : RTCDataChannel) (p : Peer),
    bufferedAmount c <= BUFFER_THRESHOLD ->
    exists tr,
      history (fst (snd (loop n i c p))) = history c ++ tr
      /\ paced jsonBytes (bufferedAmount c) tr
      /\ (fst (loop n i c p) = Returned ->
          bufferedAmount (fst (snd (loop n i c p))) <= BUFFER_THRESHOLD)
      /\ (fst (loop n i c p) = Pending ->
          exists pre b, tr = pre ++ [Suspended b]).
Proof.
  induction n as [|n IH]; intros i c p Ha.
  - exists []. cbn. rewrite app_nil_r. split; [reflexivity|].
    split; [apply paced_end|]. split; [intros _; assumption | discriminate].
  - rewrite sendChunks_step.
    destruct (encodeChunk (zstdCodec p) useCompression level (chunkAt buf i))
      as [data|].
    2:{ exists []. cbn. rewrite app_nil_r. split; [reflexivity|].
        split; [apply paced_end|]. split; discriminate. }
    cbv zeta.
    set (h := {| index := i; originalSize := len (chunkAt buf i);
                 compressedSize := byteLength_or_length data |}).
    set (c2 := send jsonBytes (Binary (contents data))
                    (send jsonBytes (Text (Chunk h)) c)).
    assert (Hb : bufferedAmount c2
                 = bufferedAmount c + jsonBytes (Chunk h) + len (contents data))
      by reflexivity.
    assert (Hh : history c2
                 = history c
                   ++ [Sent (Text (Chunk h)) (bufferedAmount c + jsonBytes (Chunk h));
                       Sent (Binary (contents data))
                            (bufferedAmount c + jsonBytes (Chunk h)
                             + len (contents data))]).
    { unfold c2, send. cbn. now rewrite <- app_assoc. }
    destruct (Z.ltb_spec BUFFER_THRESHOLD (bufferedAmount c2)) as [Hover|Hunder].
    + unfold waitForBufferDrain.
      destruct (Z.leb_spec (bufferedAmount c2) BUFFER_THRESHOLD) as [?|_]; [lia|].
      match goal with |- context [bufferedamountlow ?w] =>
        pose proof (low_event w) as Hlow; destruct (bufferedamountlow w) as [b|] end.
      * specialize (Hlow b eq_refl). cbn [bufferedAmountLowThreshold] in Hlow.
        match goal with |- context [loop n (i + 1) ?c3 ?q] =>
          destruct (IH (i + 1) c3 q) as (tr & Ht & Hp & Hr & Hs); [exact Hlow|];
          destruct (loop n (i + 1) c3 q) as [r [c' p']] end.
        cbn [fst snd history bufferedAmount] in Ht, Hp, Hr, Hs |- *.
        eexists. split; [|split; [|split; [exact Hr|]]].
        -- rewrite Ht, Hh, <- !app_assoc. cbn [app]. reflexivity.
        -- rewrite Hb. apply paced_wait; first [assumption | lia].
        -- intros Hpend. destruct (Hs Hpend) as (pre & b0 & ->).
           exists (Sent (Text (Chunk h)) (bufferedAmount c + jsonBytes (Chunk h))
                   :: Sent (Binary (contents data)) (bufferedAmount c2)
                   :: Suspended (bufferedAmount c2) :: Resumed b :: pre), b0.
           reflexivity.
      * cbn [fst snd history]. eexists. split; [|split; [|split; [discriminate|]]].
        -- rewrite Hh, <- !app_assoc. cbn [app]. reflexivity.
        -- rewrite Hb. apply paced_stuck; first [assumption | lia].
        -- intros _.
           exists [Sent (Text (Chunk h)) (bufferedAmount c + jsonBytes (Chunk h));
                   Sent (Binary (contents data)) (bufferedAmount c2)],
                  (bufferedAmount c2).
           reflexivity.
    + match goal with |- context [loop n (i + 1) c2 ?q] =>
        destruct (IH (i + 1) c2 q) as (tr & Ht & Hp & Hr & Hs); [exact Hunder|];
        destruct (loop n (i + 1) c2 q) as [r [c' p']] end.
      cbn [fst snd] in Ht, Hp, Hr, Hs |- *.
      eexists. split; [|split; [|split; [exact Hr|]]].
      -- rewrite Ht, Hh, <- !app_assoc. cbn [app]. reflexivity.
      -- rewrite Hb in Hp, Hunder. apply paced_chunk; first [assumption | lia].
      -- intros Hpend. destruct (Hs Hpend) as (pre & b0 & ->).
         exists (Sent (Text (Chunk h)) (bufferedAmount c + jsonBytes (Chunk h))
                 :: Sent (Binary (contents data)) (bufferedAmount c2) :: pre), b0.
         rewrite Hb. reflexivity.
Qed.

(** The loop started with any amount buffered: the first chunk is sent
    on top of it, and from the check after that chunk on the run keeps
    to the discipline. *)
Lemma sendChunks_governed (n : nat) (i : Z) (c : RTCDataChannel) (p : Peer) :
  exists tr,
    history (fst (snd (loop n i c p))) = history c ++ tr
    /\ governed jsonBytes (bufferedAmount c) tr
    /\ (fst (loop n i c p) = Pending ->
        exists pre b, tr = pre ++ [Suspended b]).
Proof.
  destruct n as [|n].
  - exists []. cbn. rewrite app_nil_r. split; [reflexivity|].
    split; [apply governed_end | discriminate].
  - rewrite sendChunks_step.
    destruct (encodeChunk (zstdCodec p) useCompression level (chunkAt buf i))
      as [data|].
    2:{ exists []. cbn. rewrite app_nil_r. split; [reflexivity|].
        split; [apply governed_end | discriminate]. }
    cbv zeta.
    set (h := {| index := i; originalSize := len (chunkAt buf i);
                 compressedSize := byteLength_or_length data |}).
    set (c2 := send jsonBytes (Binary (contents data))
                    (send jsonBytes (Text (Chunk h)) c)).
    assert (Hb : bufferedAmount c2
                 = bufferedAmount c + jsonBytes (Chunk h) + len (contents data))
      by reflexivity.
    assert (Hh : history c2
                 = history c
                   ++ [Sent (Text (Chunk h)) (bufferedAmount c + jsonBytes (Chunk h));
                       Sent (Binary (contents data))
                            (bufferedAmount c + jsonBytes (Chunk h)
                             + len (contents data))]).
    { unfold c2, send. cbn. now rewrite <- app_assoc. }
    destruct (Z.ltb_spec BUFFER_THRESHOLD (bufferedAmount c2)) as [Hover|Hunder].
    + unfold waitForBufferDrain.
      destruct (Z.leb_spec (bufferedAmount c2) BUFFER_THRESHOLD) as [?|_]; [lia|].
      match goal with |- context [bufferedamountlow ?w] =>
        pose proof (low_event w) as Hlow; destruct (bufferedamountlow w) as [b|] end.
      * specialize (Hlow b eq_refl). cbn [bufferedAmountLowThreshold] in Hlow.
        match goal with |- context [loop n (i + 1) ?c3 ?q] =>
          destruct (sendChunks_paced n (i + 1) c3 q) as (tr & Ht & Hp & _ & Hs);
            [exact Hlow|];
          destruct (loop n (i + 1) c3 q) as [r [c' p']] end.
        cbn [fst snd history bufferedAmount] in Ht, Hp, Hs |- *.
        eexists. split; [|split].
        -- rewrite Ht, Hh, <- !app_assoc. cbn [app]. reflexivity.
        -- rewrite Hb. apply governed_wait; first [assumption | lia].
        -- intros Hpend. destruct (Hs Hpend) as (pre & b0 & ->).
           exists (Sent (Text (Chunk h)) (bufferedAmount c + jsonBytes (Chunk h))
                   :: Sent (Binary (contents data)) (bufferedAmount c2)
                   :: Suspended (bufferedAmount c2) :: Resumed b :: pre), b0.
           reflexivity.
      * cbn [fst snd history]. eexists. split; [|split].
        -- rewrite Hh, <- !app_assoc. cbn [app]. reflexivity.
        -- rewrite Hb. apply governed_stuck; first [assumption | lia].
        -- intros _.
           exists [Sent (Text (Chunk h)) (bufferedAmount c + jsonBytes (Chunk h));
                   Sent (Binary (contents data)) (bufferedAmount c2)],
                  (bufferedAmount c2).
           reflexivity.
    + match goal with |- context [loop n (i + 1) c2 ?q] =>
        destruct (sendChunks_paced n (i + 1) c2 q) as (tr & Ht & Hp & _ & Hs);
          [exact Hunder|];
        destruct (loop n (i + 1) c2 q) as [r [c' p']] end.
      cbn [fst snd] in Ht, Hp, Hs |- *.
      eexists. split; [|split].
      -- rewrite Ht, Hh, <- !app_assoc. cbn [app]. reflexivity.
      -- rewrite Hb in Hp, Hunder. apply governed_chunk; first [assumption | lia].
      -- intros Hpend. destruct (Hs Hpend) as (pre & b0 & ->).
         exists (Sent (Text (Chunk h)) (bufferedAmount c + jsonBytes (Chunk h))
                 :: Sent (Binary (contents data)) (bufferedAmount c2) :: pre), b0.
         rewrite Hb. reflexivity.
Qed.

End Backpressure.

(** What the discipline means for any one chunk of a paced trace: the
    amount buffered after it exceeds the threshold by at most the bytes
    of that chunk (its header frame and its binary frame); if it exceeds
    the threshold at all the sender is suspended at once; and a
    suspension ends with at most the threshold buffered. *)
Lemma paced_chunk_bound (jsonBytes : Message -> Z) (a : Z) (tr : list Event) :
  paced jsonBytes a tr ->
  forall pre h b1 d b2 post,
    tr = pre ++ Sent (Text (Chunk h)) b1 :: Sent (Binary d) b2 :: post ->
    b2 <= BUFFER_THRESHOLD + (jsonBytes (Chunk h) + len d)
    /\ (BUFFER_THRESHOLD < b2 -> exists post', post = Suspended b2 :: post')
    /\ (b2 <= BUFFER_THRESHOLD -> forall b post', post <> Suspended b :: post')
    /\ (forall b post', post = Suspended b2 :: Resumed b :: post' ->
        b <= BUFFER_THRESHOLD).
Proof.
  induction 1 as [a | a h0 d0 rest Ha Hb Hrest IH
                  | a h0 d0 b rest Ha Hb Hb' Hrest IH
                  | a h0 d0 Ha Hb];
    intros pre h b1 d b2 post E.
  - destruct pre; discriminate E.
  - destruct pre as [|e1 [|e2 pre]].
    + injection E as <- _ <- <- <-. repeat split.
      * lia.
      * lia.
      * intros _ b post' ->. inversion Hrest.
      * intros b post' ->. inversion Hrest.
    + discriminate E.
    + injection E as _ _ E. now apply (IH pre h b1 d b2 post).
  - destruct pre as [|e1 [|e2 [|e3 [|e4 pre]]]]; try discriminate E.
    + injection E as <- _ <- <- <-. repeat split.
      * lia.
      * intros _. eauto.
      * lia.
      * intros b0 post' [= <- _]. assumption.
    + injection E as _ _ _ _ E. now apply (IH pre h b1 d b2 post).
  - destruct pre as [|e1 [|e2 [|e3 [|e4 pre]]]]; try discriminate E.
    + injection E as <- _ <- <- <-. repeat split.
      * lia.
      * intros _. eauto.
      * lia.
      * intros b0 post' [=].
Qed.

(** The same for a trace of the loop started with any amount buffered:
    the check comes after every chunk, the first included; the bound by
    the bytes of one chunk holds for every chunk but the first, which is
    sent on top of whatever was buffered. *)
Lemma governed_chunk_bound (jsonBytes : Message -> Z) (a : Z) (tr : list Event) :
  governed jsonBytes a tr ->
  forall pre h b1 d b2 post,
    tr = pre ++ Sent (Text (Chunk h)) b1 :: Sent (Binary d) b2 :: post ->
    (BUFFER_THRESHOLD < b2 -> exists post', post = Suspended b2 :: post')
    /\ (b2 <= BUFFER_THRESHOLD -> forall b post', post <> Suspended b :: post')
    /\ (forall b post', post = Suspended b2 :: Resumed b :: post' ->
        b <= BUFFER_THRESHOLD)
    /\ (pre = [] -> b2 = a + jsonBytes (Chunk h) + len d)
    /\ (pre <> [] -> b2 <= BUFFER_THRESHOLD + (jsonBytes (Chunk h) + len d)).
Proof.
  intros G pre h b1 d b2 post E.
  assert (Hlater :
    forall a' rest pre',
      paced jsonBytes a' rest ->
      rest = pre' ++ Sent (Text (Chunk h)) b1 :: Sent (Binary d) b2 :: post ->
      pre <> [] ->
      (BUFFER_THRESHOLD < b2 -> exists post', post = Suspended b2 :: post')
      /\ (b2 <= BUFFER_THRESHOLD -> forall b post', post <> Suspended b :: post')
      /\ (forall b post', post = Suspended b2 :: Resumed b :: post' ->
          b <= BUFFER_THRESHOLD)
      /\ (pre = [] -> b2 = a + jsonBytes (Chunk h) + len d)
      /\ (pre <> [] -> b2 <= BUFFER_THRESHOLD + (jsonBytes (Chunk h) + len d))).
  { intros a' rest pre' Hp Hrest Hne.
    destruct (paced_chunk_bound jsonBytes a' rest Hp pre' h b1 d b2 post Hrest)
      as (B1 & B2 & B3 & B4).
    repeat split; try assumption;
      [intros ->; now destruct Hne | intros _; exact B1]. }
  destruct G as [a | a h0 d0 rest Hb Hrest
                 | a h0 d0 b rest Hb Hb' Hrest
                 | a h0 d0 Hb].
  - destruct pre; discriminate E.
  - destruct pre as [|e1 [|e2 pre]].
    + injection E as <- _ <- <- <-. repeat split.
      * lia.
      * intros _ b post' ->. inversion Hrest.
      * intros b post' ->. inversion Hrest.
      * intros H. now destruct H.
    + discriminate E.
    + injection E as _ _ E. apply (Hlater _ rest pre Hrest E). discriminate.
  - destruct pre as [|e1 [|e2 [|e3 [|e4 pre]]]]; try discriminate E.
    + injection E as <- _ <- <- <-. repeat split.
      * intros _. eauto.
      * lia.
      * intros b0 post' [= <- _]. assumption.
      * intros H. now destruct H.
    + injection E as _ _ _ _ E. apply (Hlater _ rest pre Hrest E). discriminate.
  - destruct pre as [|e1 [|e2 [|e3 [|e4 pre]]]]; try discriminate E.
    + injection E as <- _ <- <- <-. repeat split.
      * intros _. eauto.
      * lia.
      * intros b0 post' [=].
      * intros H. now destruct H.
Qed.

Example paced_run :
  history (fst (snd (sendChunks Demo.jsonBytes Demo.bufferedamountlow Demo.quiet false (Num 3)
                                (f_bytes Demo.hello) 1 0 Demo.busy Demo.page)))
  = [Sent (Text (Chunk {| index := 0; originalSize := 5; compressedSize := Some 5 |}))
          1048634;
     Sent (Binary [x68; x65; x6c; x6c; x6f]) 1048639;
     Suspended 1048639;
     Resumed 1048576].
Proof. vm_compute. reflexivity. Qed.


(** * Further properties of the transfer code *)

(** ** How a send can end *)

Lemma waitForBufferDrain_outcome
      (bufferedamountlow : RTCDataChannel -> option Z)
      (c c' : RTCDataChannel) (t : Z) (r : Completion) :
  waitForBufferDrain bufferedamountlow c t = (r, c') ->
  (r = Returned \/ r = Pending) /\ readyState c' = readyState c.
Proof.
  unfold waitForBufferDrain.
  destruct (bufferedAmount c <=? t); [intros [= <- <-]; auto|].
  destruct (bufferedamountlow _); intros [= <- <-]; auto.
Qed.

(** A drain wait that ends, ends with at most the threshold buffered,
    when the event comes only at or below the low threshold. *)
Lemma waitForBufferDrain_low
      (bufferedamountlow : RTCDataChannel -> option Z)
      (c c' : RTCDataChannel) (t : Z) :
  (forall w b, bufferedamountlow w = Some b -> b <= bufferedAmountLowThreshold w) ->
  waitForBufferDrain bufferedamountlow c t = (Returned, c') ->
  bufferedAmount c' <= t.
Proof.
  intros Hlow. unfold waitForBufferDrain.
  destruct (Z.leb_spec (bufferedAmount c) t) as [Hle|Hgt].
  - now intros [= <-].
  - match goal with |- context [bufferedamountlow ?w] =>
      pose proof (Hlow w) as Hw; destruct (bufferedamountlow w) as [b|] end;
      [|discriminate].
    intros [= <-]. cbn. exact (Hw b eq_refl).
Qed.

Lemma sumZ_app (l1 l2 : list Z) : sumZ (l1 ++ l2) = sumZ l1 + sumZ l2.
Proof.
  unfold sumZ. induction l1 as [|x l1 IH]; cbn; [reflexivity | rewrite IH; lia].
Qed.

Lemma wireBytes_app (fs gs : list Frame) :
  wireBytes (fs ++ gs) = wireBytes fs + wireBytes gs.
Proof. unfold wireBytes. now rewrite binaries_app, map_app, sumZ_app. Qed.

Lemma chunkPairs_cons (codec : option ZstdStreaming) (useCompression : bool)
      (level : Number) (buf : bytes) (i : Z) (ixs : list Z) (data : BufferSource) :
  encodeChunk codec useCompression level (chunkAt buf i) = Some data ->
  chunkPairs codec useCompression level buf (i :: ixs)
  = ({| index := i; originalSize := len (chunkAt buf i);
        compressedSize := byteLength_or_length data |}, contents data)
    :: chunkPairs codec useCompression level buf ixs.
Proof. intros H. unfold chunkPairs. cbn [flat_map]. now rewrite H. Qed.

Lemma chunkFrames_pairs (codec : option ZstdStreaming) (useCompression : bool)
      (level : Number) (buf : bytes) (ixs : list Z) :
  flat_map (chunkFrames codec useCompression level buf) ixs
  = flat_map pairFrames (chunkPairs codec useCompression level buf ixs).
Proof.
  induction ixs as [|i ixs IH]; [reflexivity|].
  unfold chunkPairs in *. cbn [flat_map]. rewrite flat_map_app, <- IH.
  unfold chunkFrames at 1.
  destruct (encodeChunk codec useCompression level (chunkAt buf i)); reflexivity.
Qed.

Section SendOutcome.

Variable jsonBytes : Message -> Z.
Variable fileRead : RTCDataChannel -> Z.
Variable bufferedamountlow : RTCDataChannel -> option Z.
Variable arrivals : RTCDataChannel -> list Frame.

Section LoopOutcome.

Variable useCompression : bool.
Variable level : Number.
Variable buf : bytes.

Let loop := sendChunks jsonBytes bufferedamountlow arrivals useCompression level buf.
Let pairs (p : Peer) (k : nat) (i : Z) :=
  chunkPairs (zstdCodec p) useCompression level buf (indices k i).

(** Everything a run of the loop does to the channel and to the page,
    however it ends; and what it does to the counters and to the rest
    of the page when no frame arrives while it waits. *)
Lemma sendChunks_outcome (n : nat) :
  forall (i : Z) (c : RTCDataChannel) (p : Peer) (r : Completion)
         (c' : RTCDataChannel) (p' : Peer),
    loop n i c p = (r, (c', p')) ->
    exists k,
      (k <= n)%nat
      /\ length (pairs p k i) = k
      /\ frames (history c') = frames (history c) ++ flat_map pairFrames (pairs p k i)
      /\ (r = Returned -> k = n)
      /\ (r = Returned \/ r = Pending
          \/ (r = Threw CodecNotInitialized
              /\ useCompression = true /\ zstdCodec p = None))
      /\ readyState c' = readyState c
      /\ zstdCodec p' = zstdCodec p
      /\ dataChannel p' = dataChannel p
      /\ ((forall w, arrivals w = []) ->
          untouched_by_send p p'
          /\ bm_originalSize (benchmark p') = bm_originalSize (benchmark p)
          /\ chunksReceived (benchmark p') = chunksReceived (benchmark p)
          /\ chunksSent (benchmark p') = chunksSent (benchmark p) + Z.of_nat k
          /\ bm_compressedSize (benchmark p')
             = bm_compressedSize (benchmark p)
               + sumZ (map (fun pair => len (snd pair)) (pairs p k i))).
Proof.
  induction n as [|n IH]; intros i c p r c' p' E.
  - exists 0%nat. cbn in E. injection E as <- <- <-.
    unfold pairs, untouched_by_send. cbn. rewrite app_nil_r.
    repeat split; auto; lia.
  - subst loop. rewrite sendChunks_step in E.
    destruct (encodeChunk (zstdCodec p) useCompression level (chunkAt buf i))
      as [data|] eqn:Hd.
    2:{ injection E as <- <- <-. exists 0%nat.
        assert (Hnone : useCompression = true /\ zstdCodec p = None).
        { unfold encodeChunk in Hd. destruct useCompression; [|discriminate].
          destruct (zstdCodec p); [discriminate | auto]. }
        unfold pairs, untouched_by_send. cbn. rewrite app_nil_r.
        repeat split; auto; try lia; try discriminate;
          try (right; right; tauto). }
    cbv zeta in E.
    set (h := {| index := i; originalSize := len (chunkAt buf i);
                 compressedSize := byteLength_or_length data |}) in *.
    set (c2 := send jsonBytes (Binary (contents data))
                    (send jsonBytes (Text (Chunk h)) c)) in *.
    set (p2 := set_benchmark
                 (incr_chunksSent
                    (add_compressedSize (byteLength data) (benchmark p))) p) in *.
    assert (Hf2 : frames (history c2)
                  = frames (history c) ++ pairFrames (h, contents data)).
    { unfold c2. rewrite !frames_send, <- app_assoc. reflexivity. }
    assert (Hpairs : forall k,
              pairs p (S k) i = (h, contents data) :: pairs p k (i + 1)).
    { intros k. unfold pairs. cbn [indices]. now apply chunkPairs_cons. }
    assert (Hstop :
      forall c3 q,
        frames (history c3) = frames (history c2) ->
        readyState c3 = readyState c2 ->
        zstdCodec q = zstdCodec p -> dataChannel q = dataChannel p ->
        ((forall w, arrivals w = []) ->
         untouched_by_send p q /\ benchmark q = benchmark p2) ->
        (r, (c', p')) = (Pending, (c3, q)) ->
        exists k,
          (k <= S n)%nat
          /\ length (pairs p k i) = k
          /\ frames (history c') = frames (history c) ++ flat_map pairFrames (pairs p k i)
          /\ (r = Returned -> k = S n)
          /\ (r = Returned \/ r = Pending
              \/ (r = Threw CodecNotInitialized
                  /\ useCompression = true /\ zstdCodec p = None))
          /\ readyState c' = readyState c
          /\ zstdCodec p' = zstdCodec p
          /\ dataChannel p' = dataChannel p
          /\ ((forall w, arrivals w = []) ->
              untouched_by_send p p'
              /\ bm_originalSize (benchmark p') = bm_originalSize (benchmark p)
              /\ chunksReceived (benchmark p') = chunksReceived (benchmark p)
              /\ chunksSent (benchmark p') = chunksSent (benchmark p) + Z.of_nat k
              /\ bm_compressedSize (benchmark p')
                 = bm_compressedSize (benchmark p)
                   + sumZ (map (fun pair => len (snd pair)) (pairs p k i)))).
    { intros c3 q Hf Hr Hz Hdc Hq [= -> -> ->]. exists 1%nat.
      rewrite (Hpairs 0%nat). unfold pairs. cbn [indices chunkPairs flat_map map].
      rewrite Hf, Hf2, Hr, app_nil_r.
      split; [lia|]. split; [reflexivity|]. split; [reflexivity|].
      split; [discriminate|]. split; [auto|]. split; [reflexivity|].
      split; [exact Hz|]. split; [exact Hdc|].
      intros Hquiet. destruct (Hq Hquiet) as [Hu Hb]. rewrite Hb.
      unfold p2. cbn. split; [exact Hu|].
      repeat split; try lia. unfold byteLength. lia. }
    assert (Hnext :
      forall c3 q,
        frames (history c3) = frames (history c2) ->
        readyState c3 = readyState c2 ->
        zstdCodec q = zstdCodec p -> dataChannel q = dataChannel p ->
        ((forall w, arrivals w = []) ->
         untouched_by_send p q /\ benchmark q = benchmark p2) ->
        sendChunks jsonBytes bufferedamountlow arrivals useCompression level buf
                   n (i + 1) c3 q
        = (r, (c', p')) ->
        exists k,
          (k <= S n)%nat
          /\ length (pairs p k i) = k
          /\ frames (history c') = frames (history c) ++ flat_map pairFrames (pairs p k i)
          /\ (r = Returned -> k = S n)
          /\ (r = Returned \/ r = Pending
              \/ (r = Threw CodecNotInitialized
                  /\ useCompression = true /\ zstdCodec p = None))
          /\ readyState c' = readyState c
          /\ zstdCodec p' = zstdCodec p
          /\ dataChannel p' = dataChannel p
          /\ ((forall w, arrivals w = []) ->
              untouched_by_send p p'
              /\ bm_originalSize (benchmark p') = bm_originalSize (benchmark p)
              /\ chunksReceived (benchmark p') = chunksReceived (benchmark p)
              /\ chunksSent (benchmark p') = chunksSent (benchmark p) + Z.of_nat k
              /\ bm_compressedSize (benchmark p')
                 = bm_compressedSize (benchmark p)
                   + sumZ (map (fun pair => len (snd pair)) (pairs p k i)))).
    { intros c3 q Hf Hr Hz Hdc Hq E3.
      destruct (IH _ _ _ _ _ _ E3)
        as (k & Hk & Hlen & F & Hret & Hcls & Hrs & Zc & Hch & Hrest).
      assert (Hqp : pairs q k (i + 1) = pairs p k (i + 1))
        by (unfold pairs; now rewrite Hz).
      exists (S k). rewrite (Hpairs k), <- Hqp.
      cbn [flat_map map sumZ fold_right snd length]. fold sumZ. rewrite Hlen.
      rewrite F, Hf, Hf2, Hrs, Hr, <- app_assoc, Zc, Hz, Hch, Hdc.
      split; [lia|]. split; [reflexivity|]. split; [reflexivity|].
      split; [intros H; f_equal; auto|].
      split.
      { destruct Hcls as [?|[?|(? & ? & Hnone)]]; auto.
        right. right. rewrite Hz in Hnone. auto. }
      split; [reflexivity|]. split; [reflexivity|]. split; [reflexivity|].
      intros Hquiet. destruct (Hq Hquiet) as [Hu Hb].
      destruct (Hrest Hquiet) as (Hun & B1 & B2 & B3 & B4).
      destruct Hu as (U1 & U2 & U3 & U4 & U5), Hun as (V1 & V2 & V3 & V4 & V5).
      unfold untouched_by_send.
      rewrite V1, V2, V3, V4, V5, U1, U2, U3, U4, U5, B1, B2, B3, B4, Hb.
      unfold p2. cbn.
      repeat split; try lia. unfold byteLength, sumZ. lia. }
    assert (Hu2 : untouched_by_send p p2) by (unfold untouched_by_send; cbn; tauto).
    destruct (BUFFER_THRESHOLD <? bufferedAmount c2).
    + destruct (waitForBufferDrain bufferedamountlow c2 BUFFER_THRESHOLD)
        as [w c3] eqn:Hw.
      pose proof (frames_waitForBufferDrain _ _ _ _ _ Hw) as Hf.
      destruct (waitForBufferDrain_outcome _ _ _ _ _ Hw) as [[-> | ->] Hr].
      * refine (Hnext c3 _ Hf Hr _ _ _ E).
        -- now rewrite receive_zstdCodec.
        -- now rewrite receive_dataChannel.
        -- intros Hquiet. rewrite Hquiet. cbn [receive snd].
           split; [|reflexivity]. unfold untouched_by_send. cbn. tauto.
      * refine (Hstop c3 _ Hf Hr _ _ _ (eq_sym E)); try reflexivity.
        intros _. split; [|reflexivity]. unfold untouched_by_send. cbn. tauto.
    + apply (Hnext c2 p2); auto.
Qed.

End LoopOutcome.

(** Everything a send that got past its guard does, however it ends:
    the Metadata frame, the pairs of the first [k] chunks, the Completion
    frame if and only if it returned, the channel's state and the codec
    left alone; and when no frame arrives during the send, the counters
    of [benchmark] set anew and the incoming transfer left alone. *)
Lemma sendFile_outcome (file : File) (useCompression : bool) (level : Number)
      (p : Peer) (c : RTCDataChannel) (r : Completion) (p' : Peer) :
  dataChannel p = Some c ->
  readyState c = open ->
  sendFile jsonBytes fileRead bufferedamountlow arrivals (Some file) useCompression level p
  = (r, p') ->
  exists k c',
    dataChannel p' = Some c'
    /\ readyState c' = open
    /\ (k <= Z.to_nat (Math_ceil_div (f_size file) CHUNK_SIZE))%nat
    /\ length (chunkPairs (zstdCodec p) useCompression level (f_bytes file)
                          (indices k 0)) = k
    /\ sentFrames p'
       = sentFrames p
         ++ Text (Metadata (fileMetadata file useCompression level))
         :: flat_map pairFrames
                     (chunkPairs (zstdCodec p) useCompression level (f_bytes file)
                                 (indices k 0))
         ++ closing_frames r
    /\ (r = Returned -> k = Z.to_nat (Math_ceil_div (f_size file) CHUNK_SIZE))
    /\ (r = Returned \/ r = Pending
        \/ (r = Threw CodecNotInitialized
            /\ useCompression = true /\ zstdCodec p = None))
    /\ zstdCodec p' = zstdCodec p
    /\ ((forall w, arrivals w = []) ->
        untouched_by_send p p'
        /\ benchmark p'
           = {| bm_originalSize := f_size file;
                bm_compressedSize :=
                  sumZ (map (fun pair => len (snd pair))
                            (chunkPairs (zstdCodec p) useCompression level
                                        (f_bytes file) (indices k 0)));
                chunksSent := Z.of_nat k;
                chunksReceived := 0 |}).
Proof.
  intros Hc Hopen E. unfold sendFile in E. rewrite Hc, Hopen in E.
  cbn [is_open negb] in E.
  match type of E with context [sendChunks _ _ _ _ _ ?b ?n 0 ?c2 ?p0] =>
    destruct (sendChunks jsonBytes bufferedamountlow arrivals useCompression level
                         b n 0 c2 p0)
      as [r0 [c3 p1]] eqn:L end.
  apply sendChunks_outcome in L.
  destruct L as (k & Hk & Hlen & F & Hret & Hcls & Hrs & Zc & Hdc & Hrest).
  rewrite receive_zstdCodec in *. rewrite receive_dataChannel in Hdc.
  cbn [zstdCodec set_benchmark history send readyState dataChannel] in *.
  rewrite frames_app in F. cbn [frames flat_map app] in F.
  assert (Hsent : sentFrames p = frames (history c))
    by (unfold sentFrames; now rewrite Hc).
  assert (Hquiet :
    (forall w, arrivals w = []) ->
    untouched_by_send p p1
    /\ benchmark p1
       = {| bm_originalSize := f_size file;
            bm_compressedSize :=
              sumZ (map (fun pair => len (snd pair))
                        (chunkPairs (zstdCodec p) useCompression level
                                    (f_bytes file) (indices k 0)));
            chunksSent := Z.of_nat k;
            chunksReceived := 0 |}).
  { intros Hq. destruct (Hrest Hq) as (Hun & B1 & B2 & B3 & B4).
    rewrite Hq in Hun, B1, B2, B3, B4. cbn [receive snd] in Hun, B1, B2, B3, B4.
    split; [exact Hun|].
    cbn [benchmark set_benchmark bm_originalSize bm_compressedSize chunksSent
         chunksReceived] in B1, B2, B3, B4.
    destruct (benchmark p1). cbn in B1, B2, B3, B4. subst. f_equal; lia. }
  assert (Hu : forall q, untouched_by_send p p1 ->
                         untouched_by_send p (set_dataChannel q p1))
    by (intros q H; exact H).
  destruct r0.
  - injection E as <- <-. exists k. eexists.
    cbn [dataChannel set_dataChannel benchmark zstdCodec].
    split; [reflexivity|].
    split; [cbn [readyState send]; congruence|].
    split; [exact Hk|]. split; [exact Hlen|]. split.
    { unfold sentFrames at 1. cbn [dataChannel set_dataChannel].
      rewrite frames_send, F, Hsent. unfold fileMetadata, closing_frames.
      rewrite <- !app_assoc. reflexivity. }
    split; [exact Hret|]. split; [exact Hcls|]. split; [exact Zc|].
    intros Hq. destruct (Hquiet Hq). split; [apply Hu|]; assumption.
  - injection E as <- <-. exists k. eexists.
    cbn [dataChannel set_dataChannel benchmark zstdCodec].
    split; [reflexivity|].
    split; [congruence|]. split; [exact Hk|]. split; [exact Hlen|]. split.
    { unfold sentFrames at 1. cbn [dataChannel set_dataChannel].
      rewrite F, Hsent. unfold fileMetadata, closing_frames.
      rewrite app_nil_r, <- !app_assoc. reflexivity. }
    split; [exact Hret|]. split; [exact Hcls|]. split; [exact Zc|].
    intros Hq. destruct (Hquiet Hq). split; [apply Hu|]; assumption.
  - injection E as <- <-. exists k. eexists.
    cbn [dataChannel set_dataChannel benchmark zstdCodec].
    split; [reflexivity|].
    split; [congruence|]. split; [exact Hk|]. split; [exact Hlen|]. split.
    { unfold sentFrames at 1. cbn [dataChannel set_dataChannel].
      rewrite F, Hsent. unfold fileMetadata, closing_frames.
      rewrite app_nil_r, <- !app_assoc. reflexivity. }
    split; [exact Hret|]. split; [exact Hcls|]. split; [exact Zc|].
    intros Hq. destruct (Hquiet Hq). split; [apply Hu|]; assumption.
Qed.

End SendOutcome.

(** ** Pairs of frames *)

Lemma headers_pairFrames (prs : list (ChunkHeader * bytes)) :
  headers (flat_map pairFrames prs) = map fst prs.
Proof.
  induction prs as [|pr prs IH]; [reflexivity|].
  cbn [flat_map map]. rewrite headers_app, IH. reflexivity.
Qed.

Lemma binaries_pairFrames (prs : list (ChunkHeader * bytes)) :
  binaries (flat_map pairFrames prs) = map snd prs.
Proof.
  induction prs as [|pr prs IH]; [reflexivity|].
  cbn [flat_map map]. rewrite binaries_app, IH. reflexivity.
Qed.

Lemma metadatas_pairFrames (prs : list (ChunkHeader * bytes)) :
  metadatas (flat_map pairFrames prs) = [].
Proof.
  induction prs as [|pr prs IH]; [reflexivity|]. cbn [flat_map].
  unfold metadatas in *. rewrite flat_map_app, IH. reflexivity.
Qed.

Lemma pairFrames_no_Complete (prs : list (ChunkHeader * bytes)) :
  ~ In (Text Complete) (flat_map pairFrames prs).
Proof.
  induction prs as [|pr prs IH]; [intros []|]. cbn [flat_map].
  intros H. apply in_app_or in H. destruct H as [H|H]; [|now apply IH].
  cbn in H. destruct H as [H|[H|[]]]; discriminate H.
Qed.

Lemma wireBytes_pairFrames (prs : list (ChunkHeader * bytes)) :
  wireBytes (flat_map pairFrames prs) = sumZ (map (fun pair => len (snd pair)) prs).
Proof. unfold wireBytes. now rewrite binaries_pairFrames, map_map. Qed.

Lemma app_cons_neq {A} (l r : list A) (x : A) : l ++ x :: r <> l.
Proof.
  intros H. apply (f_equal (@length A)) in H. rewrite length_app in H.
  cbn in H. lia.
Qed.

(** What the loop writes for the indices of a payload: each header
    carries its index and the length of its slice, which is at least 1
    and at most [CHUNK_SIZE]; without compression the payload of the pair
    is the slice and the two sizes of the header agree. *)
Lemma chunkPairs_spec (codec : option ZstdStreaming) (useCompression : bool)
      (level : Number) (buf : bytes) (ixs : list Z) :
  Forall (fun i => 0 <= i < Math_ceil_div (len buf) CHUNK_SIZE) ixs ->
  Forall (fun pair =>
            originalSize (fst pair) = len (chunkAt buf (index (fst pair)))
            /\ 1 <= originalSize (fst pair) <= CHUNK_SIZE
            /\ In (index (fst pair)) ixs
            /\ (useCompression = false -> snd pair = chunkAt buf (index (fst pair))))
         (chunkPairs codec useCompression level buf ixs).
Proof.
  induction 1 as [|i ixs Hi _ IH]; [constructor|].
  unfold chunkPairs in *. cbn [flat_map]. apply Forall_app. split.
  - destruct (encodeChunk codec useCompression level (chunkAt buf i)) as [data|] eqn:E;
      [|constructor].
    constructor; [|constructor]. cbn [fst snd index originalSize].
    pose proof (chunkAt_nonempty buf i Hi) as Hpos.
    pose proof CHUNK_SIZE_pos.
    rewrite len_chunkAt in * by lia.
    repeat split; try lia; [now left|].
    intros ->. cbn in E. now injection E as <-.
  - eapply Forall_impl; [|exact IH]. cbn beta. intros pr (H1 & H2 & H3 & H4).
    repeat split; try tauto; try lia. now right.
Qed.

Lemma indices_upto (buf : bytes) (k : nat) :
  (k <= Z.to_nat (Math_ceil_div (len buf) CHUNK_SIZE))%nat ->
  Forall (fun i => 0 <= i < Math_ceil_div (len buf) CHUNK_SIZE) (indices k 0).
Proof.
  intros Hk. apply Forall_forall. intros i Hi. apply indices_bounds in Hi. lia.
Qed.

Lemma sumZ_len_concat (l : list bytes) : sumZ (map len l) = len (concat l).
Proof.
  induction l as [|x l IH]; [reflexivity|].
  cbn [map concat]. rewrite len_app, <- IH. reflexivity.
Qed.

(** ** The guard of [sendFile] *)

Lemma ready_to_send_dec (file : option File) (p : Peer) :
  ready_to_send file p
  \/ (file = None
      \/ dataChannel p = None
      \/ exists c, dataChannel p = Some c /\ is_open (readyState c) = false).
Proof.
  unfold ready_to_send. destruct file as [f|]; [|right; now left].
  destruct (dataChannel p) as [c|]; [|right; right; now left].
  destruct (readyState c) eqn:E;
    try (right; right; right; exists c; rewrite E; split; reflexivity).
  left. split; [discriminate|]. exists c. auto.
Qed.

(** X1.  [sendFile] writes to the channel exactly when a file is selected
    and the channel exists and is open.  Otherwise it returns at once
    with one error line logged ('No file selected' when no file is
    selected, else 'Data channel not ready'), and leaves the channel, the
    counters of [benchmark] and the incoming transfer as they were. *)
Theorem sendFile_sends_iff_ready
        (jsonBytes : Message -> Z) (fileRead : RTCDataChannel -> Z)
        (bufferedamountlow : RTCDataChannel -> option Z)
        (arrivals : RTCDataChannel -> list Frame)
        (file : option File) (useCompression : bool) (level : Number)
        (p : Peer) :
  let result :=
    sendFile jsonBytes fileRead bufferedamountlow arrivals file useCompression level p in
  (ready_to_send file p <-> sentFrames (snd result) <> sentFrames p)
  /\ (~ ready_to_send file p ->
      result
      = (Returned,
         add_report (match file with
                     | None => NoFileSelected
                     | Some _ => DataChannelNotReady
                     end) p)).
Proof.
  cbv zeta.
  destruct (ready_to_send_dec file p) as [Hr|Hn].
  - split; [|tauto]. split; [intros _|auto].
    destruct Hr as (Hf & c & Hc & Hopen).
    destruct file as [f|]; [|congruence].
    destruct (sendFile jsonBytes fileRead bufferedamountlow arrivals (Some f)
                       useCompression level p) as [r p'] eqn:E.
    destruct (sendFile_outcome jsonBytes fileRead bufferedamountlow arrivals f
                useCompression level p c r p' Hc Hopen E)
      as (k & c' & _ & _ & _ & _ & F & _).
    cbn [snd]. rewrite F. apply app_cons_neq.
  - assert (Hnot : ~ ready_to_send file p).
    { intros (Hf & c & Hc & Hopen).
      destruct Hn as [->|[Hd|(c0 & Hd & Hclosed)]]; try congruence.
      rewrite Hc in Hd. injection Hd as <-. rewrite Hopen in Hclosed. discriminate. }
    assert (E : sendFile jsonBytes fileRead bufferedamountlow arrivals file useCompression
                         level p
                = (Returned,
                   add_report (match file with
                               | None => NoFileSelected
                               | Some _ => DataChannelNotReady
                               end) p)).
    { unfold sendFile. destruct file as [f|]; [|reflexivity].
      destruct Hn as [Hf|[Hd|(c0 & Hd & Hclosed)]]; [discriminate | |].
      - now rewrite Hd.
      - rewrite Hd, Hclosed. reflexivity. }
    split; [|intros _; exact E].
    split; [contradiction|]. rewrite E. intros H. exfalso. apply H.
    unfold sentFrames. cbn. reflexivity.
Qed.

(** ** The Completion frame *)

(** X2.  A send that got past its guard writes the Metadata frame first,
    whatever happens next, and writes the Completion frame if and only
    if it returns; the Completion frame is then the last frame, and the
    frames between the two are exactly totalChunks chunk headers and
    totalChunks binary frames.  A send that ends otherwise (the codec is
    missing, or a drain wait never ends) has written at most that many
    and no Completion frame. *)
Theorem completion_sent_iff_returned
        (jsonBytes : Message -> Z) (fileRead : RTCDataChannel -> Z)
        (bufferedamountlow : RTCDataChannel -> option Z)
        (arrivals : RTCDataChannel -> list Frame)
        (file : File) (useCompression : bool) (level : Number)
        (p : Peer) (c : RTCDataChannel) :
  dataChannel p = Some c ->
  readyState c = open ->
  let result :=
    sendFile jsonBytes fileRead bufferedamountlow arrivals (Some file) useCompression
             level p in
  let n := Z.to_nat (Math_ceil_div (len (f_bytes file)) CHUNK_SIZE) in
  exists rest,
    sentFrames (snd result)
    = sentFrames p
      ++ Text (Metadata {| meta_name := f_name file;
                           meta_size := len (f_bytes file);
                           meta_mimeType := f_type file;
                           meta_compressed := useCompression;
                           meta_compressionLevel := level;
                           meta_totalChunks :=
                             Math_ceil_div (len (f_bytes file)) CHUNK_SIZE |})
      :: rest
    /\ (In (Text Complete) rest <-> fst result = Returned)
    /\ (forall pre post, rest = pre ++ Text Complete :: post -> post = [])
    /\ metadatas rest = []
    /\ length (headers rest) = length (binaries rest)
    /\ (length (binaries rest) <= n)%nat
    /\ (fst result = Returned -> length (binaries rest) = n).
Proof.
  intros Hc Hopen. cbv zeta.
  destruct (sendFile jsonBytes fileRead bufferedamountlow arrivals (Some file)
                     useCompression level p) as [r p'] eqn:E.
  destruct (sendFile_outcome jsonBytes fileRead bufferedamountlow arrivals file
              useCompression level p c r p' Hc Hopen E)
    as (k & c' & _ & _ & Hk & Hlen & F & Hret & _).
  cbn [fst snd]. eexists. split; [exact F|].
  set (prs := chunkPairs (zstdCodec p) useCompression level (f_bytes file)
                         (indices k 0)) in *.
  assert (Hclose : headers (closing_frames r) = []
                   /\ binaries (closing_frames r) = []
                   /\ metadatas (closing_frames r) = [])
    by (destruct r; repeat split).
  destruct Hclose as (H1 & H2 & H3).
  rewrite headers_app, binaries_app, H1, H2, !app_nil_r.
  rewrite headers_pairFrames, binaries_pairFrames, !length_map, Hlen.
  repeat split.
  - intros Hin. apply in_app_or in Hin. destruct Hin as [Hin|Hin].
    + now apply pairFrames_no_Complete in Hin.
    + destruct r; [reflexivity | destruct Hin | destruct Hin].
  - intros ->. apply in_or_app. right. now left.
  - intros pre post Hsplit.
    destruct r; cbn [closing_frames] in Hsplit.
    + assert (Hpost : forall l, pre ++ Text Complete :: post = l ++ [Text Complete] ->
                                ~ In (Text Complete) l -> post = []).
      { clear. revert pre. intros pre l. revert pre.
        induction l as [|x l IH]; intros pre Heq Hno.
        - destruct pre as [|y pre]; [now injection Heq|].
          destruct pre; discriminate Heq.
        - destruct pre as [|y pre].
          + injection Heq as <- _. exfalso. apply Hno. now left.
          + injection Heq as _ Heq. apply (IH pre Heq).
            intros H. apply Hno. now right. }
      apply (Hpost (flat_map pairFrames prs)); [now symmetry|].
      apply pairFrames_no_Complete.
    + exfalso. rewrite app_nil_r in Hsplit.
      apply (pairFrames_no_Complete prs). rewrite Hsplit.
      apply in_or_app. right. now left.
    + exfalso. rewrite app_nil_r in Hsplit.
      apply (pairFrames_no_Complete prs). rewrite Hsplit.
      apply in_or_app. right. now left.
  - unfold metadatas. rewrite flat_map_app.
    fold (metadatas (flat_map pairFrames prs)) (metadatas (closing_frames r)).
    now rewrite metadatas_pairFrames, H3.
  - exact Hk.
  - exact Hret.
Qed.

Lemma completion_sent_iff_returned_witness :
  let result :=
    sendFile Demo.jsonBytes Demo.fileRead Cases.never Demo.quiet (Some Demo.hello) false
             (Num 3) (set_dataChannel (Some Demo.busy) Demo.page) in
  let n := Z.to_nat (Math_ceil_div (len (f_bytes Demo.hello)) CHUNK_SIZE) in
  exists rest,
    sentFrames (snd result)
    = sentFrames (set_dataChannel (Some Demo.busy) Demo.page)
      ++ Text (Metadata {| meta_name := f_name Demo.hello;
                           meta_size := len (f_bytes Demo.hello);
                           meta_mimeType := f_type Demo.hello;
                           meta_compressed := false;
                           meta_compressionLevel := Num 3;
                           meta_totalChunks :=
                             Math_ceil_div (len (f_bytes Demo.hello)) CHUNK_SIZE |})
      :: rest
    /\ (In (Text Complete) rest <-> fst result = Returned)
    /\ (forall pre post, rest = pre ++ Text Complete :: post -> post = [])
    /\ metadatas rest = []
    /\ length (headers rest) = length (binaries rest)
    /\ (length (binaries rest) <= n)%nat
    /\ (fst result = Returned -> length (binaries rest) = n).
Proof.
  apply (completion_sent_iff_returned Demo.jsonBytes Demo.fileRead Cases.never Demo.quiet
           Demo.hello false (Num 3) (set_dataChannel (Some Demo.busy) Demo.page)
           Demo.busy).
  - reflexivity.
  - reflexivity.
Defined.

Example send_left_pending :
  let result :=
    sendFile Demo.jsonBytes Demo.fileRead Cases.never Demo.quiet (Some Demo.hello) false
             (Num 3) (set_dataChannel (Some Demo.busy) Demo.page) in
  fst result = Pending
  /\ sentFrames (snd result)
     = [Text (Metadata {| meta_name := "hello.txt"; meta_size := 5;
                          meta_mimeType := "text/plain"; meta_compressed := false;
                          meta_compressionLevel := Num 3; meta_totalChunks := 1 |});
        Text (Chunk {| index := 0; originalSize := 5; compressedSize := Some 5 |});
        Binary [x68; x65; x6c; x6c; x6f]].
Proof. vm_compute. split; reflexivity. Qed.

(** ** Compression asked for on a page without codec *)

Lemma chunkPairs_no_codec (level : Number) (buf : bytes) (ixs : list Z) :
  chunkPairs None true level buf ixs = [].
Proof. induction ixs as [|i ixs IH]; [reflexivity | exact IH]. Qed.

(** X3.  When compression is on and the codec of the page was never
    initialised, a send of a non-empty file on an open channel writes
    the Metadata frame and then throws 'Zstd codec not initialized' at
    the first chunk: no chunk and no Completion frame follow.  A receiver
    handed what was written is left awaiting the first chunk of a
    transfer that never completes, with nothing delivered. *)
Theorem send_without_codec
        (jsonBytes : Message -> Z) (fileRead : RTCDataChannel -> Z)
        (bufferedamountlow : RTCDataChannel -> option Z)
        (arrivals : RTCDataChannel -> list Frame)
        (file : File) (level : Number) (p : Peer) (c : RTCDataChannel) :
  dataChannel p = Some c ->
  readyState c = open ->
  zstdCodec p = None ->
  f_bytes file <> [] ->
  let result :=
    sendFile jsonBytes fileRead bufferedamountlow arrivals (Some file) true level p in
  exists m,
    fst result = Threw CodecNotInitialized
    /\ sentFrames (snd result) = sentFrames p ++ [Text (Metadata m)]
    /\ meta_compressed m = true
    /\ 1 <= meta_totalChunks m
    /\ forall receiver,
         receiverState (snd (receive [Text (Metadata m)] receiver)) = AwaitingChunk
         /\ fileList (snd (receive [Text (Metadata m)] receiver)) = fileList receiver.
Proof.
  intros Hc Hopen Hz Hne. cbv zeta.
  assert (Hn : 1 <= Math_ceil_div (f_size file) CHUNK_SIZE).
  { pose proof (Math_ceil_div_bounds (f_size file) _ CHUNK_SIZE_pos) as B.
    pose proof CHUNK_SIZE_pos.
    assert (0 < f_size file).
    { unfold f_size. pose proof (len_nonneg (f_bytes file)).
      destruct (Z.eq_dec (len (f_bytes file)) 0) as [E|E]; [|lia].
      now apply len_nil_inv in E. }
    nia. }
  destruct (sendFile jsonBytes fileRead bufferedamountlow arrivals (Some file) true level p)
    as [r p'] eqn:E.
  destruct (sendFile_outcome jsonBytes fileRead bufferedamountlow arrivals file true level
              p c r p' Hc Hopen E)
    as (k & c' & _ & _ & Hk & Hlen & F & Hret & Hcls & _).
  assert (Hk0 : k = 0%nat).
  { rewrite <- Hlen, Hz, chunkPairs_no_codec. reflexivity. }
  assert (Hr : r = Threw CodecNotInitialized).
  { destruct Hcls as [->|[->|(-> & _)]]; [|exfalso|reflexivity].
    - specialize (Hret eq_refl). lia.
    - (* a drain wait only follows a chunk that was sent *)
      clear F Hret. unfold sendFile in E. rewrite Hc, Hopen in E.
      cbn [is_open negb] in E.
      replace (Z.to_nat (Math_ceil_div (len (f_bytes file)) CHUNK_SIZE))
        with (S (Z.to_nat (Math_ceil_div (f_size file) CHUNK_SIZE - 1))) in E
        by (unfold f_size in *; lia).
      rewrite sendChunks_step, receive_zstdCodec in E.
      cbn [zstdCodec set_benchmark] in E.
      rewrite Hz in E. cbn [encodeChunk] in E. discriminate E. }
  subst r k. cbn [fst snd indices chunkPairs flat_map closing_frames app] in *.
  eexists. split; [reflexivity|]. split; [exact F|].
  split; [reflexivity|]. split; [exact Hn|].
  intros receiver. cbn. split; reflexivity.
Qed.

Lemma send_without_codec_witness :
  let result :=
    sendFile Demo.jsonBytes Demo.fileRead Demo.bufferedamountlow Demo.quiet
             (Some Demo.hello) true (Num 3) Cases.no_codec in
  exists m,
    fst result = Threw CodecNotInitialized
    /\ sentFrames (snd result) = sentFrames Cases.no_codec ++ [Text (Metadata m)]
    /\ meta_compressed m = true
    /\ 1 <= meta_totalChunks m
    /\ forall receiver,
         receiverState (snd (receive [Text (Metadata m)] receiver)) = AwaitingChunk
         /\ fileList (snd (receive [Text (Metadata m)] receiver)) = fileList receiver.
Proof.
  apply (send_without_codec Demo.jsonBytes Demo.fileRead Demo.bufferedamountlow Demo.quiet
           Demo.hello (Num 3) Cases.no_codec Demo.channel).
  - reflexivity.
  - reflexivity.
  - reflexivity.
  - discriminate.
Defined.

(** ** The counters of the sender *)

(** X4.  After a send that got past its guard and during which no frame
    arrived on the page (no handler ran while [sendFile] was suspended),
    however the send ended, the counters of [benchmark] describe what
    was written: [originalSize] is the size of the file,
    [compressedSize] the total number of bytes of the binary frames
    written, [chunksSent] their number, and [chunksReceived] is 0
    whatever it was before; the codec, the incoming transfer and the
    received files of the page are untouched.  Without compression such
    a send that returned has [compressedSize] equal to [originalSize]. *)
Theorem send_counters
        (jsonBytes : Message -> Z) (fileRead : RTCDataChannel -> Z)
        (bufferedamountlow : RTCDataChannel -> option Z)
        (arrivals : RTCDataChannel -> list Frame)
        (file : File) (useCompression : bool) (level : Number)
        (p : Peer) (c : RTCDataChannel) :
  dataChannel p = Some c ->
  readyState c = open ->
  (forall w, arrivals w = []) ->
  let result :=
    sendFile jsonBytes fileRead bufferedamountlow arrivals (Some file) useCompression
             level p in
  exists fs,
    sentFrames (snd result) = sentFrames p ++ fs
    /\ benchmark (snd result)
       = {| bm_originalSize := len (f_bytes file);
            bm_compressedSize := wireBytes fs;
            chunksSent := Z.of_nat (length (binaries fs));
            chunksReceived := 0 |}
    /\ untouched_by_send p (snd result)
    /\ (useCompression = false -> fst result = Returned ->
        bm_compressedSize (benchmark (snd result)) = len (f_bytes file)).
Proof.
  intros Hc Hopen Hquiet. cbv zeta.
  destruct (sendFile jsonBytes fileRead bufferedamountlow arrivals (Some file)
                     useCompression level p) as [r p'] eqn:E.
  destruct (sendFile_outcome jsonBytes fileRead bufferedamountlow arrivals file
              useCompression level p c r p' Hc Hopen E)
    as (k & c' & _ & _ & Hk & Hlen & F & Hret & _ & _ & Hq).
  destruct (Hq Hquiet) as [Hun Hb].
  cbn [fst snd]. eexists. split; [exact F|].
  set (prs := chunkPairs (zstdCodec p) useCompression level (f_bytes file)
                         (indices k 0)) in *.
  assert (Hw : wireBytes (Text (Metadata (fileMetadata file useCompression level))
                          :: flat_map pairFrames prs ++ closing_frames r)
               = sumZ (map (fun pair => len (snd pair)) prs)).
  { change (wireBytes (Text ?m :: ?l)) with (wireBytes l).
    rewrite wireBytes_app, wireBytes_pairFrames.
    destruct r; cbn; lia. }
  assert (Hn : binaries (Text (Metadata (fileMetadata file useCompression level))
                         :: flat_map pairFrames prs ++ closing_frames r)
               = map snd prs).
  { change (binaries (Text ?m :: ?l)) with (binaries l).
    rewrite binaries_app, binaries_pairFrames.
    destruct r; cbn; now rewrite app_nil_r. }
  rewrite Hw, Hn, length_map, Hlen.
  split; [exact Hb|]. split; [exact Hun|].
  intros -> ->. rewrite Hb. cbn [bm_compressedSize].
  specialize (Hret eq_refl). unfold prs. rewrite Hret.
  rewrite <- (map_map snd len), <- binaries_pairFrames, <- chunkFrames_pairs.
  rewrite binaries_chunkFrames_raw, sumZ_len_concat.
  unfold f_size. now rewrite concat_all_chunks.
Qed.

Lemma send_counters_witness :
  let result :=
    sendFile Demo.jsonBytes Demo.fileRead Demo.bufferedamountlow Demo.quiet
             (Some Demo.hello) true (Num 3) Demo.receiving in
  exists fs,
    sentFrames (snd result) = sentFrames Demo.receiving ++ fs
    /\ benchmark (snd result)
       = {| bm_originalSize := len (f_bytes Demo.hello);
            bm_compressedSize := wireBytes fs;
            chunksSent := Z.of_nat (length (binaries fs));
            chunksReceived := 0 |}
    /\ untouched_by_send Demo.receiving (snd result)
    /\ (true = false -> fst result = Returned ->
        bm_compressedSize (benchmark (snd result)) = len (f_bytes Demo.hello)).
Proof.
  apply (send_counters Demo.jsonBytes Demo.fileRead Demo.bufferedamountlow Demo.quiet
           Demo.hello true (Num 3) Demo.receiving Demo.channel).
  - reflexivity.
  - reflexivity.
  - intros w. reflexivity.
Defined.

Example send_while_receiving :
  let p' := snd (sendFile Demo.jsonBytes Demo.fileRead Demo.bufferedamountlow Demo.quiet
                          (Some Demo.hello) true (Num 3) Demo.receiving) in
  chunksReceived (benchmark Demo.receiving) = 1
  /\ benchmark p' = {| bm_originalSize := 5; bm_compressedSize := 6;
                       chunksSent := 1; chunksReceived := 0 |}
  /\ receivedChunks p' = [Some (ArrayBuffer [x01; x02; x03])].
Proof. vm_compute. repeat split. Qed.

(** When a Metadata frame arrives while the file is read, its handler
    sets [benchmark] anew in the middle of the send: the same frames are
    written, but the counters no longer describe them. *)
Example send_while_frames_arrive :
  let quiet := sendFile Demo.jsonBytes Demo.fileRead Demo.bufferedamountlow
                        Demo.quiet (Some Demo.hello) true (Num 3) Demo.page in
  let busy := sendFile Demo.jsonBytes Demo.fileRead Demo.bufferedamountlow
                       Cases.announcing (Some Demo.hello) true (Num 3) Demo.page in
  fst busy = Returned
  /\ sentFrames (snd busy) = sentFrames (snd quiet)
  /\ benchmark (snd quiet) = {| bm_originalSize := 5; bm_compressedSize := 6;
                                chunksSent := 1; chunksReceived := 0 |}
  /\ benchmark (snd busy) = {| bm_originalSize := 7; bm_compressedSize := 6;
                               chunksSent := 1; chunksReceived := 0 |}
  /\ receiverState (snd busy) = AwaitingChunk.
Proof. vm_compute. repeat split. Qed.

(** ** Chunk headers in every run *)

Lemma headers_chunkFrames_any (codec : option ZstdStreaming)
      (useCompression : bool) (level : Number) (buf : bytes) (j : nat) :
  exists j',
    (j' <= j)%nat
    /\ map index (headers (flat_map (chunkFrames codec useCompression level buf)
                                    (indices j 0)))
       = indices j' 0
    /\ map originalSize
           (headers (flat_map (chunkFrames codec useCompression level buf)
                              (indices j 0)))
       = map (fun i => len (chunkAt buf i)) (indices j' 0).
Proof.
  destruct useCompression eqn:Huc, codec as [z|] eqn:Hcodec.
  4:{ exists j. split; [lia|].
      apply (headers_chunkFrames None false level buf ltac:(discriminate)). }
  3:{ exists j. split; [lia|].
      apply (headers_chunkFrames (Some z) false level buf ltac:(discriminate)). }
  2:{ exists 0%nat. split; [lia|].
      rewrite chunkFrames_pairs, chunkPairs_no_codec. split; reflexivity. }
  exists j. split; [lia|].
  apply (headers_chunkFrames (Some z) true level buf ltac:(discriminate)).
Qed.

Lemma len_firstn_chunks (buf : bytes) (j : nat) :
  len (concat (map (chunkAt buf) (indices j 0)))
  = Z.min (Z.of_nat j * CHUNK_SIZE) (len buf).
Proof.
  rewrite concat_chunks by lia. cbn [Z.mul Z.to_nat skipn].
  unfold len. rewrite length_firstn. pose proof CHUNK_SIZE_pos. nia.
Qed.

(** X5.  In every run of [sendFile], complete or cut short, in whatever
    state the page is: the chunk headers written carry the indices
    0, 1, ..., j-1 in this order, for some j up to the chunk count; each
    announces an [originalSize] between 1 and 65536; the sizes announced
    add up to the length of the first j chunks of the payload, never to
    more than the file has; and without compression every binary frame
    written has between 1 and 65536 bytes. *)
Theorem chunk_headers_in_every_run
        (jsonBytes : Message -> Z) (fileRead : RTCDataChannel -> Z)
        (bufferedamountlow : RTCDataChannel -> option Z)
        (arrivals : RTCDataChannel -> list Frame)
        (file : File) (useCompression : bool) (level : Number) (p : Peer) :
  exists fs j,
    sentFrames (snd (sendFile jsonBytes fileRead bufferedamountlow arrivals (Some file)
                              useCompression level p))
    = sentFrames p ++ fs
    /\ (j <= Z.to_nat (Math_ceil_div (len (f_bytes file)) CHUNK_SIZE))%nat
    /\ map index (headers fs) = map Z.of_nat (seq 0 j)
    /\ Forall (fun h => 1 <= originalSize h <= 65536) (headers fs)
    /\ sumZ (map originalSize (headers fs))
       = Z.min (Z.of_nat j * 65536) (len (f_bytes file))
    /\ (useCompression = false ->
        Forall (fun d => 1 <= len d <= 65536) (binaries fs)).
Proof.
  destruct (sendFile_prefix jsonBytes fileRead bufferedamountlow arrivals file
              useCompression level p)
    as (fs & k & Hfs & Hk & Hh & Hb & _).
  destruct (headers_chunkFrames_any (zstdCodec p) useCompression level
              (f_bytes file) k) as (j & Hj & Hidx & Hsz).
  exists fs, j. split; [exact Hfs|]. split; [lia|].
  rewrite Hh, Hidx, Hsz. split; [apply (indices_seq j 0)|].
  assert (Hrange : Forall (fun i => 0 < len (chunkAt (f_bytes file) i)
                                    <= CHUNK_SIZE)
                          (indices j 0)).
  { apply Forall_forall. intros i Hi. apply indices_bounds in Hi.
    split; [apply chunkAt_nonempty; lia|].
    rewrite len_chunkAt by lia. pose proof CHUNK_SIZE_pos. lia. }
  split.
  { apply (proj1 (Forall_map originalSize (fun s => 1 <= s <= 65536) _)).
    rewrite Hsz. apply (proj2 (Forall_map _ _ _)).
    eapply Forall_impl; [|exact Hrange]. cbn beta. intros i Hi.
    rewrite <- CHUNK_SIZE_val. lia. }
  split.
  { rewrite <- (map_map (chunkAt (f_bytes file)) len), sumZ_len_concat.
    rewrite len_firstn_chunks, CHUNK_SIZE_val. reflexivity. }
  intros ->. rewrite Hb, binaries_chunkFrames_raw.
  apply (proj2 (Forall_map _ _ _)). apply Forall_forall. intros i Hi. apply indices_bounds in Hi.
  pose proof (chunkAt_nonempty (f_bytes file) i ltac:(lia)).
  rewrite <- CHUNK_SIZE_val. rewrite len_chunkAt in * by lia.
  pose proof CHUNK_SIZE_pos. lia.
Qed.

(** ** Warnings of the sender *)

Lemma suspensions_app (t1 t2 : list Event) :
  suspensions (t1 ++ t2) = suspensions t1 ++ suspensions t2.
Proof. unfold suspensions. apply flat_map_app. Qed.

Section Warnings.

Variable jsonBytes : Message -> Z.
Variable fileRead : RTCDataChannel -> Z.
Variable bufferedamountlow : RTCDataChannel -> option Z.
Variable arrivals : RTCDataChannel -> list Frame.

Lemma sendChunks_reports (useCompression : bool) (level : Number) (buf : bytes)
      (n : nat) :
  forall (i : Z) (c : RTCDataChannel) (p : Peer),
    let result :=
      sendChunks jsonBytes bufferedamountlow arrivals useCompression level buf n i c p in
    exists tr,
      history (fst (snd result)) = history c ++ tr
      /\ reports (snd (snd result)) = reports p ++ map BufferFull (suspensions tr)
      /\ Forall (fun b => BUFFER_THRESHOLD < b) (suspensions tr).
Proof.
  induction n as [|n IH]; intros i c p; cbv zeta.
  - exists []. cbn. rewrite !app_nil_r. repeat split. constructor.
  - rewrite sendChunks_step.
    destruct (encodeChunk (zstdCodec p) useCompression level (chunkAt buf i))
      as [data|].
    2:{ exists []. cbn. rewrite !app_nil_r. repeat split. constructor. }
    cbv zeta.
    set (h := {| index := i; originalSize := len (chunkAt buf i);
                 compressedSize := byteLength_or_length data |}).
    set (c2 := send jsonBytes (Binary (contents data))
                    (send jsonBytes (Text (Chunk h)) c)).
    set (p2 := set_benchmark _ p).
    assert (Hh : exists e1 e2, history c2 = history c ++ [e1; e2]
                               /\ suspensions [e1; e2] = []).
    { do 2 eexists. unfold c2, send. cbn [history]. rewrite <- app_assoc.
      split; reflexivity. }
    destruct Hh as (e1 & e2 & Hh & Hs).
    destruct (Z.ltb_spec BUFFER_THRESHOLD (bufferedAmount c2)) as [Hover|Hunder].
    + unfold waitForBufferDrain.
      destruct (Z.leb_spec (bufferedAmount c2) BUFFER_THRESHOLD) as [?|_]; [lia|].
      destruct (bufferedamountlow _) as [b|].
      * match goal with |- context [sendChunks _ _ _ _ _ _ n (i + 1) ?c3 ?q] =>
          destruct (IH (i + 1) c3 q) as (tr & Ht & Hr & Hall) end.
        cbv zeta in Ht, Hr.
        exists ([e1; e2] ++ [Suspended (bufferedAmount c2); Resumed b] ++ tr).
        rewrite Ht, Hr, receive_reports.
        cbn [history reports add_report set_benchmark].
        rewrite Hh, !suspensions_app, Hs. cbn [suspensions flat_map app map].
        rewrite <- !app_assoc. cbn [app].
        repeat split. constructor; assumption.
      * exists ([e1; e2] ++ [Suspended (bufferedAmount c2)]).
        cbn [fst snd history reports add_report set_benchmark].
        rewrite Hh, !suspensions_app, Hs. cbn [suspensions flat_map app map].
        rewrite <- !app_assoc. cbn [app].
        repeat split. constructor; [assumption | constructor].
    + destruct (IH (i + 1) c2 p2) as (tr & Ht & Hr & Hall).
      cbv zeta in Ht, Hr. exists ([e1; e2] ++ tr).
      rewrite Ht, Hr, Hh, suspensions_app, Hs, <- app_assoc.
      repeat split. assumption.
Qed.

(** X6.  A send that got past its guard logs one 'Buffer full' warning
    for each time it suspends, in order, each with the amount that was
    buffered when it suspended, which is above the 1 MiB threshold; it
    logs no other warning and no error. *)
Theorem one_warning_per_drain_wait
        (file : File) (useCompression : bool) (level : Number)
        (p : Peer) (c : RTCDataChannel) :
  dataChannel p = Some c ->
  readyState c = open ->
  let result :=
    sendFile jsonBytes fileRead bufferedamountlow arrivals (Some file) useCompression
             level p in
  exists c' tr,
    dataChannel (snd result) = Some c'
    /\ history c' = history c ++ tr
    /\ reports (snd result) = reports p ++ map BufferFull (suspensions tr)
    /\ Forall (fun b => 1048576 < b) (suspensions tr).
Proof.
  intros Hc Hopen. cbv zeta. unfold sendFile. rewrite Hc, Hopen.
  cbn [is_open negb].
  match goal with |- context [sendChunks _ _ _ ?u ?l ?b ?n 0 ?c2 ?p0] =>
    destruct (sendChunks_reports u l b n 0 c2 p0) as (tr & Ht & Hr & Hall);
    destruct (sendChunks jsonBytes bufferedamountlow arrivals u l b n 0 c2 p0)
      as [r [c3 p1]] end.
  cbv zeta in Ht, Hr. rewrite receive_reports in Hr.
  cbn [fst snd history send reports set_benchmark] in Ht, Hr.
  rewrite <- BUFFER_THRESHOLD_val.
  destruct r; cbn [snd dataChannel set_dataChannel reports].
  - do 2 eexists. split; [reflexivity|]. cbn [history send].
    rewrite Ht, <- !app_assoc. split; [reflexivity|].
    rewrite !suspensions_app. cbn [suspensions flat_map app].
    rewrite app_nil_r. auto.
  - do 2 eexists. split; [reflexivity|].
    rewrite Ht, <- !app_assoc. split; [reflexivity|].
    rewrite !suspensions_app. cbn [suspensions flat_map app]. auto.
  - do 2 eexists. split; [reflexivity|].
    rewrite Ht, <- !app_assoc. split; [reflexivity|].
    rewrite !suspensions_app. cbn [suspensions flat_map app]. auto.
Qed.

End Warnings.

Lemma one_warning_per_drain_wait_witness :
  let result :=
    sendFile Demo.jsonBytes Demo.fileRead Demo.bufferedamountlow Demo.quiet
             (Some Demo.hello) false (Num 3)
             (set_dataChannel (Some Demo.busy) Demo.page) in
  exists c' tr,
    dataChannel (snd result) = Some c'
    /\ history c' = history Demo.busy ++ tr
    /\ reports (snd result)
       = reports (set_dataChannel (Some Demo.busy) Demo.page)
         ++ map BufferFull (suspensions tr)
    /\ Forall (fun b => 1048576 < b) (suspensions tr).
Proof.
  apply (one_warning_per_drain_wait Demo.jsonBytes Demo.fileRead
           Demo.bufferedamountlow Demo.quiet Demo.hello false (Num 3)
           (set_dataChannel (Some Demo.busy) Demo.page) Demo.busy).
  - reflexivity.
  - reflexivity.
Defined.

Example warning_logged :
  reports (snd (sendFile Demo.jsonBytes Demo.fileRead Demo.bufferedamountlow Demo.quiet
                         (Some Demo.hello) false (Num 3)
                         (set_dataChannel (Some Demo.busy) Demo.page)))
  = [BufferFull 1048703].
Proof. vm_compute. reflexivity. Qed.

(** X7.  Whatever frames arrive, in whatever state the page is: the
    receiver never touches the channel or the codec, never logs an
    error or a warning, never changes or removes a received file, and
    adds at most one received file per Completion frame; every frame is
    handled (one handler outcome per frame), a handler that throws does
    not stop the following frames. *)
Theorem receiver_only_appends (fs : list Frame) (p : Peer) :
  let p' := snd (receive fs p) in
  dataChannel p' = dataChannel p
  /\ zstdCodec p' = zstdCodec p
  /\ reports p' = reports p
  /\ (exists new, fileList p' = fileList p ++ new
                  /\ (length new <= completes fs)%nat)
  /\ (forall k entry, nth_error (fileList p) k = Some entry ->
                      nth_error (fileList p') k = Some entry)
  /\ (completes fs = 0%nat -> fileList p' = fileList p)
  /\ length (fst (receive fs p)) = length fs.
Proof.
  destruct (receive_effect fs p) as (H1 & H2 & H3 & (new & H4 & H5) & H6).
  cbv zeta in *. repeat split; try assumption.
  - exists new. split; assumption.
  - intros k entry Hk. rewrite H4, nth_error_app1; [exact Hk|].
    apply nth_error_Some. congruence.
  - intros H0. rewrite H0 in H5.
    destruct new; [now rewrite app_nil_r in H4 | cbn in H5; lia].
Qed.

(** ** The bookkeeping of the receiver *)

Lemma heldLength_snoc (chunks : list (option BufferSource)) (chunk : BufferSource) :
  heldLength (chunks ++ [Some chunk])
  = add (heldLength chunks) (byteLength_or_length chunk).
Proof. unfold heldLength. rewrite held_app. cbn. now rewrite fold_left_app. Qed.

Lemma heldLength_null (chunks : list (option BufferSource)) :
  heldLength (chunks ++ [None]) = heldLength chunks.
Proof. unfold heldLength. rewrite held_app. cbn. now rewrite app_nil_r. Qed.

Lemma tracked_initial : tracked initial.
Proof. unfold tracked. cbn. repeat split; congruence. Qed.

Lemma handleDataChannelMessage_tracked (f : Frame) (p : Peer) :
  tracked p -> tracked (snd (handleDataChannelMessage f p)).
Proof.
  intros Hp. pose proof Hp as (H1 & H2 & H3).
  destruct f as [[m|h| | |]|data]; cbn [handleDataChannelMessage].
  - unfold tracked. cbn. repeat split; congruence.
  - destruct (incomingFile p) as [g|] eqn:Hg; cbn [snd].
    + unfold tracked. cbn. repeat split; try assumption; [discriminate|].
      intros _. apply H3. discriminate.
    + cbn [snd]. exact Hp.
  - destruct (handleTransferComplete_effect p)
      as (_ & _ & _ & _ & [(_ & _ & _ & E1 & E2 & E3)|(_ & ->)]).
    + unfold tracked. rewrite E1, E2, E3. repeat split; congruence.
    + cbn [snd]. exact Hp.
  - cbn [snd]. exact Hp.
  - cbn [snd]. exact Hp.
  - unfold handleChunkData.
    destruct (incomingFile p) as [g|] eqn:Hg;
      [|cbn [snd]; exact Hp].
    destruct (currentChunk g) as [h|];
      [|cbn [snd]; exact Hp].
    destruct (if compressed g then _ else _) as [e|[chunk|]]; cbn [snd].
    + unfold tracked. cbn. rewrite Hg. repeat split; try assumption;
        try (intros _; apply H3; discriminate); try discriminate.
    + unfold tracked. cbn -[heldLength held].
      rewrite heldLength_snoc, H1, held_app, length_app. repeat split.
      * discriminate.
      * intros _. rewrite H3 by discriminate. cbn. lia.
    + unfold tracked. cbn -[heldLength held].
      rewrite heldLength_null, H1, held_app, length_app, Hg. repeat split.
      * discriminate.
      * intros _. rewrite H3 by discriminate. cbn. lia.
Qed.

Lemma receive_tracked (fs : list Frame) :
  forall p, tracked p -> tracked (snd (receive fs p)).
Proof.
  induction fs as [|f fs IH]; intros p H; [exact H|].
  destruct (receive_cons f fs p) as [-> _].
  apply IH. now apply handleDataChannelMessage_tracked.
Qed.

(** X8.  The bookkeeping of the receiver stays in step with the binary
    objects it holds, whatever frames arrive: [receivedSize] (shown as
    progress) is always the sum of [byteLength || length] over the
    received chunks that are not [null], a NaN included; no chunk is
    held while no transfer is active; and during a transfer
    [benchmark.chunksReceived] is the number of received chunks that are
    not [null].  This holds from the script's initial state, is kept by
    every frame, and is established by any Metadata frame from any
    state.  In such a state, when no [null] is held, [receivedSize] is
    the very value the completion handler computes as the total length;
    when a [null] is held (the codec could not decode a payload), the
    completion handler throws on it and changes nothing. *)
Theorem receiver_bookkeeping_in_step (fs : list Frame) :
  tracked (snd (receive fs initial))
  /\ (forall p, tracked p -> tracked (snd (receive fs p)))
  /\ (forall m p, tracked (snd (receive (Text (Metadata m) :: fs) p)))
  /\ (forall p, tracked p ->
      (~ In None (receivedChunks p) ->
       totalLength (receivedChunks p) = Some (receivedSize p)
       /\ receivedChunks p = map Some (held (receivedChunks p)))
      /\ (In None (receivedChunks p) ->
          totalLength (receivedChunks p) = None
          /\ handleTransferComplete p = (Threw TypeError, p))).
Proof.
  split; [apply receive_tracked, tracked_initial|].
  split; [apply receive_tracked|].
  split.
  { intros m p. destruct (receive_cons (Text (Metadata m)) fs p) as [-> _].
    apply receive_tracked. unfold tracked. cbn. repeat split; congruence. }
  intros p (H1 & _ & _). split.
  - intros Hnone. split.
    + unfold totalLength. rewrite (reduce_no_null _ Hnone), H1. reflexivity.
    + clear H1. induction (receivedChunks p) as [|[d|] rest IH]; cbn.
      * reflexivity.
      * f_equal. apply IH. intros H. apply Hnone. now right.
      * exfalso. apply Hnone. now left.
  - intros Hin. split.
    + unfold totalLength. now rewrite (reduce_null _ Hin).
    + now apply handleTransferComplete_null.
Qed.

Lemma receiver_bookkeeping_in_step_witness :
  tracked (snd (receive Demo.run1 Demo.page)).
Proof.
  apply (proj1 (proj2 (receiver_bookkeeping_in_step Demo.run1)) Demo.page).
  unfold tracked. cbn. repeat split; congruence.
Defined.

(** ** Frames that change nothing *)

(** X9.  An idle receiver reacts to a Metadata frame only: every other
    frame (chunk header, binary frame, Completion, any other text)
    leaves the whole state of the page as it was.  A Completion frame
    that arrives while idle makes its handler throw and delivers
    nothing. *)
Theorem idle_reacts_to_metadata_only (f : Frame) (p : Peer) :
  receiverState p = Idle ->
  (forall m, f <> Text (Metadata m)) ->
  snd (handleDataChannelMessage f p) = p
  /\ (f = Text Complete -> fst (handleDataChannelMessage f p) <> Returned).
Proof.
  intros Hidle Hf. unfold receiverState in Hidle.
  destruct (incomingFile p) as [g|] eqn:Hg;
    [destruct (currentChunk g); discriminate|].
  destruct f as [[m|h| | |]|data]; cbn [handleDataChannelMessage].
  - now specialize (Hf m).
  - rewrite Hg. split; [reflexivity | discriminate].
  - destruct (handleTransferComplete_effect p)
      as (_ & _ & _ & _ & [(_ & _ & Hne & _)|(Hthrow & Hsame)]).
    + congruence.
    + split; [exact Hsame | intros _; exact Hthrow].
  - split; [reflexivity | discriminate].
  - split; [reflexivity | discriminate].
  - unfold handleChunkData. rewrite Hg. split; [reflexivity | discriminate].
Qed.

Lemma idle_reacts_to_metadata_only_witness :
  snd (handleDataChannelMessage (Text Complete) Demo.page) = Demo.page
  /\ (Text Complete = Text Complete ->
      fst (handleDataChannelMessage (Text Complete) Demo.page) <> Returned).
Proof.
  apply (idle_reacts_to_metadata_only (Text Complete) Demo.page).
  - reflexivity.
  - intros m. discriminate.
Defined.

(** X10.  Of several chunk headers in a row only the last counts: a
    header that is followed at once by another header has no effect on
    anything the receiver does afterwards, in whatever state it is. *)
Theorem last_header_wins (h1 h2 : ChunkHeader) (rest : list Frame) (p : Peer) :
  snd (receive (Text (Chunk h1) :: Text (Chunk h2) :: rest) p)
  = snd (receive (Text (Chunk h2) :: rest) p)
  /\ observedHeaders (Text (Chunk h1) :: Text (Chunk h2) :: rest) p
     = observedHeaders (Text (Chunk h2) :: rest) p.
Proof.
  assert (E : snd (handleDataChannelMessage (Text (Chunk h2))
                     (snd (handleDataChannelMessage (Text (Chunk h1)) p)))
              = snd (handleDataChannelMessage (Text (Chunk h2)) p)).
  { cbn [handleDataChannelMessage].
    destruct (incomingFile p) as [g|] eqn:Hg; cbn; [|now rewrite Hg].
    reflexivity. }
  split.
  - destruct (receive_cons (Text (Chunk h1)) (Text (Chunk h2) :: rest) p) as [-> _].
    destruct (receive_cons (Text (Chunk h2)) rest
                (snd (handleDataChannelMessage (Text (Chunk h1)) p))) as [-> _].
    destruct (receive_cons (Text (Chunk h2)) rest p) as [-> _].
    now rewrite E.
  - cbn [observedHeaders chunkInfo]. now rewrite E.
Qed.

(** X11.  A header admits one payload: once a binary frame has been
    handled without its handler throwing, a binary frame that follows
    at once is ignored, whatever it holds: the receiver goes on as if it
    had not arrived. *)
Theorem one_payload_per_header (d1 d2 : bytes) (rest : list Frame) (p : Peer) :
  fst (handleDataChannelMessage (Binary d1) p) = Returned ->
  snd (receive (Binary d1 :: Binary d2 :: rest) p)
  = snd (receive (Binary d1 :: rest) p)
  /\ receiverState (snd (handleDataChannelMessage (Binary d1) p)) <> HaveHeader.
Proof.
  intros Hret.
  assert (Hno : receiverState (snd (handleDataChannelMessage (Binary d1) p))
                <> HaveHeader).
  { cbn [handleDataChannelMessage] in *. unfold handleChunkData in *.
    unfold receiverState.
    destruct (incomingFile p) as [g|] eqn:Hg; [|cbn; rewrite Hg; discriminate].
    destruct (currentChunk g) as [h|] eqn:Hh;
      [|cbn; rewrite Hg, Hh; discriminate].
    destruct (if compressed g then _ else _) as [e|[chunk|]];
      [discriminate Hret | | discriminate Hret].
    cbn. discriminate. }
  split; [|exact Hno].
  destruct (receive_cons (Binary d1) (Binary d2 :: rest) p) as [-> _].
  destruct (receive_cons (Binary d1) rest p) as [-> _].
  destruct (receive_cons (Binary d2) rest
              (snd (handleDataChannelMessage (Binary d1) p))) as [-> _].
  f_equal. f_equal.
  set (q := snd (handleDataChannelMessage (Binary d1) p)) in *.
  cbn [handleDataChannelMessage]. unfold handleChunkData, receiverState in *.
  destruct (incomingFile q) as [g|]; [|reflexivity].
  destruct (currentChunk g); [congruence | reflexivity].
Qed.

Lemma one_payload_per_header_witness :
  snd (receive (Binary [x28; x01] :: Binary [x28; x02] :: [Text Complete])
               Cases.have_header)
  = snd (receive (Binary [x28; x01] :: [Text Complete]) Cases.have_header)
  /\ receiverState (snd (handleDataChannelMessage (Binary [x28; x01])
                                                  Cases.have_header))
     <> HaveHeader.
Proof.
  apply (one_payload_per_header [x28; x01] [x28; x02] [Text Complete]
                                Cases.have_header).
  reflexivity.
Defined.

(** X12.  A payload that fails to decode leaves its header pending.
    When the handler of a binary frame throws, the transfer is a
    compressed one with a header pending, and either the codec is
    missing, and the handler throws 'Zstd codec not initialized' before
    it stores anything, or the codec returned [null] for the payload,
    and the handler stores that [null] among the received chunks and
    throws where it reads its length.  In both cases
    [benchmark.compressedSize] has grown by the size of the frame,
    [receivedSize] and [benchmark.chunksReceived] are as before, and the
    header is still pending, so the next binary frame is taken as its
    payload.  After a [null] was stored, a Completion frame makes its
    handler throw and delivers nothing. *)
Theorem failed_decode_keeps_header (data : bytes) (p : Peer) (e : Error) :
  fst (handleDataChannelMessage (Binary data) p) = Threw e ->
  let p' := snd (handleDataChannelMessage (Binary data) p) in
  let counted := set_benchmark (add_compressedSize (len data) (benchmark p)) p in
  receiverState p = HaveHeader
  /\ receiverState p' = HaveHeader
  /\ incomingFile p' = incomingFile p
  /\ (exists f, incomingFile p = Some f /\ compressed f = true)
  /\ receivedSize p' = receivedSize p
  /\ chunksReceived (benchmark p') = chunksReceived (benchmark p)
  /\ bm_compressedSize (benchmark p') = bm_compressedSize (benchmark p) + len data
  /\ ((e = CodecNotInitialized /\ zstdCodec p = None /\ p' = counted)
      \/ (e = TypeError
          /\ (exists z, zstdCodec p = Some z /\ decompress z data = None)
          /\ p' = push None counted
          /\ receivedChunks p' = receivedChunks p ++ [None]
          /\ handleDataChannelMessage (Text Complete) p' = (Threw TypeError, p'))).
Proof.
  cbn [handleDataChannelMessage]. unfold handleChunkData, receiverState.
  destruct (incomingFile p) as [g|] eqn:Hg; [|discriminate].
  destruct (currentChunk g) as [h|] eqn:Hh; [|discriminate].
  destruct (compressed g) eqn:Hc; [|discriminate].
  unfold decompressData. cbn [zstdCodec set_benchmark].
  destruct (zstdCodec p) as [z|] eqn:Hz.
  - destruct (decompress z data) eqn:Hd; [discriminate|].
    cbn [option_map]. intros [= <-].
    cbn [snd incomingFile set_benchmark push receivedSize benchmark
         chunksReceived bm_compressedSize add_compressedSize receivedChunks].
    rewrite Hg, Hh.
    repeat split; eauto.
    right. repeat split; eauto.
    apply handleTransferComplete_null. cbn [receivedChunks push set_benchmark].
    apply in_or_app. right. now left.
  - intros [= <-].
    cbn [snd incomingFile set_benchmark receivedSize benchmark chunksReceived
         bm_compressedSize add_compressedSize].
    rewrite Hg, Hh. repeat split; eauto.
Qed.

Lemma failed_decode_keeps_header_witness :
  let p := Cases.have_header in
  let p' := snd (handleDataChannelMessage (Binary Demo.garbage) p) in
  let counted :=
    set_benchmark (add_compressedSize (len Demo.garbage) (benchmark p)) p in
  receiverState p = HaveHeader
  /\ receiverState p' = HaveHeader
  /\ incomingFile p' = incomingFile p
  /\ (exists f, incomingFile p = Some f /\ compressed f = true)
  /\ receivedSize p' = receivedSize p
  /\ chunksReceived (benchmark p') = chunksReceived (benchmark p)
  /\ bm_compressedSize (benchmark p') = bm_compressedSize (benchmark p) + len Demo.garbage
  /\ ((TypeError = CodecNotInitialized /\ zstdCodec p = None /\ p' = counted)
      \/ (TypeError = TypeError
          /\ (exists z, zstdCodec p = Some z /\ decompress z Demo.garbage = None)
          /\ p' = push None counted
          /\ receivedChunks p' = receivedChunks p ++ [None]
          /\ handleDataChannelMessage (Text Complete) p' = (Threw TypeError, p'))).
Proof.
  apply (failed_decode_keeps_header Demo.garbage Cases.have_header TypeError).
  reflexivity.
Defined.

(** ** A transfer with payloads that may fail to decode *)

Lemma held_length_app (l1 l2 : list (option BufferSource)) :
  length (held (l1 ++ l2)) = (length (held l1) + length (held l2))%nat.
Proof. now rewrite held_app, length_app. Qed.

Lemma decodeChunk_ext (p q : Peer) (f g : IncomingFile) (data : bytes) :
  zstdCodec q = zstdCodec p -> compressed g = compressed f ->
  decodeChunk q g data = decodeChunk p f data.
Proof.
  intros Hz Hc. unfold decodeChunk, decompressData. now rewrite Hz, Hc.
Qed.

(** The receiver of an active transfer on a run of header and payload
    pairs: what the decoding gives for every payload is accumulated, in
    order; every payload is counted in [benchmark.compressedSize], every
    binary object accumulated in [benchmark.chunksReceived]. *)
Lemma receive_pairs (prs : list (ChunkHeader * bytes)) :
  forall (p : Peer) (f : IncomingFile),
    incomingFile p = Some f ->
    let p' := snd (receive (flat_map pairFrames prs) p) in
    (exists g,
        incomingFile p' = Some g
        /\ name g = name f /\ size g = size f /\ mimeType g = mimeType f
        /\ compressed g = compressed f /\ totalChunks g = totalChunks f)
    /\ receivedChunks p'
       = receivedChunks p ++ flat_map (fun pair => decodeChunk p f (snd pair)) prs
    /\ bm_originalSize (benchmark p') = bm_originalSize (benchmark p)
    /\ chunksSent (benchmark p') = chunksSent (benchmark p)
    /\ bm_compressedSize (benchmark p')
       = bm_compressedSize (benchmark p) + sumZ (map (fun pair => len (snd pair)) prs)
    /\ chunksReceived (benchmark p')
       = chunksReceived (benchmark p)
         + Z.of_nat (length (held (flat_map (fun pair => decodeChunk p f (snd pair))
                                            prs))).
Proof.
  induction prs as [|[h d] prs IH]; intros p f Hf; cbv zeta.
  - cbn. rewrite app_nil_r. repeat split; try lia. exists f. repeat split; assumption.
  - cbn [flat_map]. rewrite receive_app.
    assert (Hstep :
      exists q g,
        receive (pairFrames (h, d)) p
        = ([Returned; fst (handleChunkData d
                            (set_incomingFile (Some (set_currentChunk h f)) p))], q)
        /\ incomingFile q = Some g
        /\ name g = name f /\ size g = size f /\ mimeType g = mimeType f
        /\ compressed g = compressed f /\ totalChunks g = totalChunks f
        /\ zstdCodec q = zstdCodec p
        /\ receivedChunks q = receivedChunks p ++ decodeChunk p f d
        /\ bm_originalSize (benchmark q) = bm_originalSize (benchmark p)
        /\ chunksSent (benchmark q) = chunksSent (benchmark p)
        /\ bm_compressedSize (benchmark q) = bm_compressedSize (benchmark p) + len d
        /\ chunksReceived (benchmark q)
           = chunksReceived (benchmark p)
             + Z.of_nat (length (held (decodeChunk p f d)))).
    { unfold pairFrames. cbn [fst snd receive handleDataChannelMessage]. rewrite Hf.
      unfold handleChunkData, decodeChunk.
      cbn [incomingFile set_incomingFile currentChunk set_currentChunk compressed].
      replace (decompressData
                 (set_benchmark
                    (add_compressedSize (len d)
                       (benchmark (set_incomingFile (Some (set_currentChunk h f)) p)))
                    (set_incomingFile (Some (set_currentChunk h f)) p)) d)
        with (decompressData p d) by reflexivity.
      destruct (if compressed f then decompressData p d
                else inr (Some (ArrayBuffer d)))
        as [e|[chunk|]].
      - do 2 eexists. split; [reflexivity|]. cbn. rewrite app_nil_r.
        repeat split; lia.
      - do 2 eexists. split; [reflexivity|]. cbn.
        repeat split; lia.
      - do 2 eexists. split; [reflexivity|]. cbn.
        repeat split; lia. }
    destruct Hstep as (q & g & E & Hg & G1 & G2 & G3 & G4 & G5 & Hz & Hch & B1 & B2 & B3 & B4).
    rewrite E. specialize (IH q g Hg). cbv zeta in IH.
    destruct (receive (flat_map pairFrames prs) q) as [cs q'] eqn:R.
    cbn [snd] in *.
    destruct IH as ((g' & Hg' & N1 & N2 & N3 & N4 & N5) & Hch' & C1 & C2 & C3 & C4).
    assert (Hext : flat_map (fun pair => decodeChunk q g (snd pair)) prs
                   = flat_map (fun pair => decodeChunk p f (snd pair)) prs).
    { apply flat_map_ext. intros pr. now apply decodeChunk_ext. }
    rewrite Hext in *. cbn [map sumZ fold_right snd]. fold sumZ.
    rewrite Hch', Hch, C1, C2, C3, C4, B1, B2, B3, B4, held_length_app, <- app_assoc.
    repeat split; try (unfold sumZ; lia).
    exists g'. repeat split; congruence.
Qed.

Lemma pairFrames_completes (prs : list (ChunkHeader * bytes)) :
  completes (flat_map pairFrames prs) = 0%nat.
Proof.
  induction prs as [|pr prs IH]; [reflexivity|].
  cbn [flat_map pairFrames app]. rewrite completes_cons.
  change (Binary (snd pr) :: flat_map pairFrames prs)
    with ([Binary (snd pr)] ++ flat_map pairFrames prs).
  cbn [app]. rewrite (completes_cons (Binary (snd pr))), IH. reflexivity.
Qed.

(** X13.  Assembly of a run of chunks, and what one undecodable payload
    does to it.  For an active transfer, take a run of header and
    payload pairs followed by the Completion frame.  What the receiver
    accumulates for a payload is the payload itself without compression
    and, with compression, what the codec returns for it: a [null] when
    the codec cannot decode it (and nothing at all when the codec is
    missing).  If every chunk accumulated can be assembled, the
    Completion frame delivers one file, the chunks held before followed
    by those of the run, in order of arrival, and the receiver returns
    to Idle.  If the codec returned [null] for some payload, the handler
    of the Completion frame throws, no file is delivered, not even the
    payloads that did decode, and the transfer stays active with
    everything still held. *)
Theorem assembly_after_decoding (prs : list (ChunkHeader * bytes)) (p : Peer)
        (f : IncomingFile) :
  incomingFile p = Some f ->
  let chunks :=
    receivedChunks p ++ flat_map (fun pair => decodeChunk p f (snd pair)) prs in
  let result := receive (flat_map pairFrames prs ++ [Text Complete]) p in
  (Forall assemblable chunks ->
   fileList (snd result)
   = fileList p
     ++ [{| file_name := name f;
            file_size := size f;
            blob := concat (map contents (held chunks));
            blob_type := if String.eqb (mimeType f) ""
                         then "application/octet-stream"%string
                         else mimeType f |}]
   /\ receiverState (snd result) = Idle
   /\ receivedChunks (snd result) = []
   /\ last (fst result) Returned = Returned)
  /\ (In None chunks ->
      fileList (snd result) = fileList p
      /\ receiverState (snd result) <> Idle
      /\ receivedChunks (snd result) = chunks
      /\ last (fst result) Returned = Threw TypeError).
Proof.
  intros Hf. cbv zeta. rewrite receive_app.
  pose proof (receive_pairs prs p f Hf) as H. cbv zeta in H.
  pose proof (receive_effect (flat_map pairFrames prs) p) as Heff. cbv zeta in Heff.
  destruct (receive (flat_map pairFrames prs) p) as [cs q]. cbn [snd fst] in *.
  destruct H as ((g & Hg & N1 & N2 & N3 & N4 & N5) & Hch & _).
  destruct Heff as (_ & _ & _ & (new & Hnew & Hlen) & _).
  assert (Hnil : new = []).
  { rewrite pairFrames_completes in Hlen.
    destruct new; [reflexivity | cbn in Hlen; lia]. }
  subst new. rewrite app_nil_r in Hnew.
  cbn [receive handleDataChannelMessage]. rewrite <- Hch. split.
  - intros Hs. rewrite (handleTransferComplete_sized q g Hg Hs).
    cbn [snd fst fileList receivedChunks].
    rewrite Hnew, last_last.
    unfold receivedFile, receiverState. cbn [incomingFile].
    rewrite N1, N2, N3. repeat split.
  - intros Hin. rewrite (handleTransferComplete_null q Hin).
    cbn [snd fst]. rewrite last_last. unfold receiverState. rewrite Hg.
    repeat split; [exact Hnew|]. destruct (currentChunk g); discriminate.
Qed.

Lemma assembly_after_decoding_witness :
  let prs := [({| index := 0; originalSize := 1; compressedSize := Some 2 |},
               [x28; x01]);
              ({| index := 1; originalSize := 1; compressedSize := Some 2 |},
               [x28; x02]);
              ({| index := 2; originalSize := 1; compressedSize := Some 2 |},
               [x28; x03])] in
  let p := snd (receive [Text (Metadata Demo.other)] Demo.page) in
  let f := {| name := "b.bin"; size := 7; mimeType := "text/plain";
              compressed := true; totalChunks := 1; currentChunk := None |} in
  let chunks :=
    receivedChunks p ++ flat_map (fun pair => decodeChunk p f (snd pair)) prs in
  let result := receive (flat_map pairFrames prs ++ [Text Complete]) p in
  Forall assemblable chunks
  /\ fileList (snd result)
     = fileList p
       ++ [{| file_name := name f;
              file_size := size f;
              blob := concat (map contents (held chunks));
              blob_type := if String.eqb (mimeType f) ""
                           then "application/octet-stream"%string
                           else mimeType f |}]
  /\ receiverState (snd result) = Idle
  /\ receivedChunks (snd result) = []
  /\ last (fst result) Returned = Returned.
Proof.
  cbv zeta.
  assert (Hs : Forall assemblable
                 (receivedChunks (snd (receive [Text (Metadata Demo.other)] Demo.page))
                  ++ flat_map
                       (fun pair =>
                          decodeChunk
                            (snd (receive [Text (Metadata Demo.other)] Demo.page))
                            {| name := "b.bin"; size := 7; mimeType := "text/plain";
                               compressed := true; totalChunks := 1;
                               currentChunk := None |}
                            (snd pair))
                       [({| index := 0; originalSize := 1; compressedSize := Some 2 |},
                         [x28; x01]);
                        ({| index := 1; originalSize := 1; compressedSize := Some 2 |},
                         [x28; x02]);
                        ({| index := 2; originalSize := 1; compressedSize := Some 2 |},
                         [x28; x03])])).
  { vm_compute. repeat constructor; discriminate. }
  split; [exact Hs|].
  apply (proj1 (assembly_after_decoding
           [({| index := 0; originalSize := 1; compressedSize := Some 2 |},
             [x28; x01]);
            ({| index := 1; originalSize := 1; compressedSize := Some 2 |},
             [x28; x02]);
            ({| index := 2; originalSize := 1; compressedSize := Some 2 |},
             [x28; x03])]
           (snd (receive [Text (Metadata Demo.other)] Demo.page))
           {| name := "b.bin"; size := 7; mimeType := "text/plain";
              compressed := true; totalChunks := 1; currentChunk := None |}
           eq_refl) Hs).
Defined.

(** One payload of three that the codec cannot decode: the other two are
    decoded and held, but the Completion frame delivers nothing. *)
Example corrupted_chunk_loses_the_file :
  let p := snd (receive [Text (Metadata Demo.other)] Demo.page) in
  let result :=
    receive (flat_map pairFrames
               [({| index := 0; originalSize := 1; compressedSize := Some 2 |},
                 [x28; x01]);
                ({| index := 1; originalSize := 1; compressedSize := Some 2 |},
                 Demo.garbage);
                ({| index := 2; originalSize := 1; compressedSize := Some 2 |},
                 [x28; x03])]
             ++ [Text Complete]) p in
  fst result
  = [Returned; Returned; Returned; Threw TypeError; Returned; Returned;
     Threw TypeError]
  /\ receivedChunks (snd result)
     = [Some (Uint8Array [x01]); None; Some (Uint8Array [x03])]
  /\ receivedSize (snd result) = Num 2
  /\ benchmark (snd result)
     = {| bm_originalSize := 7; bm_compressedSize := 9;
          chunksSent := 0; chunksReceived := 2 |}
  /\ receiverState (snd result) = AwaitingChunk
  /\ fileList (snd result) = [].
Proof. vm_compute. repeat split; reflexivity. Qed.

(** ** A new transfer discards an unfinished one *)

Lemma receive_app_snd (fs gs : list Frame) (p : Peer) :
  snd (receive (fs ++ gs) p) = snd (receive gs (snd (receive fs p))).
Proof.
  rewrite receive_app. destruct (receive fs p) as [cs p1]. cbn [snd].
  now destruct (receive gs p1).
Qed.

(** X14.  A Metadata frame wipes out whatever was received since the
    last delivery: when no Completion frame is among the frames [pre],
    the state after [pre] followed by a Metadata frame and any further
    frames is the state after the Metadata frame and those further
    frames alone.  An unfinished transfer leaves no trace, not even in
    the counters. *)
Theorem metadata_discards_unfinished (pre rest : list Frame) (m : FileMetadata)
        (p : Peer) :
  completes pre = 0%nat ->
  snd (receive (pre ++ Text (Metadata m) :: rest) p)
  = snd (receive (Text (Metadata m) :: rest) p).
Proof.
  intros Hpre. rewrite receive_app_snd.
  destruct (receive_effect pre p) as (H1 & H2 & H3 & (new & H4 & H5) & _).
  cbv zeta in *. rewrite Hpre in H5.
  assert (new = []) by (destruct new; [reflexivity | cbn in H5; lia]).
  subst new. rewrite app_nil_r in H4.
  destruct (receive_cons (Text (Metadata m)) rest (snd (receive pre p))) as [-> _].
  destruct (receive_cons (Text (Metadata m)) rest p) as [-> _].
  f_equal. f_equal. cbn [handleDataChannelMessage handleFileMetadata snd].
  now rewrite H1, H2, H3, H4.
Qed.

Lemma metadata_discards_unfinished_witness :
  snd (receive ([Text (Chunk {| index := 0; originalSize := 3;
                                compressedSize := Some 3 |});
                 Binary [x01; x02; x03]]
                ++ Text (Metadata Demo.other) :: [Text Complete])
               Demo.receiving)
  = snd (receive (Text (Metadata Demo.other) :: [Text Complete]) Demo.receiving).
Proof.
  apply (metadata_discards_unfinished
           [Text (Chunk {| index := 0; originalSize := 3;
                           compressedSize := Some 3 |});
            Binary [x01; x02; x03]]
           [Text Complete] Demo.other Demo.receiving).
  reflexivity.
Defined.

(** ** One transfer after another *)

(** X15.  Transfers compose.  Two sends in a row on the same open
    channel, each with its own compression setting, both return; the
    channel is still open after the first; and a receiver handed all the
    frames in order returns from every handler and adds two received
    files, the first payload under the first name and then the second
    payload under the second name. *)
Theorem sequential_transfers
        (jsonBytes : Message -> Z) (fileRead : RTCDataChannel -> Z)
        (bufferedamountlow : RTCDataChannel -> option Z)
        (arrivals : RTCDataChannel -> list Frame)
        (file1 file2 : File) (compression1 compression2 : bool)
        (level1 level2 : Number)
        (sender receiver : Peer) (channel : RTCDataChannel) :
  dataChannel sender = Some channel ->
  readyState channel = open ->
  (forall w, bufferedamountlow w <> None) ->
  (compression1 = true ->
   codecs_fit level1 (zstdCodec sender) (zstdCodec receiver)) ->
  (compression2 = true ->
   codecs_fit level2 (zstdCodec sender) (zstdCodec receiver)) ->
  exists sender1 sender2 fs cs receiver',
    sendFile jsonBytes fileRead bufferedamountlow arrivals (Some file1) compression1
             level1 sender
    = (Returned, sender1)
    /\ sendFile jsonBytes fileRead bufferedamountlow arrivals (Some file2) compression2
                level2 sender1
       = (Returned, sender2)
    /\ sentFrames sender2 = sentFrames sender ++ fs
    /\ receive fs receiver = (cs, receiver')
    /\ Forall (eq Returned) cs
    /\ map (fun e => (file_name e, blob e)) (fileList receiver')
       = map (fun e => (file_name e, blob e)) (fileList receiver)
         ++ [(f_name file1, f_bytes file1); (f_name file2, f_bytes file2)]
    /\ receiverState receiver' = Idle.
Proof.
  intros Hc Hopen Hev Hfit1 Hfit2.
  assert (Hz : forall u l, (u = true -> codecs_fit l (zstdCodec sender)
                                                   (zstdCodec receiver)) ->
                           u = true -> zstdCodec sender <> None).
  { intros u l H Hu. destruct (H Hu) as (zs & _ & -> & _). discriminate. }
  destruct (sendFile_frames jsonBytes fileRead bufferedamountlow arrivals file1
              compression1 level1 sender channel Hc Hopen Hev
              (Hz _ _ Hfit1))
    as (s1 & E1 & F1 & Z1).
  destruct (sendFile_outcome jsonBytes fileRead bufferedamountlow arrivals file1
              compression1 level1 sender channel Returned s1 Hc Hopen E1)
    as (k & c1 & Hc1 & Hopen1 & _).
  assert (Hz2 : compression2 = true -> zstdCodec s1 <> None).
  { rewrite Z1. exact (Hz _ _ Hfit2). }
  destruct (sendFile_frames jsonBytes fileRead bufferedamountlow arrivals file2
              compression2 level2 s1 c1 Hc1 Hopen1 Hev Hz2)
    as (s2 & E2 & F2 & _).
  destruct (receive_transferFrames file1 compression1 level1 (zstdCodec sender)
              receiver Hfit1)
    as (cs1 & r1 & R1 & Hcs1 & L1 & _).
  pose proof (receive_effect (transferFrames (zstdCodec sender) file1
                                             compression1 level1) receiver)
    as Heff. cbv zeta in Heff. rewrite R1 in Heff. cbn [snd] in Heff.
  destruct Heff as (_ & Hzr & _).
  assert (Hfit2' : compression2 = true ->
                   codecs_fit level2 (zstdCodec s1) (zstdCodec r1)).
  { rewrite Z1, Hzr. exact Hfit2. }
  destruct (receive_transferFrames file2 compression2 level2 (zstdCodec s1)
              r1 Hfit2')
    as (cs2 & r2 & R2 & Hcs2 & L2 & I2 & _).
  exists s1, s2,
    (transferFrames (zstdCodec sender) file1 compression1 level1
     ++ transferFrames (zstdCodec s1) file2 compression2 level2),
    (cs1 ++ cs2), r2.
  split; [exact E1|]. split; [exact E2|].
  split; [rewrite F2, F1; now rewrite app_assoc|].
  split; [rewrite receive_app, R1, R2; reflexivity|].
  split; [apply Forall_app; split; assumption|].
  split.
  - rewrite L2, L1, !map_app, <- app_assoc. reflexivity.
  - unfold receiverState. now rewrite I2.
Qed.

Lemma sequential_transfers_witness :
  exists sender1 sender2 fs cs receiver',
    sendFile Demo.jsonBytes Demo.fileRead Demo.bufferedamountlow Demo.quiet
             (Some Demo.hello) true (Num 3) Demo.page
    = (Returned, sender1)
    /\ sendFile Demo.jsonBytes Demo.fileRead Demo.bufferedamountlow Demo.quiet
                (Some Cases.world) false (Num 3) sender1
       = (Returned, sender2)
    /\ sentFrames sender2 = sentFrames Demo.page ++ fs
    /\ receive fs Demo.page = (cs, receiver')
    /\ Forall (eq Returned) cs
    /\ map (fun e => (file_name e, blob e)) (fileList receiver')
       = map (fun e => (file_name e, blob e)) (fileList Demo.page)
         ++ [(f_name Demo.hello, f_bytes Demo.hello);
             (f_name Cases.world, f_bytes Cases.world)]
    /\ receiverState receiver' = Idle.
Proof.
  apply (sequential_transfers Demo.jsonBytes Demo.fileRead Demo.bufferedamountlow Demo.quiet
           Demo.hello Cases.world true false (Num 3) (Num 3)
           Demo.page Demo.page Demo.channel).
  - reflexivity.
  - reflexivity.
  - intros w. discriminate.
  - intros _. exists Demo.store, Demo.store. repeat split; reflexivity.
  - discriminate.
Defined.

(** ** The counters of the two peers *)

Lemma decodeChunk_fit (codec : option ZstdStreaming) (useCompression : bool)
      (level : Number) (buf : bytes) (ixs : list Z) (p : Peer) (f : IncomingFile) :
  compressed f = useCompression ->
  (useCompression = true -> codecs_fit level codec (zstdCodec p)) ->
  length (held (flat_map (fun pair => decodeChunk p f (snd pair))
                         (chunkPairs codec useCompression level buf ixs)))
  = length (chunkPairs codec useCompression level buf ixs).
Proof.
  intros Hc Hfit. induction ixs as [|i ixs IH]; [reflexivity|].
  unfold chunkPairs in *. cbn [flat_map].
  rewrite flat_map_app, held_length_app, length_app, IH.
  f_equal. unfold encodeChunk, decodeChunk, decompressData. rewrite Hc.
  destruct useCompression.
  - destruct (Hfit eq_refl) as (zs & zr & -> & -> & Hinv).
    cbn [flat_map snd contents app]. now rewrite Hinv.
  - reflexivity.
Qed.

(** X16.  At the end of a one-way transfer the two peers hold the same
    figures.  Take a send that returned and during which no frame
    arrived on the sending page, and a receiving page that handles the
    frames of that send one after the other and does nothing else
    meanwhile (codecs fitting if compression is on).  Then
    [originalSize] is the payload length on both pages, [compressedSize]
    is on both pages the number of bytes of the binary frames, and the
    sender's [chunksSent] equals the receiver's [chunksReceived], both
    the announced chunk count; so both compute the same compression
    ratio. *)
Theorem peers_counters_agree
        (jsonBytes : Message -> Z) (fileRead : RTCDataChannel -> Z)
        (bufferedamountlow : RTCDataChannel -> option Z)
        (arrivals : RTCDataChannel -> list Frame)
        (file : File) (useCompression : bool) (level : Number)
        (sender receiver : Peer) (channel : RTCDataChannel) :
  dataChannel sender = Some channel ->
  readyState channel = open ->
  (forall w, bufferedamountlow w <> None) ->
  (forall w, arrivals w = []) ->
  (useCompression = true ->
   codecs_fit level (zstdCodec sender) (zstdCodec receiver)) ->
  exists sender' fs,
    sendFile jsonBytes fileRead bufferedamountlow arrivals (Some file) useCompression
             level sender
    = (Returned, sender')
    /\ sentFrames sender' = sentFrames sender ++ fs
    /\ benchmark sender'
       = {| bm_originalSize := len (f_bytes file);
            bm_compressedSize := wireBytes fs;
            chunksSent := Math_ceil_div (len (f_bytes file)) CHUNK_SIZE;
            chunksReceived := 0 |}
    /\ benchmark (snd (receive fs receiver))
       = {| bm_originalSize := len (f_bytes file);
            bm_compressedSize := wireBytes fs;
            chunksSent := 0;
            chunksReceived := Math_ceil_div (len (f_bytes file)) CHUNK_SIZE |}.
Proof.
  intros Hc Hopen Hev Hquiet Hfit.
  assert (Hz : useCompression = true -> zstdCodec sender <> None).
  { intros Hu. destruct (Hfit Hu) as (zs & _ & -> & _). discriminate. }
  destruct (sendFile_frames jsonBytes fileRead bufferedamountlow arrivals file
              useCompression level sender channel Hc Hopen Hev Hz)
    as (s1 & E & _).
  destruct (sendFile_outcome jsonBytes fileRead bufferedamountlow arrivals file
              useCompression level sender channel Returned s1 Hc Hopen E)
    as (k & c1 & _ & _ & _ & Hlen & F & Hret & _ & _ & Hq).
  destruct (Hq Hquiet) as [_ Hb].
  specialize (Hret eq_refl). subst k.
  set (n := Math_ceil_div (f_size file) CHUNK_SIZE) in *.
  set (prs := chunkPairs (zstdCodec sender) useCompression level (f_bytes file)
                         (indices (Z.to_nat n) 0)) in *.
  assert (Hn : 0 <= n)
    by (apply Math_ceil_div_nonneg; [apply CHUNK_SIZE_pos | apply len_nonneg]).
  exists s1. eexists. split; [exact E|]. split; [exact F|].
  assert (Hw : wireBytes (Text (Metadata (fileMetadata file useCompression level))
                          :: flat_map pairFrames prs ++ closing_frames Returned)
               = sumZ (map (fun pair => len (snd pair)) prs)).
  { change (wireBytes (Text ?m :: ?l)) with (wireBytes l).
    rewrite wireBytes_app, wireBytes_pairFrames. cbn. lia. }
  rewrite Hw. split.
  { rewrite Hb. unfold f_size. f_equal. fold (f_size file). fold n. lia. }
  (* the receiver *)
  cbn [closing_frames].
  destruct (receive_cons (Text (Metadata (fileMetadata file useCompression level)))
              (flat_map pairFrames prs ++ [Text Complete]) receiver) as [-> _].
  rewrite receive_app_snd.
  set (p0 := snd (handleDataChannelMessage
                    (Text (Metadata (fileMetadata file useCompression level)))
                    receiver)).
  pose proof (receive_pairs prs p0
                {| name := f_name file; size := f_size file;
                   mimeType := f_type file; compressed := useCompression;
                   totalChunks := n; currentChunk := None |} eq_refl) as H.
  cbv zeta in H. destruct H as (_ & _ & B1 & B2 & B3 & B4).
  pose proof (decodeChunk_fit (zstdCodec sender) useCompression level (f_bytes file)
             (indices (Z.to_nat n) 0) p0
             {| name := f_name file; size := f_size file;
                mimeType := f_type file; compressed := useCompression;
                totalChunks := n; currentChunk := None |} eq_refl Hfit) as Hd.
  fold prs in Hd. rewrite Hd, Hlen in B4.
  destruct (receive_cons (Text Complete) []
              (snd (receive (flat_map pairFrames prs) p0))) as [-> _].
  cbn [receive snd handleDataChannelMessage].
  destruct (handleTransferComplete_effect
              (snd (receive (flat_map pairFrames prs) p0)))
    as (_ & _ & _ & -> & _).
  destruct (benchmark (snd (receive (flat_map pairFrames prs) p0))).
  cbn in B1, B2, B3, B4. subst. f_equal. unfold n, f_size in *. lia.
Qed.

Lemma peers_counters_agree_witness :
  exists sender' fs,
    sendFile Demo.jsonBytes Demo.fileRead Demo.bufferedamountlow Demo.quiet
             (Some Demo.hello) true (Num 3) Demo.page
    = (Returned, sender')
    /\ sentFrames sender' = sentFrames Demo.page ++ fs
    /\ benchmark sender'
       = {| bm_originalSize := len (f_bytes Demo.hello);
            bm_compressedSize := wireBytes fs;
            chunksSent := Math_ceil_div (len (f_bytes Demo.hello)) CHUNK_SIZE;
            chunksReceived := 0 |}
    /\ benchmark (snd (receive fs Demo.receiving))
       = {| bm_originalSize := len (f_bytes Demo.hello);
            bm_compressedSize := wireBytes fs;
            chunksSent := 0;
            chunksReceived := Math_ceil_div (len (f_bytes Demo.hello)) CHUNK_SIZE |}.
Proof.
  apply (peers_counters_agree Demo.jsonBytes Demo.fileRead Demo.bufferedamountlow Demo.quiet
           Demo.hello true (Num 3) Demo.page Demo.receiving Demo.channel).
  - reflexivity.
  - reflexivity.
  - intros w. discriminate.
  - intros w. reflexivity.
  - intros _. exists Demo.store, Demo.store. repeat split; reflexivity.
Defined.

(** ** The drain wait by itself *)

(** X17.  [waitForBufferDrain(channel, threshold)], for any channel and
    any threshold: with at most [threshold] buffered it resolves at once
    and leaves the channel exactly as it was (the low threshold is not
    touched, no listener waits); with more buffered it sets the
    channel's [bufferedAmountLowThreshold] to [threshold] and waits for
    the event; it never sends and never changes the channel's state;
    and when the browser fires the event only with the buffered amount
    at or below the low threshold, it resolves only with at most
    [threshold] buffered. *)
Theorem waitForBufferDrain_contract
        (bufferedamountlow : RTCDataChannel -> option Z)
        (channel : RTCDataChannel) (threshold : Z) :
  (forall w b, bufferedamountlow w = Some b -> b <= bufferedAmountLowThreshold w) ->
  let result := waitForBufferDrain bufferedamountlow channel threshold in
  (fst result = Returned \/ fst result = Pending)
  /\ (fst result = Returned -> bufferedAmount (snd result) <= threshold)
  /\ (bufferedAmount channel <= threshold -> result = (Returned, channel))
  /\ (threshold < bufferedAmount channel ->
      bufferedAmountLowThreshold (snd result) = threshold
      /\ exists tail,
           history (snd result)
           = history channel ++ Suspended (bufferedAmount channel) :: tail
           /\ (fst result = Pending -> tail = []))
  /\ frames (history (snd result)) = frames (history channel)
  /\ readyState (snd result) = readyState channel.
Proof.
  intros Hlow. cbv zeta.
  destruct (waitForBufferDrain bufferedamountlow channel threshold) as [r c'] eqn:E.
  pose proof (frames_waitForBufferDrain _ _ _ _ _ E) as Hf.
  destruct (waitForBufferDrain_outcome _ _ _ _ _ E) as [Hr Hs].
  cbn [fst snd]. split; [exact Hr|].
  unfold waitForBufferDrain in E.
  destruct (Z.leb_spec (bufferedAmount channel) threshold) as [Hle|Hgt].
  - injection E as <- <-. repeat split; try assumption; try reflexivity; lia.
  - match type of E with context [bufferedamountlow ?w] =>
      pose proof (Hlow w) as Hw; destruct (bufferedamountlow w) as [b|] end.
    + specialize (Hw b eq_refl). cbn in Hw. injection E as <- <-.
      cbn. repeat split; try assumption; try lia.
      exists [Resumed b]. rewrite <- app_assoc. split; [reflexivity | discriminate].
    + injection E as <- <-. cbn. repeat split; try assumption; try lia;
        try discriminate.
      exists []. split; reflexivity.
Qed.

Lemma waitForBufferDrain_contract_witness :
  let result :=
    waitForBufferDrain Demo.bufferedamountlow Demo.busy 1000 in
  (fst result = Returned \/ fst result = Pending)
  /\ (fst result = Returned -> bufferedAmount (snd result) <= 1000)
  /\ (bufferedAmount Demo.busy <= 1000 -> result = (Returned, Demo.busy))
  /\ (1000 < bufferedAmount Demo.busy ->
      bufferedAmountLowThreshold (snd result) = 1000
      /\ exists tail,
           history (snd result)
           = history Demo.busy ++ Suspended (bufferedAmount Demo.busy) :: tail
           /\ (fst result = Pending -> tail = []))
  /\ frames (history (snd result)) = frames (history Demo.busy)
  /\ readyState (snd result) = readyState Demo.busy.
Proof.
  apply (waitForBufferDrain_contract Demo.bufferedamountlow Demo.busy 1000).
  intros w b H. unfold Demo.bufferedamountlow in H. injection H as <-. lia.
Defined.

(** ** What stays buffered when a send returns *)

Section Leftover.

Variable jsonBytes : Message -> Z.
Variable fileRead : RTCDataChannel -> Z.
Variable bufferedamountlow : RTCDataChannel -> option Z.
Variable arrivals : RTCDataChannel -> list Frame.

Hypothesis low_event :
  forall w b, bufferedamountlow w = Some b -> b <= bufferedAmountLowThreshold w.

(** A loop of at least one iteration that returns leaves at most the
    threshold buffered, whatever was buffered when it started. *)
Lemma sendChunks_leftover (useCompression : bool) (level : Number) (buf : bytes)
      (n : nat) :
  forall (i : Z) (c : RTCDataChannel) (p : Peer) (c' : RTCDataChannel) (p' : Peer),
    sendChunks jsonBytes bufferedamountlow arrivals useCompression level buf (S n) i c p
    = (Returned, (c', p')) ->
    bufferedAmount c' <= BUFFER_THRESHOLD.
Proof.
  induction n as [|n IH]; intros i c p c' p' E;
    rewrite sendChunks_step in E;
    (destruct (encodeChunk (zstdCodec p) useCompression level (chunkAt buf i))
       as [data|]; [|discriminate E]);
    cbv zeta in E;
    match type of E with context [BUFFER_THRESHOLD <? bufferedAmount ?c2] =>
      destruct (Z.ltb_spec BUFFER_THRESHOLD (bufferedAmount c2)) as [Hover|Hunder];
      [destruct (waitForBufferDrain bufferedamountlow c2 BUFFER_THRESHOLD)
         as [w c3] eqn:Hw;
       destruct w;
       [pose proof (waitForBufferDrain_low _ _ _ _ low_event Hw) as Hb
       | discriminate E | discriminate E]
      |]
    end.
  - cbn [sendChunks] in E. now injection E as <- _.
  - cbn [sendChunks] in E. now injection E as <- _.
  - now apply IH in E.
  - now apply IH in E.
Qed.

(** X18.  When the browser fires the low-water event only with the
    buffered amount at or below the low threshold, a send of a non-empty
    file that returns leaves on the channel at most the 1 MiB threshold
    plus the bytes of the Completion frame, however much was buffered
    when it started. *)
Theorem send_leaves_buffer_bounded
        (file : File) (useCompression : bool) (level : Number)
        (p p' : Peer) (c : RTCDataChannel) :
  dataChannel p = Some c ->
  readyState c = open ->
  f_bytes file <> [] ->
  sendFile jsonBytes fileRead bufferedamountlow arrivals (Some file) useCompression level p
  = (Returned, p') ->
  exists c',
    dataChannel p' = Some c'
    /\ bufferedAmount c' <= 1048576 + jsonBytes Complete.
Proof.
  intros Hc Hopen Hne E. unfold sendFile in E. rewrite Hc, Hopen in E.
  cbn [is_open negb] in E.
  assert (Hn : 1 <= Math_ceil_div (len (f_bytes file)) CHUNK_SIZE).
  { pose proof (Math_ceil_div_bounds (len (f_bytes file)) _ CHUNK_SIZE_pos) as B.
    pose proof CHUNK_SIZE_pos. pose proof (len_nonneg (f_bytes file)).
    destruct (Z.eq_dec (len (f_bytes file)) 0) as [E0|E0];
      [now apply len_nil_inv in E0 | nia]. }
  replace (Z.to_nat (Math_ceil_div (len (f_bytes file)) CHUNK_SIZE))
    with (S (Z.to_nat (Math_ceil_div (len (f_bytes file)) CHUNK_SIZE - 1))) in E
    by lia.
  match type of E with context [sendChunks _ _ _ ?u ?l ?b (S ?n) 0 ?c2 ?p0] =>
    destruct (sendChunks jsonBytes bufferedamountlow arrivals u l b (S n) 0 c2 p0)
      as [r [c3 p1]] eqn:L end.
  destruct r; try discriminate E.
  apply sendChunks_leftover in L. injection E as <-.
  eexists. split; [reflexivity|]. cbn [bufferedAmount send frameBytes].
  rewrite <- BUFFER_THRESHOLD_val. lia.
Qed.

End Leftover.

Lemma send_leaves_buffer_bounded_witness :
  exists c',
    dataChannel
      (snd (sendFile Demo.jsonBytes Demo.fileRead Demo.bufferedamountlow Demo.quiet
                     (Some Demo.hello) false (Num 3)
                     (set_dataChannel (Some Demo.busy) Demo.page)))
    = Some c'
    /\ bufferedAmount c' <= 1048576 + Demo.jsonBytes Complete.
Proof.
  apply (send_leaves_buffer_bounded Demo.jsonBytes Demo.fileRead
           Demo.bufferedamountlow Demo.quiet
           ltac:(intros w b H; unfold Demo.bufferedamountlow in H;
                 injection H as <-; lia)
           Demo.hello false (Num 3)
           (set_dataChannel (Some Demo.busy) Demo.page)
           (snd (sendFile Demo.jsonBytes Demo.fileRead Demo.bufferedamountlow Demo.quiet
                          (Some Demo.hello) false (Num 3)
                          (set_dataChannel (Some Demo.busy) Demo.page)))
           Demo.busy).
  - reflexivity.
  - reflexivity.
  - discriminate.
  - vm_compute. reflexivity.
Defined.

(** * C9: backpressure over a whole send *)

(** The send from [Demo.busy]: 1048570 bytes are buffered when
    [sendFile] is called, 6 below the threshold.  The Metadata frame
    takes the amount above the threshold and nothing is checked; the one
    chunk (64 bytes of header, 5 of payload) is sent on top of it; only
    then is the amount looked at and the sender suspended. *)
Example send_from_busy :
  let result :=
    sendFile Demo.jsonBytes Demo.fileRead Demo.bufferedamountlow Demo.quiet
             (Some Demo.hello) false (Num 3)
             (set_dataChannel (Some Demo.busy) Demo.page) in
  fst result = Returned
  /\ option_map history (dataChannel (snd result))
     = Some [Sent (Text (Metadata (fileMetadata Demo.hello false (Num 3)))) 1048634;
             Sent (Text (Chunk {| index := 0; originalSize := 5;
                                  compressedSize := Some 5 |})) 1048698;
             Sent (Binary [x68; x65; x6c; x6c; x6f]) 1048703;
             Suspended 1048703;
             Resumed 1048576;
             Sent (Text Complete) 1048640].
Proof. vm_compute. split; reflexivity. Qed.

(** C9 as stated fails.  The claim bounds what is buffered before the
    first drain wait by the threshold plus one chunk's worth of bytes.
    In the send from [Demo.busy] the chunk is worth 69 bytes (its header
    frame and its binary frame), but 1048703 bytes are buffered after
    its binary frame and before any drain wait: 127 above the
    threshold.  The amount is not looked at after the Metadata frame nor
    before the first chunk, so what was buffered before the send and the
    Metadata frame come on top of the chunk. *)
Lemma backpressure_counterexample :
  let result :=
    sendFile Demo.jsonBytes Demo.fileRead Demo.bufferedamountlow Demo.quiet
             (Some Demo.hello) false (Num 3)
             (set_dataChannel (Some Demo.busy) Demo.page) in
  let worth :=
    Demo.jsonBytes (Chunk {| index := 0; originalSize := 5;
                             compressedSize := Some 5 |})
    + len (f_bytes Demo.hello) in
  worth = 69
  /\ ~ (forall c' pre f b post,
          dataChannel (snd result) = Some c' ->
          history c' = pre ++ Sent f b :: post ->
          suspensions pre = [] ->
          b <= BUFFER_THRESHOLD + worth).
Proof.
  cbv zeta. split; [reflexivity|]. intros H.
  specialize (H _
                [Sent (Text (Metadata (fileMetadata Demo.hello false (Num 3)))) 1048634;
                 Sent (Text (Chunk {| index := 0; originalSize := 5;
                                      compressedSize := Some 5 |})) 1048698]
                (Binary [x68; x65; x6c; x6c; x6f]) 1048703
                [Suspended 1048703; Resumed 1048576; Sent (Text Complete) 1048640]
                eq_refl eq_refl eq_refl).
  vm_compute in H. now apply H.
Qed.

(** What is buffered before a send carries over without bound.  The
    first send, of four chunks, hangs in its first drain wait (the event
    never comes) with 1114234 bytes buffered; a second send started
    meanwhile writes its Metadata frame and its chunk on top of that,
    and only then is suspended, with 65791 bytes above the threshold:
    more than the largest chunk there can be (65536 bytes and its
    header). *)
Example backlog_carries_over :
  let stuck :=
    sendFile Demo.jsonBytes Demo.fileRead Cases.never Demo.quiet
             (Some Demo.zeroes) false (Num 3)
             (set_dataChannel (Some Demo.busy) Demo.page) in
  let result :=
    sendFile Demo.jsonBytes Demo.fileRead Cases.never Demo.quiet
             (Some Demo.hello) false (Num 3) (snd stuck) in
  fst stuck = Pending
  /\ option_map bufferedAmount (dataChannel (snd stuck)) = Some 1114234
  /\ fst result = Pending
  /\ option_map (fun c => suspensions (history c)) (dataChannel (snd result))
     = Some [1114234; 1114367]
  /\ 1114367 - BUFFER_THRESHOLD = 65791.
Proof. vm_compute. repeat split; reflexivity. Qed.

(** C9, amended.  When the browser fires the low-water event only once
    the buffered amount is at or below the channel's low threshold, a
    send that got past its guard, whatever the file, the compression
    setting, the amount buffered beforehand and the way the send ends,
    writes the Metadata frame and then, for each chunk in turn, the
    header frame and the binary frame, and looks at the buffered amount
    after every chunk, and only there (not after the Metadata frame, not
    before the first chunk).  Whenever the amount is then above the
    1 MiB threshold the sender is suspended at once, before any further
    frame, and when it resumes at most the threshold is buffered;
    otherwise it goes on at once.  Every chunk but the first is therefore
    begun with at most the threshold buffered, and after it the
    threshold is exceeded by at most the bytes of that one chunk (its
    header frame and its binary frame).  The first chunk is sent on top
    of whatever is buffered when the loop starts (what was buffered
    before the send, and the Metadata frame).  A send left pending
    stopped in a drain wait; a send that returned sent every chunk and
    then the Completion frame. *)
Theorem drain_wait_after_every_chunk
        (jsonBytes : Message -> Z) (fileRead : RTCDataChannel -> Z)
        (bufferedamountlow : RTCDataChannel -> option Z)
        (arrivals : RTCDataChannel -> list Frame)
        (file : File) (useCompression : bool) (level : Number)
        (p : Peer) (c : RTCDataChannel) :
  dataChannel p = Some c ->
  readyState c = open ->
  (forall w b, bufferedamountlow w = Some b -> b <= bufferedAmountLowThreshold w) ->
  let result :=
    sendFile jsonBytes fileRead bufferedamountlow arrivals (Some file)
             useCompression level p in
  let m := fileMetadata file useCompression level in
  let start := fileRead (send jsonBytes (Text (Metadata m)) c) in
  let sent k :=
    chunkPairs (zstdCodec p) useCompression level (f_bytes file) (indices k 0) in
  BUFFER_THRESHOLD = 1048576
  /\ exists c' k tr tail,
       dataChannel (snd result) = Some c'
       /\ history c'
          = history c
            ++ Sent (Text (Metadata m)) (bufferedAmount c + jsonBytes (Metadata m))
            :: tr ++ tail
       /\ (k <= Z.to_nat (Math_ceil_div (f_size file) CHUNK_SIZE))%nat
       /\ length (sent k) = k
       /\ frames tr = flat_map pairFrames (sent k)
       /\ (fst result = Returned ->
           k = Z.to_nat (Math_ceil_div (f_size file) CHUNK_SIZE)
           /\ exists b, tail = [Sent (Text Complete) b])
       /\ (fst result <> Returned -> tail = [])
       /\ (fst result = Pending -> exists pre b, tr = pre ++ [Suspended b])
       /\ governed jsonBytes start tr
       /\ forall pre h b1 d b2 post,
            tr = pre ++ Sent (Text (Chunk h)) b1 :: Sent (Binary d) b2 :: post ->
            (BUFFER_THRESHOLD < b2 -> exists post', post = Suspended b2 :: post')
            /\ (b2 <= BUFFER_THRESHOLD ->
                forall b post', post <> Suspended b :: post')
            /\ (forall b post', post = Suspended b2 :: Resumed b :: post' ->
                b <= BUFFER_THRESHOLD)
            /\ (pre = [] -> b2 = start + jsonBytes (Chunk h) + len d)
            /\ (pre <> [] ->
                b2 <= BUFFER_THRESHOLD + (jsonBytes (Chunk h) + len d)).
Proof.
  intros Hc Hopen Hlow. cbv zeta. split; [exact BUFFER_THRESHOLD_val|].
  unfold sendFile. rewrite Hc, Hopen. cbn [is_open negb].
  fold (fileMetadata file useCompression level).
  set (m := fileMetadata file useCompression level).
  set (c1 := send jsonBytes (Text (Metadata m)) c).
  set (c2 := {| readyState := readyState c1; bufferedAmount := fileRead c1;
                bufferedAmountLowThreshold := bufferedAmountLowThreshold c1;
                history := history c1 |}).
  match goal with |- context [sendChunks _ _ _ _ _ _ ?n0 0 c2 ?p0] =>
    set (q := p0); set (n := n0)
  end.
  destruct (sendChunks_governed jsonBytes bufferedamountlow arrivals Hlow
              useCompression level (f_bytes file) n 0 c2 q)
    as (tr & Ht & Hg & Hpend).
  destruct (sendChunks jsonBytes bufferedamountlow arrivals useCompression level
                       (f_bytes file) n 0 c2 q) as [r [c3 p1]] eqn:L.
  cbn [fst snd] in Ht, Hpend.
  destruct (sendChunks_outcome jsonBytes fileRead bufferedamountlow arrivals useCompression
              level (f_bytes file) n 0 c2 q r c3 p1 L)
    as (k & Hk & Hlen & F & Hret & _).
  assert (Hq : zstdCodec q = zstdCodec p)
    by (unfold q; now rewrite receive_zstdCodec).
  rewrite Hq in Hlen, F.
  assert (Hfr : frames tr
                = flat_map pairFrames
                    (chunkPairs (zstdCodec p) useCompression level (f_bytes file)
                                (indices k 0))).
  { rewrite Ht, frames_app in F. now apply app_inv_head in F. }
  assert (Hh2 : history c2
                = history c
                  ++ [Sent (Text (Metadata m))
                           (bufferedAmount c + jsonBytes (Metadata m))])
    by reflexivity.
  assert (Hn : n = Z.to_nat (Math_ceil_div (f_size file) CHUNK_SIZE))
    by reflexivity.
  pose proof (governed_chunk_bound jsonBytes (bufferedAmount c2) tr Hg) as Hbound.
  change (bufferedAmount c2) with (fileRead c1) in Hg, Hbound.
  destruct r.
  - exists (send jsonBytes (Text Complete) c3), k, tr,
      [Sent (Text Complete) (bufferedAmount c3 + jsonBytes Complete)].
    cbn [fst snd dataChannel set_dataChannel history send frameBytes].
    rewrite Ht, Hh2, <- !app_assoc. cbn [app].
    split; [reflexivity|]. split; [reflexivity|].
    split; [rewrite <- Hn; exact Hk|]. split; [exact Hlen|]. split; [exact Hfr|].
    split; [intros _; split; [rewrite <- Hn; auto | eauto]|].
    split; [intros H; now destruct H|].
    split; [discriminate|]. split; [exact Hg | exact Hbound].
  - exists c3, k, tr, [].
    cbn [fst snd dataChannel set_dataChannel].
    rewrite Ht, Hh2, <- !app_assoc, app_nil_r. cbn [app].
    split; [reflexivity|]. split; [reflexivity|].
    split; [rewrite <- Hn; exact Hk|]. split; [exact Hlen|]. split; [exact Hfr|].
    split; [discriminate|]. split; [reflexivity|].
    split; [discriminate|]. split; [exact Hg | exact Hbound].
  - exists c3, k, tr, [].
    cbn [fst snd dataChannel set_dataChannel].
    rewrite Ht, Hh2, <- !app_assoc, app_nil_r. cbn [app].
    split; [reflexivity|]. split; [reflexivity|].
    split; [rewrite <- Hn; exact Hk|]. split; [exact Hlen|]. split; [exact Hfr|].
    split; [discriminate|]. split; [reflexivity|].
    split; [exact Hpend|]. split; [exact Hg | exact Hbound].
Qed.

Lemma drain_wait_after_every_chunk_witness :
  let p := set_dataChannel (Some Demo.busy) Demo.page in
  let result :=
    sendFile Demo.jsonBytes Demo.fileRead Demo.bufferedamountlow Demo.quiet
             (Some Demo.hello) false (Num 3) p in
  let m := fileMetadata Demo.hello false (Num 3) in
  let start := Demo.fileRead (send Demo.jsonBytes (Text (Metadata m)) Demo.busy) in
  let sent k :=
    chunkPairs (zstdCodec p) false (Num 3) (f_bytes Demo.hello) (indices k 0) in
  BUFFER_THRESHOLD = 1048576
  /\ exists c' k tr tail,
       dataChannel (snd result) = Some c'
       /\ history c'
          = history Demo.busy
            ++ Sent (Text (Metadata m))
                    (bufferedAmount Demo.busy + Demo.jsonBytes (Metadata m))
            :: tr ++ tail
       /\ (k <= Z.to_nat (Math_ceil_div (f_size Demo.hello) CHUNK_SIZE))%nat
       /\ length (sent k) = k
       /\ frames tr = flat_map pairFrames (sent k)
       /\ (fst result = Returned ->
           k = Z.to_nat (Math_ceil_div (f_size Demo.hello) CHUNK_SIZE)
           /\ exists b, tail = [Sent (Text Complete) b])
       /\ (fst result <> Returned -> tail = [])
       /\ (fst result = Pending -> exists pre b, tr = pre ++ [Suspended b])
       /\ governed Demo.jsonBytes start tr
       /\ forall pre h b1 d b2 post,
            tr = pre ++ Sent (Text (Chunk h)) b1 :: Sent (Binary d) b2 :: post ->
            (BUFFER_THRESHOLD < b2 -> exists post', post = Suspended b2 :: post')
            /\ (b2 <= BUFFER_THRESHOLD ->
                forall b post', post <> Suspended b :: post')
            /\ (forall b post', post = Suspended b2 :: Resumed b :: post' ->
                b <= BUFFER_THRESHOLD)
            /\ (pre = [] -> b2 = start + Demo.jsonBytes (Chunk h) + len d)
            /\ (pre <> [] ->
                b2 <= BUFFER_THRESHOLD + (Demo.jsonBytes (Chunk h) + len d)).
Proof.
  apply (drain_wait_after_every_chunk Demo.jsonBytes Demo.fileRead
           Demo.bufferedamountlow Demo.quiet Demo.hello false (Num 3)
           (set_dataChannel (Some Demo.busy) Demo.page) Demo.busy).
  - reflexivity.
  - reflexivity.
  - intros w b H. unfold Demo.bufferedamountlow in H. injection H as <-. lia.
Defined.
